(** * Verification of the recording pipeline of [ved/movie.py]

    Shallow embedding of [Movie] ([src/ved/movie.py]) and [Audio]
    ([src/ved/node/audio.py]).  Python floats are IEEE-754 binary64 numbers,
    modelled with the executable specification [SpecFloat] of the Standard
    Library ([prec = 53], [emax = 1024], rounding to nearest even).  Python
    exceptions are the error branch of a small result monad. *)

From Stdlib Require Import ZArith List Bool String Ascii Lia.
From Stdlib Require Import Floats.SpecFloat DecimalString.
From Stdlib Require DecimalNat.
Import ListNotations.
Open Scope Z_scope.
Open Scope string_scope.
Open Scope list_scope.

(** ** Python floats *)

Module PyFloat.

Definition t := spec_float.

Definition add (x y : t) : t := SFadd 53 1024 x y.
Definition mul (x y : t) : t := SFmul 53 1024 x y.
Definition div (x y : t) : t := SFdiv 53 1024 x y.
Definition leb (x y : t) : bool := SFleb x y.
Definition ltb (x y : t) : bool := SFltb x y.
Definition eqb (x y : t) : bool := SFeqb x y.

(** [float(n)] for a Python int: round to nearest, ties to even. *)
Definition of_Z (n : Z) : t := binary_normalize 53 1024 n 0 false.

Definition zero : t := S754_zero false.
Definition one : t := of_Z 1.

(** The exact value [m * 2^e] of a finite float, as a pair of integers
    with a common exponent, used by the exact float remainder. *)
Definition signed_mant (s : bool) (m : positive) : Z :=
  if s then Z.neg m else Z.pos m.

End PyFloat.

Abbreviation float := PyFloat.t.

(** ** Python exceptions and the result monad *)

Inductive exn :=
| AttributeError (attr : string)
| TypeError
| StructError
| NotImplementedError
| UnboundLocalError
| ZeroDivisionError
| OverflowError
| ValueError
| NodeFailure (node_id : nat)
| WaveError
| OSError
| EncoderError (cmd : string) (stderr : list Z).

Inductive result (A : Type) :=
| Ok (a : A)
| Err (e : exn).
Arguments Ok {A} a.
Arguments Err {A} e.

Definition bind {A B} (r : result A) (k : A -> result B) : result B :=
  match r with
  | Ok a => k a
  | Err e => Err e
  end.

Notation "x <- r ;; k" := (bind r (fun x => k))
  (at level 61, r at next level, right associativity).

(** Python's [x % y == 0] for floats [x] and [y].  Python computes the
    remainder exactly (it is always representable), so it is zero exactly
    when the real value of [x] is an integer multiple of that of [y]. *)
Definition py_fmod_is_zero (x y : float) : result bool :=
  match y with
  | S754_zero _ => Err ZeroDivisionError
  | S754_nan => Ok false
  | S754_infinity _ =>
      match x with
      | S754_zero _ => Ok true
      | _ => Ok false
      end
  | S754_finite sy my ey =>
      match x with
      | S754_zero _ => Ok true
      | S754_finite sx mx ex =>
          let e := Z.min ex ey in
          let X := PyFloat.signed_mant sx mx * 2 ^ (ex - e) in
          let Y := PyFloat.signed_mant sy my * 2 ^ (ey - e) in
          Ok (Z.eqb (Z.rem X Y) 0)
      | _ => Ok false
      end
  end.

(** [int(x)] for a float: truncation toward zero. *)
Definition py_int (x : float) : result Z :=
  match x with
  | S754_zero _ => Ok 0
  | S754_finite s m e =>
      if Z.leb 0 e then Ok (PyFloat.signed_mant s m * 2 ^ e)
      else Ok (if s then - (Z.pos m / 2 ^ (- e)) else Z.pos m / 2 ^ (- e))
  | S754_infinity _ => Err OverflowError
  | S754_nan => Err ValueError
  end.

(** The integer part, truncated toward zero, of the exact value [v * 2^e]:
    what [int()] gives for a float of that value. *)
Definition int_part (v e : Z) : Z := Z.quot (v * 2 ^ Z.max 0 e) (2 ^ Z.max 0 (- e)).

(** ** [gcd] and [lcm] (movie.py, lines 243-250) *)

(** [gcd(a, b)]: [if a == 0: return b; return gcd(b % a, a)].  Python's [%]
    on ints is [Z.modulo] (result has the sign of the divisor).  The
    recursion is bounded by a fuel argument; [gcd_fuel] below is enough. *)
Fixpoint gcd_aux (fuel : nat) (a b : Z) : Z :=
  match fuel with
  | O => b
  | S f => if Z.eqb a 0 then b else gcd_aux f (b mod a) a
  end.

Definition gcd (a b : Z) : Z := gcd_aux (S (Z.to_nat (Z.abs a))) a b.

(** [lcm(a, b)]: [(a * b) / gcd(a, b)] is Python's true division of two
    ints, which returns the float nearest to the exact quotient; here the
    quotient is an integer, so the result is [float] of it. *)
Definition lcm_exact (a b : Z) : Z := (a * b) / gcd a b.
Definition lcm (a b : Z) : result float :=
  if Z.eqb (gcd a b) 0 then Err ZeroDivisionError
  else match PyFloat.of_Z (lcm_exact a b) with
       | S754_infinity _ => Err OverflowError
       | f => Ok f
       end.

(** ** Python objects for nodes

    A node is a Python object: a class tag (is it an [Audio] or a [Video]
    instance, for [isinstance]) and its attributes.  An attribute read that
    finds nothing raises [AttributeError].  The [Node] base class
    ([ved/node/node.py]) is not part of the sources; it is modelled as
    contributing no attribute of its own. *)

Inductive pyval :=
| PInt (z : Z)
| PBool (b : bool)
| PFloat (f : float)
| PFloats (l : list float)
| PNone.

Inductive pyclass := CAudio | CVideo | COther.

Record node := mkNode {
  node_id : nat;                         (** object identity *)
  node_cls : pyclass;
  node_attrs : list (string * pyval)
}.

Fixpoint assoc_find {A} (k : string) (l : list (string * A)) : option A :=
  match l with
  | [] => None
  | (k', v) :: l' => if String.eqb k k' then Some v else assoc_find k l'
  end.

Definition getattr (n : node) (a : string) : result pyval :=
  match assoc_find a (node_attrs n) with
  | Some v => Ok v
  | None => Err (AttributeError a)
  end.

(** [Audio.__init__(sample_size, sample_rate, output=False)]
    (audio.py, lines 7-19). *)
Definition Audio_init (id : nat) (sample_size sample_rate : Z) (output : bool)
  : node :=
  mkNode id CAudio
    [("sample_size", PInt sample_size);
     ("sample_rate", PInt sample_rate);
     ("output", PBool output);
     ("sample", PFloat PyFloat.zero)].

(** Truth value of an attribute, as in [if x] / [x and y]. *)
Definition truthy (v : pyval) : bool :=
  match v with
  | PInt z => negb (Z.eqb z 0)
  | PBool b => b
  | PFloat f => negb (PyFloat.eqb f PyFloat.zero)
  | PFloats l => match l with [] => false | _ => true end
  | PNone => false
  end.

(** A number as a float, for comparisons of numbers with the clock
    (ints up to 2^53 compare exactly through the conversion). *)
Definition num_as_float (v : pyval) : result float :=
  match v with
  | PInt z => Ok (PyFloat.of_Z z)
  | PBool b => Ok (PyFloat.of_Z (if b then 1 else 0))
  | PFloat f => Ok f
  | _ => Err TypeError
  end.

(** [v == k] for an int constant [k]. *)
Definition eq_int (v : pyval) (k : Z) : bool :=
  match v with
  | PInt z => Z.eqb z k
  | PBool b => Z.eqb (if b then 1 else 0) k
  | PFloat f => PyFloat.eqb f (PyFloat.of_Z k)
  | _ => false
  end.

(** ** External collaborators

    The evaluation of a node ([node(movie)]), pyglet's frame buffer access,
    the operating system's answers to [open] and [tempfile.mkdtemp], the
    external encoder process and the text of a float in [str.format] are
    outside this repository's code. *)

Record frame := mkFrame {
  frame_time : float;          (** clock value when the frame was composited *)
  frame_layers : list nat      (** video nodes blitted onto the background *)
}.

(** What the shell command [cmd] leaves: the encoder's standard output
    and error, and the files (path and contents) and directories on disk
    when it exits; the command line can create, change or remove any of
    them. *)
Record encoder_run := mkRun {
  run_stdout : list Z;
  run_stderr : list Z;
  run_files : list (string * list Z);
  run_dirs : list string
}.

Class Collaborators := {
  call_node : node -> float -> result node;
  (** [pyglet.image.get_buffer_manager()]: [Err (AttributeError _)] for a
      pyglet that no longer provides it. *)
  get_buffer_manager : result unit;
  (** Whether the operating system lets [open(path, 'wb')] create or
      truncate [path] (a missing directory or a permission makes it
      raise). *)
  open_path : string -> result unit;
  (** [tempfile.mkdtemp(prefix='ved-')]: the path of the directory it
      creates, or the error it raises. *)
  mkdtemp : result string;
  (** [subprocess.Popen(cmd, shell=True, ...).communicate(frames)] from the
      files and directories on disk. *)
  run_ffmpeg : string -> list frame -> list (string * list Z) -> list string -> encoder_run;
  str_float : float -> string
}.

Section MovieModel.
Context `{Collaborators}.

(** ** The [Movie] object (movie.py, lines 17-105)

    Only the state the recording pipeline reads is kept: the node list, the
    virtual clock and the contents of the movie window's color buffer. *)

Record movie := mkMovie {
  m_nodes : list node;
  current_time : float;
  color_buffer : frame
}.

Definition set_time (m : movie) (t : float) : movie :=
  mkMovie (m_nodes m) t (color_buffer m).

(** [node.start_time <= t < node.end_time], a chained comparison: the
    end time is only read when the first comparison holds. *)
Definition is_active (n : node) (t : float) : result bool :=
  s <- getattr n "start_time" ;;
  sf <- num_as_float s ;;
  if PyFloat.leb sf t then
    e <- getattr n "end_time" ;;
    ef <- num_as_float e ;;
    Ok (PyFloat.ltb t ef)
  else Ok false.

(** [node(self)] keeps the identity and class of the object. *)
Definition call_in_place (n : node) (t : float) : result node :=
  n' <- call_node n t ;;
  Ok (mkNode (node_id n) (node_cls n) (node_attrs n')).

(** [_process_nodes] (lines 40-43). *)
Fixpoint process_nodes (t : float) (ns : list node) : result (list node) :=
  match ns with
  | [] => Ok []
  | n :: ns' =>
      act <- is_active n t ;;
      n' <- (if act then call_in_place n t else Ok n) ;;
      ns'' <- process_nodes t ns' ;;
      Ok (n' :: ns'')
  end.

Definition is_video (n : node) : bool :=
  match node_cls n with CVideo => true | _ => false end.

(** [_draw] (lines 48-66): clear to the background, then blit every active
    video node, in order, onto the movie's window: [node.window.switch_to()],
    the node's image through [pyglet.image.get_buffer_manager()], then
    [blit(node.x, node.y - node.height)]. *)
Fixpoint draw_nodes (t : float) (ns : list node) : result (list nat) :=
  match ns with
  | [] => Ok []
  | n :: ns' =>
      act <- is_active n t ;;
      layer <- (if act then
                  _ <- getattr n "window" ;;
                  _ <- get_buffer_manager ;;
                  _ <- getattr n "x" ;;
                  _ <- getattr n "y" ;;
                  _ <- getattr n "height" ;;
                  Ok [node_id n]
                else Ok []) ;;
      rest <- draw_nodes t ns' ;;
      Ok (layer ++ rest)
  end.

Definition draw (m : movie) : result frame :=
  layers <- draw_nodes (current_time m) (filter is_video (m_nodes m)) ;;
  Ok (mkFrame (current_time m) layers).

(** [tick] (lines 68-72). *)
Definition tick (m : movie) : result movie :=
  ns <- process_nodes (current_time m) (m_nodes m) ;;
  let m1 := mkMovie ns (current_time m) (color_buffer m) in
  fb <- draw m1 ;;
  Ok (mkMovie ns (current_time m) fb).

(** [screenshot(time, filename, file=None)] (lines 83-97): returns the
    movie after the call and the frame written to the destination, read
    through [pyglet.image.get_buffer_manager()] after the tick. *)
Definition screenshot (time : float) (m : movie) : result (movie * frame) :=
  m1 <- tick m ;;
  _ <- get_buffer_manager ;;
  Ok (m1, color_buffer m1).

(** [node.channels > 0] *)
Definition gt_zero (v : pyval) : result bool :=
  match v with
  | PInt z => Ok (Z.ltb 0 z)
  | PBool b => Ok b
  | PFloat f => Ok (PyFloat.ltb PyFloat.zero f)
  | _ => Err TypeError
  end.

(** [has_audio] (lines 100-103): [isinstance(node, Audio) and
    node.output_audio and node.channels > 0], short-circuiting. *)
Definition has_audio (n : node) : result bool :=
  match node_cls n with
  | CAudio =>
      o <- getattr n "output_audio" ;;
      if truthy o then
        c <- getattr n "channels" ;;
        gt_zero c
      else Ok false
  | _ => Ok false
  end.

(** [_get_audio_output_nodes] (lines 99-105). *)
Fixpoint get_audio_output_nodes (ns : list node) : result (list node) :=
  match ns with
  | [] => Ok []
  | n :: ns' =>
      keep <- has_audio n ;;
      rest <- get_audio_output_nodes ns' ;;
      Ok (if keep then n :: rest else rest)
  end.

(** [duration] (lines 33-38): [max(duration, node.end_time)] over nodes. *)
Fixpoint duration_from (d : float) (ns : list node) : result float :=
  match ns with
  | [] => Ok d
  | n :: ns' =>
      e <- getattr n "end_time" ;;
      ef <- num_as_float e ;;
      duration_from (if PyFloat.ltb d ef then ef else d) ns'
  end.

Definition duration (m : movie) : result float :=
  duration_from PyFloat.zero (m_nodes m).

End MovieModel.

(** ** Sample packing (movie.py, lines 156-172) *)

Abbreviation bytes := (list Z).

(** The [n] low-order bytes of [i] in two's complement, little-endian. *)
Fixpoint le_bytes (n : nat) (i : Z) : bytes :=
  match n with
  | O => []
  | S n' => (i mod 256) :: le_bytes n' (i / 256)
  end.

(** [struct.pack('<B', i)], [struct.pack('<h', i)], [struct.pack('<i', i)]:
    a value outside the format's range raises [struct.error]. *)
Definition pack_B (i : Z) : result bytes :=
  if (Z.leb 0 i && Z.leb i 255)%bool then Ok [i] else Err StructError.
Definition pack_h (i : Z) : result bytes :=
  if (Z.leb (-32768) i && Z.leb i 32767)%bool then Ok (le_bytes 2 i)
  else Err StructError.
Definition pack_i (i : Z) : result bytes :=
  if (Z.leb (-2147483648) i && Z.leb i 2147483647)%bool then Ok (le_bytes 4 i)
  else Err StructError.

(** One iteration of [for sample in node.samples]: the if/elif chain on
    [node.sample_size].  [b] is the Python local of [_record_frames]: it
    keeps its value from the previous iteration when no branch assigns it
    ([None] while it was never assigned). *)
Definition encode_sample (size : pyval) (sample : float) (b : option bytes)
  : result (option bytes) :=
  if eq_int size 8 then
    i <- py_int (PyFloat.mul (PyFloat.add (PyFloat.of_Z 1) sample)
                             (PyFloat.of_Z (2 ^ 7))) ;;
    bs <- pack_B i ;; Ok (Some bs)
  else if eq_int size 16 then
    i <- py_int (PyFloat.mul sample (PyFloat.of_Z (2 ^ 15))) ;;
    bs <- pack_h i ;; Ok (Some bs)
  else if eq_int size 24 then Err NotImplementedError
  else if eq_int size 32 then
    i <- py_int (PyFloat.mul sample (PyFloat.of_Z (2 ^ 31))) ;;
    bs <- pack_i i ;; Ok (Some bs)
  else Ok b.

(** The loop body [for sample in node.samples: ...; audio_data[node].write(b)]
    on the node's buffer [buf]. *)
Fixpoint write_samples (n : node) (samples : list float) (buf : bytes)
    (b : option bytes) : result (bytes * option bytes) :=
  match samples with
  | [] => Ok (buf, b)
  | s :: ss =>
      size <- getattr n "sample_size" ;;
      b' <- encode_sample size s b ;;
      match b' with
      | None => Err UnboundLocalError
      | Some bs => write_samples n ss (buf ++ bs) b'
      end
  end.

(** [for sample in node.samples]: only a list can be iterated here. *)
Definition iter_floats (v : pyval) : result (list float) :=
  match v with
  | PFloats l => Ok l
  | _ => Err TypeError
  end.

(** [audio_data]: a dict keyed by node identity, in insertion order. *)
Abbreviation audio_map := (list (nat * bytes)).

Fixpoint am_find (k : nat) (ad : audio_map) : option bytes :=
  match ad with
  | [] => None
  | (k', v) :: ad' => if Nat.eqb k k' then Some v else am_find k ad'
  end.

Fixpoint am_set (k : nat) (v : bytes) (ad : audio_map) : audio_map :=
  match ad with
  | [] => []
  | (k', v') :: ad' =>
      if Nat.eqb k k' then (k', v) :: ad' else (k', v') :: am_set k v ad'
  end.

(** [if node not in audio_data: audio_data[node] = BytesIO()] *)
Definition am_ensure (k : nat) (ad : audio_map) : audio_map :=
  match am_find k ad with
  | Some _ => ad
  | None => ad ++ [(k, [])]
  end.

(** The body of [for node in self._get_audio_output_nodes()]. *)
Fixpoint capture_nodes (outs : list node) (ad : audio_map) (b : option bytes)
  : result (audio_map * option bytes) :=
  match outs with
  | [] => Ok (ad, b)
  | n :: outs' =>
      let ad1 := am_ensure (node_id n) ad in
      sv <- getattr n "samples" ;;
      samples <- iter_floats sv ;;
      let buf := match am_find (node_id n) ad1 with Some v => v | None => [] end in
      r <- write_samples n samples buf b ;;
      let '(buf', b') := r in
      capture_nodes outs' (am_set (node_id n) buf' ad1) b'
  end.

Definition capture_audio (ns : list node) (ad : audio_map) (b : option bytes)
  : result (audio_map * option bytes) :=
  outs <- get_audio_output_nodes ns ;;
  capture_nodes outs ad b.

(** ** The recording loop [_record_frames] (movie.py, lines 136-190) *)

Section Recording.
Context `{Collaborators}.

(** The locals of [_record_frames] that live across iterations. *)
Record rec_state := mkRec {
  rs_movie : movie;            (** [self], with [self.current_time] *)
  rs_pixels : list frame;      (** [pixel_data]: the saved frames, in order *)
  rs_audio : audio_map;        (** [audio_data] *)
  rs_b : option bytes;         (** [b] *)
  rs_progress : Z              (** [progress] *)
}.

(** [progress % (float(increment) / rate) == 0] *)
Definition fires (increment : float) (rate progress : Z) : result bool :=
  py_fmod_is_zero (PyFloat.of_Z progress)
                  (PyFloat.div increment (PyFloat.of_Z rate)).

(** One iteration of the [while] body. *)
Definition record_step (increment : float) (frame_rate sample_rate : Z)
    (w : rec_state) : result rec_state :=
  m1 <- tick (rs_movie w) ;;
  fa <- fires increment sample_rate (rs_progress w) ;;
  ab <- (if fa then capture_audio (m_nodes m1) (rs_audio w) (rs_b w)
         else Ok (rs_audio w, rs_b w)) ;;
  let '(ad, b) := ab in
  ff <- fires increment frame_rate (rs_progress w) ;;
  px <- (if ff then
           _ <- get_buffer_manager ;;
           Ok (rs_pixels w ++ [color_buffer m1])
         else Ok (rs_pixels w)) ;;
  let t' := PyFloat.add (current_time m1)
                        (PyFloat.div (PyFloat.of_Z 1) increment) in
  Ok (mkRec (set_time m1 t') px ad b (rs_progress w + 1)).

(** The loop after some iterations: it has exited, or is still running. *)
Inductive loop_out :=
| Finished (w : rec_state)
| Running (w : rec_state).

Definition out_state (o : loop_out) : rec_state :=
  match o with Finished w | Running w => w end.

(** [while self.current_time <= end_time: ...], run for at most [fuel]
    iterations. *)
Fixpoint record_loop (fuel : nat) (increment end_time : float)
    (frame_rate sample_rate : Z) (w : rec_state) : result loop_out :=
  if PyFloat.leb (current_time (rs_movie w)) end_time then
    match fuel with
    | O => Ok (Running w)
    | S f =>
        w' <- record_step increment frame_rate sample_rate w ;;
        record_loop f increment end_time frame_rate sample_rate w'
    end
  else Ok (Finished w).

Definition record_init (m : movie) (start_time : float) : rec_state :=
  mkRec (set_time m start_time) [] [] None 0.

(** [_record_frames(start_time, end_time, frame_rate, sample_rate)]: the
    final loop state carries [pixel_data], [audio_data] and the movie. *)
Definition record_frames (fuel : nat) (m : movie)
    (start_time end_time : float) (frame_rate sample_rate : Z)
    : result loop_out :=
  increment <- lcm frame_rate sample_rate ;;
  record_loop fuel increment end_time frame_rate sample_rate
              (record_init m start_time).

(** ** The loop's schedule

    The clock, the progress counter and the two capture decisions of
    [record_loop], without the captured data: the number of iterations, of
    audio-capture steps and of frame-capture steps. *)
Fixpoint clock_run (fuel : nat) (increment end_time : float)
    (frame_rate sample_rate : Z) (t : float) (progress na nf : Z)
    : result (option (Z * Z * Z)) :=
  if PyFloat.leb t end_time then
    match fuel with
    | O => Ok None
    | S f =>
        match fires increment sample_rate progress with
        | Err e => Err e
        | Ok fa =>
            match fires increment frame_rate progress with
            | Err e => Err e
            | Ok ff =>
                clock_run f increment end_time frame_rate sample_rate
                  (PyFloat.add t (PyFloat.div (PyFloat.of_Z 1) increment))
                  (progress + 1) (if fa then na + 1 else na)
                  (if ff then nf + 1 else nf)
            end
        end
    end
  else Ok (Some (progress, na, nf)).

Definition schedule (fuel : nat) (start_time end_time : float)
    (frame_rate sample_rate : Z) : result (option (Z * Z * Z)) :=
  increment <- lcm frame_rate sample_rate ;;
  clock_run fuel increment end_time frame_rate sample_rate start_time 0 0 0.

End Recording.


(** The same schedule with the capture tests done on integers: a step is
    an audio (frame) step when its progress is a multiple of [ds] ([df]);
    [step] is the clock increment [1.0 / increment]. *)
Fixpoint clock_run_int (fuel : nat) (step end_time : float) (df ds : Z)
    (t : float) (progress na nf : Z) : option (Z * Z * Z) :=
  if PyFloat.leb t end_time then
    match fuel with
    | O => None
    | S f =>
        clock_run_int f step end_time df ds (PyFloat.add t step) (progress + 1)
          (if Z.eqb (progress mod ds) 0 then na + 1 else na)
          (if Z.eqb (progress mod df) 0 then nf + 1 else nf)
    end
  else Some (progress, na, nf).

(** [n]-fold float addition of [d] to [t]. *)
Fixpoint accumulate (n : nat) (t d : float) : float :=
  match n with
  | O => t
  | S k => accumulate k (PyFloat.add t d) d
  end.

(** The integer schedule of [_record_frames] from [start_time] with the
    clock step [1.0 / increment], where [increment = lcm(frame_rate,
    sample_rate)] is exact: the number of steps, of audio-capture steps and
    of frame-capture steps. *)
Definition capture_counts (fuel : nat) (start_time end_time : float)
    (frame_rate sample_rate : Z) : option (Z * Z * Z) :=
  let L := lcm_exact frame_rate sample_rate in
  clock_run_int fuel (PyFloat.div (PyFloat.of_Z 1) (PyFloat.of_Z L)) end_time
    (L / frame_rate) (L / sample_rate) start_time 0 0 0.

(** ** Text of the encoder command (movie.py, lines 115-134) *)

Definition str_nat (n : nat) : string :=
  DecimalString.NilEmpty.string_of_uint (Nat.to_uint n).
Definition str_Z (z : Z) : string :=
  DecimalString.NilEmpty.string_of_int (Z.to_int z).

(** [os.path.join(a, b)] for a relative [b]. *)
Definition path_join (a b : string) : string :=
  if String.eqb a "" then b
  else if String.eqb (substring (String.length a - 1) 1 a) "/" then (a ++ b)%string
  else (a ++ "/" ++ b)%string.

(** [' '.join(xs)] *)
Fixpoint join_space (xs : list string) : string :=
  match xs with
  | [] => ""
  | [x] => x
  | x :: xs' => (x ++ " " ++ join_space xs')%string
  end.

(** [filename.rfind('.')], [-1] when absent. *)
Fixpoint rfind_dot_from (i : nat) (s : string) (acc : Z) : Z :=
  match s with
  | EmptyString => acc
  | String c s' =>
      rfind_dot_from (S i) s' (if Ascii.eqb c "." then Z.of_nat i else acc)
  end.

(** [filename[filename.rfind('.') + 1:]] *)
Definition extension (filename : string) : string :=
  let k := Z.to_nat (rfind_dot_from 0 filename (-1) + 1) in
  substring k (String.length filename - k) filename.

(** The files (path and contents) and directories on disk, and the bytes
    written to a caller's file object. *)
Record sys := mkSys {
  files : list (string * list Z);
  dirs : list string;
  sink : list Z
}.

Fixpoint fs_put (k : string) (v : list Z) (fs : list (string * list Z))
  : list (string * list Z) :=
  match fs with
  | [] => [(k, v)]
  | (k', v') :: fs' =>
      if String.eqb k k' then (k, v) :: fs' else (k', v') :: fs_put k v fs'
  end.

Definition set_files (s : sys) (fs : list (string * list Z)) : sys :=
  mkSys fs (dirs s) (sink s).

Fixpoint node_by_id (k : nat) (ns : list node) : option node :=
  match ns with
  | [] => None
  | n :: ns' => if Nat.eqb k (node_id n) then Some n else node_by_id k ns'
  end.

(** [str(x)] / ['{}'.format(x)] of an attribute value. *)
Definition str_pyval `{Collaborators} (v : pyval) : string :=
  match v with
  | PInt z => str_Z z
  | PBool b => if b then "True" else "False"
  | PFloat f => str_float f
  | PFloats _ => "[...]"
  | PNone => "None"
  end.

(** [f // 8] for a float [f]: the floor of [f / 8], exact (and a zero
    keeps its sign); [nan] for an infinite or [nan] operand. *)
Definition float_floordiv8 (f : float) : float :=
  match f with
  | S754_zero s => S754_zero s
  | S754_finite s m e =>
      PyFloat.of_Z (PyFloat.signed_mant s m * 2 ^ Z.max 0 e / 2 ^ (3 + Z.max 0 (- e)))
  | _ => S754_nan
  end.

(** [node.sample_size // 8] *)
Definition floordiv8 (v : pyval) : result pyval :=
  match v with
  | PInt z => Ok (PInt (z / 8))
  | PBool b => Ok (PInt 0)
  | PFloat f => Ok (PFloat (float_floordiv8 f))
  | _ => Err TypeError
  end.

Definition as_int (v : pyval) : result Z :=
  match v with
  | PInt z => Ok z
  | PBool b => Ok (if b then 1 else 0)
  | _ => Err TypeError
  end.

(** [v < k] and [v > k] against an int [k], as [wave]'s setters compare. *)
Definition lt_int (v : pyval) (k : Z) : result bool :=
  match v with
  | PInt z => Ok (Z.ltb z k)
  | PBool b => Ok (Z.ltb (if b then 1 else 0) k)
  | PFloat f => Ok (PyFloat.ltb f (PyFloat.of_Z k))
  | _ => Err TypeError
  end.

Definition gt_int (v : pyval) (k : Z) : result bool :=
  match v with
  | PInt z => Ok (Z.ltb k z)
  | PBool b => Ok (Z.ltb k (if b then 1 else 0))
  | PFloat f => Ok (PyFloat.ltb (PyFloat.of_Z k) f)
  | _ => Err TypeError
  end.

(** Whether [float(z)] overflows, as it does when an int meets a float
    in an arithmetic operation. *)
Definition float_overflows (z : Z) : bool :=
  match PyFloat.of_Z z with S754_infinity _ => true | _ => false end.

(** The ranges of [struct.pack]'s ['L'] and ['H'] fields. *)
Definition fits_L (z : Z) : bool := (Z.leb 0 z && Z.ltb z (2 ^ 32))%bool.
Definition fits_H (z : Z) : bool := (Z.leb 0 z && Z.ltb z (2 ^ 16))%bool.

(** [Wave_write._write_header(len(data))] once it has written [b'RIFF']:
    the channel count, sample width and data length it packs, or the
    exception.  With int parameters it packs [36 + datalength], [nch], the
    rate, [nch * rate * w], [nch * w], [w * 8] and
    [datalength = len // (nch * w) * nch * w], and [struct.pack] raises
    [struct.error] for a field out of range.  A float parameter reaches
    [struct.pack] too, which refuses it ([struct.error]), unless an int
    operand of a product or quotient with a float is too large for a float
    ([OverflowError]). *)
Definition wav_header (nch w : pyval) (rate len : Z) : result (Z * Z * Z) :=
  match as_int nch, as_int w with
  | Ok c, Ok k =>
      let dl := len / (c * k) * (c * k) in
      if (fits_L (36 + dl) && fits_H c && fits_L rate && fits_L (c * rate * k)
          && fits_H (c * k) && fits_H (k * 8) && fits_L dl)%bool
      then Ok (c, k, dl) else Err StructError
  | Ok c, Err _ =>
      if (float_overflows c || float_overflows len || float_overflows (c * rate))%bool
      then Err OverflowError else Err StructError
  | Err _, _ =>
      if (float_overflows len || float_overflows rate)%bool
      then Err OverflowError else Err StructError
  end.

Definition riff : bytes := [82; 73; 70; 70].

(** The 44-byte header [wave] writes for [nch] channels, [rate] frames per
    second, [w] bytes per sample and [dl] data bytes, as [struct.pack]
    lays it out. *)
Definition wav_bytes (nch rate w dl : Z) : bytes :=
  riff ++ le_bytes 4 (36 + dl) ++ [87; 65; 86; 69; 102; 109; 116; 32]
  ++ le_bytes 4 16 ++ le_bytes 2 1 ++ le_bytes 2 nch ++ le_bytes 4 rate
  ++ le_bytes 4 (nch * rate * w) ++ le_bytes 2 (nch * w) ++ le_bytes 2 (w * 8)
  ++ [100; 97; 116; 97] ++ le_bytes 4 dl.

(** Code that touches the disk runs in a state-and-error monad: an
    exception keeps the effects made before it. *)
Definition io (A : Type) := sys -> result A * sys.

Definition ret {A} (a : A) : io A := fun s => (Ok a, s).
Definition lift {A} (r : result A) : io A := fun s => (r, s).
Definition modify (f : sys -> sys) : io unit := fun s => (Ok tt, f s).
Definition io_bind {A B} (m : io A) (k : A -> io B) : io B :=
  fun s => match m s with
           | (Ok a, s') => k a s'
           | (Err e, s') => (Err e, s')
           end.

Notation "x <-- m ;;; k" := (io_bind m (fun x => k))
  (at level 61, m at next level, right associativity).

Definition put_file (path : string) (v : list Z) (s : sys) : sys :=
  set_files s (fs_put path v (files s)).

(** [open(path, 'wb')]: creates or truncates the file, unless the
    operating system refuses. *)
Definition open_wb `{Collaborators} (path : string) : io unit :=
  _ <-- lift (open_path path) ;;;
  modify (put_file path []).

(** [_write_audio_data] (lines 107-113): [open(clip_path, 'wb')], then
    [wave]'s setters check each parameter ([wave.Error], the file staying
    empty), then [writeframes] writes the header and the samples (on a
    little-endian host [wave] writes them as they are).  When the header
    cannot be packed, the [Wave_write] object's finalizer tries the header
    again, so the file holds [b'RIFF'] twice.  When the data length was
    rounded down to whole frames, the header is patched to the real length,
    a [struct.error] when [36 + len(data)] does not fit in 32 bits. *)
Definition write_audio_data `{Collaborators} (n : node) (samples : bytes)
    (sample_rate : Z) (clip_path : string) : io unit :=
  _ <-- open_wb clip_path ;;;
  ch <-- lift (getattr n "channels") ;;;
  few <-- lift (lt_int ch 1) ;;;
  if few then lift (Err WaveError) else
  if Z.leb sample_rate 0 then lift (Err WaveError) else
  sz <-- lift (getattr n "sample_size") ;;;
  w <-- lift (floordiv8 sz) ;;;
  lo <-- lift (lt_int w 1) ;;;
  if lo then lift (Err WaveError) else
  hi <-- lift (gt_int w 4) ;;;
  if hi then lift (Err WaveError) else
  let len := Z.of_nat (List.length samples) in
  match wav_header ch w sample_rate len with
  | Err e => _ <-- modify (put_file clip_path (riff ++ riff)) ;;; lift (Err e)
  | Ok (c, k, dl) =>
      if (Z.eqb dl len || fits_L (36 + len))%bool
      then modify (put_file clip_path (wav_bytes c sample_rate k len ++ samples))
      else _ <-- modify (put_file clip_path (wav_bytes c sample_rate k dl ++ samples)) ;;;
           lift (Err StructError)
  end.

Definition audio_clip_path (tmp : string) (audio_id : nat) : string :=
  path_join tmp ("audio_" ++ str_nat audio_id ++ ".wav")%string.

(** The loop [for node, samples in audio_data.items()], from [audio_id]. *)
Fixpoint audio_inputs `{Collaborators} (ns : list node) (ad : audio_map)
    (sample_rate : Z) (tmp : string) (audio_id : nat) (cmd : string)
    : io string :=
  match ad with
  | [] => ret cmd
  | (k, samples) :: ad' =>
      match node_by_id k ns with
      | None => lift (Err (AttributeError "node"))
      | Some n =>
          let clip_path := audio_clip_path tmp audio_id in
          _ <-- write_audio_data n samples sample_rate clip_path ;;;
          st <-- lift (getattr n "start_time") ;;;
          audio_inputs ns ad' sample_rate tmp (S audio_id)
            (cmd ++ "-itsoffset " ++ str_pyval st ++ " -i " ++ clip_path ++ " ")%string
      end
  end.

(** [_prepare_record_command] (lines 115-134). *)
Definition prepare_record_command `{Collaborators} (ns : list node)
    (ad : audio_map) (frame_rate sample_rate : Z) (format : string)
    (ffmpeg_options : list string) (tmp : string) : io string :=
  let cmd := ("ffmpeg -r " ++ str_Z frame_rate ++ " -f png_pipe -i pipe: ")%string in
  cmd <-- audio_inputs ns ad sample_rate tmp 0 cmd ;;;
  let cmd := (cmd ++ "-y -r " ++ str_Z frame_rate ++ " -ar " ++ str_Z sample_rate
               ++ " -f " ++ format ++ " ")%string in
  let cmd := match ffmpeg_options with
             | [] => cmd
             | _ => (cmd ++ join_space ffmpeg_options ++ " ")%string
             end in
  ret (cmd ++ "pipe: -v error")%string.

(** The text the loop of [_prepare_record_command] appends, from
    [audio_id = i], for nodes whose [start_time] values are [sts]. *)
Fixpoint input_args `{Collaborators} (tmp : string) (i : nat) (sts : list pyval)
  : string :=
  match sts with
  | [] => ""
  | st :: sts' =>
      ("-itsoffset " ++ str_pyval st ++ " -i " ++ audio_clip_path tmp i ++ " "
       ++ input_args tmp (S i) sts')%string
  end.

(** Whether [p] lies under the directory [tmp]. *)
Definition under (tmp p : string) : bool := String.prefix (tmp ++ "/") p.

(** [shutil.rmtree(tmp)]: the directory and everything under it; an
    [OSError] when [tmp] is no longer a directory. *)
Definition rmtree (tmp : string) : io unit := fun s =>
  if existsb (String.eqb tmp) (dirs s) then
    (Ok tt, mkSys (filter (fun kv => negb (under tmp (fst kv))) (files s))
                  (filter (fun d => negb (String.eqb d tmp || under tmp d)) (dirs s))
                  (sink s))
  else (Err OSError, s).

(** Lines 232-235: [Popen(cmd, shell=True, ...)] and [communicate] with
    the frames; the disk is as the command left it. *)
Definition run_encoder `{Collaborators} (cmd : string) (px : list frame)
  : io encoder_run := fun s =>
  let r := run_ffmpeg cmd px (files s) (dirs s) in
  (Ok r, mkSys (run_files r) (run_dirs r) (sink s)).

(** [file.write(data)] on the object [open(path, 'wb')] returned, nothing
    written to it yet: the bytes go at the start of the file at [path]
    (if the file was removed meanwhile, nothing on disk changes). *)
Definition write_dest (path : string) (data : bytes) (s : sys) : sys :=
  match assoc_find path (files s) with
  | Some old => put_file path (data ++ skipn (List.length data) old) s
  | None => s
  end.

(** Lines 226-240 of [record]: build the command, run the encoder, remove
    the scratch directory, then fail on any error output or write the
    encoder's output to the destination. *)
Definition encode_and_write `{Collaborators} (w : rec_state) (filename : string)
    (frame_rate sample_rate : Z) (file_obj : bool) (ffmpeg_options : list string)
    (tmp : string) : io unit :=
  cmd <-- prepare_record_command (m_nodes (rs_movie w)) (rs_audio w)
            frame_rate sample_rate (extension filename) ffmpeg_options tmp ;;;
  run <-- run_encoder cmd (rs_pixels w) ;;;
  _ <-- rmtree tmp ;;;
  match run_stderr run with
  | _ :: _ => lift (Err (EncoderError cmd (run_stderr run)))
  | [] =>
      if file_obj
      then modify (fun s => mkSys (files s) (dirs s) (sink s ++ run_stdout run))
      else modify (write_dest filename (run_stdout run))
  end.

(** Lines 216-221 of [record]: [open(filename, 'wb')] when no file object
    is given, then [tempfile.mkdtemp(prefix='ved-')], which creates the
    scratch directory. *)
Definition record_setup `{Collaborators} (filename : string) (file_obj : bool)
  : io string :=
  _ <-- (if file_obj then ret tt else open_wb filename) ;;;
  tmp <-- lift mkdtemp ;;;
  _ <-- modify (fun s => mkSys (files s) (tmp :: dirs s) (sink s)) ;;;
  ret tmp.

(** [record(filename, frame_rate, sample_rate, start_time, end_time, file,
    ffmpeg_options)] (lines 192-240).  [file_obj] tells whether a file
    object was passed; [None] when the recording loop has not finished
    within [fuel] iterations. *)
Definition record `{Collaborators} (fuel : nat) (m : movie) (filename : string)
    (frame_rate sample_rate : Z) (start_time : float) (end_time : option float)
    (file_obj : bool) (ffmpeg_options : list string) (s : sys)
    : option (result unit * sys) :=
  match (match end_time with Some e => Ok e | None => duration m end) with
  | Err e => Some (Err e, s)
  | Ok end_t =>
      match record_setup filename file_obj s with
      | (Err e, s2) => Some (Err e, s2)
      | (Ok tmp, s2) =>
          match record_frames fuel m start_time end_t frame_rate sample_rate with
          | Err e => Some (Err e, s2)
          | Ok (Running _) => None
          | Ok (Finished w) =>
              Some (encode_and_write w filename frame_rate sample_rate file_obj
                                     ffmpeg_options tmp s2)
          end
      end
  end.

(** ** [play] (movie.py, lines 74-81) *)

(** [x / y] for floats: division by a zero raises [ZeroDivisionError]. *)
Definition py_truediv (x y : float) : result float :=
  match y with
  | S754_zero _ => Err ZeroDivisionError
  | _ => Ok (PyFloat.div x y)
  end.

(** [while self.current_time <= end_time: self.tick();
    self.current_time += 1.0 / rate], run for at most [fuel] iterations:
    [Ok None] when the loop has not exited. *)
Fixpoint play_loop `{Collaborators} (fuel : nat) (end_time rate : float) (m : movie)
  : result (option movie) :=
  if PyFloat.leb (current_time m) end_time then
    match fuel with
    | O => Ok None
    | S f =>
        m1 <- tick m ;;
        step <- py_truediv (PyFloat.of_Z 1) rate ;;
        play_loop f end_time rate (set_time m1 (PyFloat.add (current_time m1) step))
    end
  else Ok (Some m).

(** [play(start_time, end_time, rate)]: [self.current_time = start_time],
    then the loop. *)
Definition play `{Collaborators} (fuel : nat) (m : movie)
    (start_time end_time rate : float) : result (option movie) :=
  play_loop fuel end_time rate (set_time m start_time).

(** Whether a node is active at [t], an error counting as inactive. *)
Definition active_at `{Collaborators} (t : float) (n : node) : bool :=
  match is_active n t with Ok b => b | Err _ => false end.

(** [struct.unpack('<h', bs)] and [struct.unpack('<i', bs)]: the
    little-endian two's complement value of a byte string, the reading a
    consumer of the packed samples makes. *)
Fixpoint le_unsigned (bs : bytes) : Z :=
  match bs with
  | [] => 0
  | b :: bs' => b + 256 * le_unsigned bs'
  end.

Definition unpack_le (bs : bytes) : Z :=
  let u := le_unsigned bs in
  let m := 2 ^ (8 * Z.of_nat (List.length bs)) in
  if Z.ltb u (m / 2) then u else u - m.

(** The parameters with which [_write_audio_data] writes a complete WAV
    file for [len] data bytes: an int channel count [nch] and sample width
    [w] ([sample_size // 8]) that [wave] accepts and whose header fields
    [struct.pack] accepts. *)
Definition wav_params (n : node) (sample_rate len nch w : Z) : Prop :=
  exists ch sz,
    getattr n "channels" = Ok ch /\ as_int ch = Ok nch /\
    getattr n "sample_size" = Ok sz /\ floordiv8 sz = Ok (PInt w) /\
    1 <= nch <= 65535 /\ 0 < sample_rate < 2 ^ 32 /\ 1 <= w <= 4 /\
    nch * w < 2 ^ 16 /\ nch * sample_rate * w < 2 ^ 32 /\ 36 + len < 2 ^ 32.

(** A capture decision of [_record_frames], an error counting as no
    capture. *)
Definition fired (r : result bool) : bool :=
  match r with Ok b => b | Err _ => false end.

(** ** Concrete collaborators and timelines used by the examples *)

Definition blank : frame := mkFrame PyFloat.zero [].

(** Node evaluation that leaves nodes unchanged; a pyglet with
    [get_buffer_manager]; a disk that accepts every [open] and
    [mkdtemp]; an encoder that succeeds with output [[7]], leaving the disk
    as it is. *)
Definition quiet_env : Collaborators := {|
  call_node := fun n _ => Ok n;
  get_buffer_manager := Ok tt;
  open_path := fun _ => Ok tt;
  mkdtemp := Ok "/tmp/ved-x1";
  run_ffmpeg := fun _ _ fs ds => mkRun [7] [] fs ds;
  str_float := fun f => if PyFloat.eqb f (PyFloat.of_Z 2) then "2.0" else "0.0"
|}.

(** Node evaluation that fails for every node. *)
Definition failing_env : Collaborators := {|
  call_node := fun n _ => Err (NodeFailure (node_id n));
  get_buffer_manager := Ok tt;
  open_path := fun _ => Ok tt;
  mkdtemp := Ok "/tmp/ved-x1";
  run_ffmpeg := fun _ _ fs ds => mkRun [7] [] fs ds;
  str_float := fun _ => "0.0"
|}.

(** An encoder that reports an error. *)
Definition broken_ffmpeg_env : Collaborators := {|
  call_node := fun n _ => Ok n;
  get_buffer_manager := Ok tt;
  open_path := fun _ => Ok tt;
  mkdtemp := Ok "/tmp/ved-x1";
  run_ffmpeg := fun _ _ fs ds => mkRun [] [101] fs ds;
  str_float := fun _ => "0.0"
|}.

(** An output audio node (of some [Audio] subclass that sets the
    attributes the recording code reads): one channel, [sample_size],
    active on [[start, 100)], holding the sample values [samples]. *)
Definition audio_out_node (id : nat) (start : float) (channels size : Z)
    (samples : list float) : node :=
  mkNode id CAudio
    [("start_time", PFloat start);
     ("end_time", PFloat (PyFloat.of_Z 100));
     ("output_audio", PBool true);
     ("channels", PInt channels);
     ("sample_size", PInt size);
     ("samples", PFloats samples)].

Definition probe_node : node := audio_out_node 0 PyFloat.zero 1 8 [PyFloat.zero].

Definition probe_movie : movie := mkMovie [probe_node] PyFloat.zero blank.

(** Length of the buffer captured for node [k]. *)
Definition captured (k : nat) (w : rec_state) : Z :=
  match am_find k (rs_audio w) with
  | Some v => Z.of_nat (List.length v)
  | None => 0
  end.

(** * Properties *)

(** ** Integer-valued floats *)
Lemma digits2_pos_size p : digits2_pos p = Pos.size p.
Proof. induction p; simpl; congruence. Qed.

Lemma size_log2 p : Zpos (Pos.size p) = Z.log2 (Zpos p) + 1.
Proof. destruct p; simpl; try rewrite Pos2Z.inj_succ; lia. Qed.

Lemma size_spec p : 2 ^ (Zpos (Pos.size p) - 1) <= Zpos p < 2 ^ Zpos (Pos.size p).
Proof.
  rewrite size_log2. replace (Z.log2 (Zpos p) + 1 - 1) with (Z.log2 (Zpos p)) by lia.
  replace (Z.log2 (Zpos p) + 1) with (Z.succ (Z.log2 (Zpos p))) by lia.
  apply Z.log2_spec. lia.
Qed.

Lemma size_unique p k : 2 ^ (k - 1) <= Zpos p < 2 ^ k -> Zpos (Pos.size p) = k.
Proof.
  intros Hb. assert (1 <= k).
  { destruct (Z.le_gt_cases 1 k); auto.
    assert (k - 1 < 0) by lia. rewrite (Z.pow_neg_r 2 (k-1)) in Hb by lia.
    assert (2 ^ k <= 1). { destruct (Z.eq_dec k 0). subst; simpl; lia. rewrite Z.pow_neg_r; lia. }
    lia. }
  rewrite size_log2. rewrite (Z.log2_unique (Zpos p) (k - 1)); [lia|lia|].
  replace (Z.succ (k - 1)) with k by lia. exact Hb.
Qed.

Lemma size_shift p k : 0 <= k ->
  Zpos (Pos.size (Z.to_pos (Zpos p * 2 ^ k))) = Zpos (Pos.size p) + k.
Proof.
  intros Hk. assert (Hp : 0 < 2 ^ k) by (apply Z.pow_pos_nonneg; lia).
  apply size_unique. rewrite Z2Pos.id by nia.
  pose proof (size_spec p) as [H1 H2].
  replace (Zpos (Pos.size p) + k - 1) with ((Zpos (Pos.size p) - 1) + k) by lia.
  rewrite !Z.pow_add_r by lia. split; nia.
Qed.

Lemma fexp_normal x : -1021 <= x -> fexp 53 1024 x = x - 53.
Proof. intros. unfold fexp, emin. lia. Qed.

(** Rounding a mantissa that already has 53 digits is exact. *)
Lemma round_aux_53 s m e : Zpos (Pos.size m) = 53 -> -1074 <= e <= 971 ->
  binary_round_aux 53 1024 s (Zpos m) e loc_Exact = S754_finite s m e.
Proof.
  intros Hm He. unfold binary_round_aux, shr_fexp. unfold Zdigits2.
  rewrite digits2_pos_size, Hm. rewrite fexp_normal by lia.
  replace (53 + e - 53 - e) with 0 by lia. cbn [shr shr_record_of_loc shr_m loc_of_shr_record round_nearest_even].
  rewrite digits2_pos_size, Hm. rewrite fexp_normal by lia.
  replace (53 + e - 53 - e) with 0 by lia. cbn [shr shr_record_of_loc shr_m].
  replace (Z.leb e (1024 - 53)) with true by (symmetry; apply Z.leb_le; lia). reflexivity.
Qed.

Lemma iter_xO p d : Zpos (Pos.iter xO p d) = Zpos p * 2 ^ Zpos d.
Proof.
  induction d using Pos.peano_ind.
  - simpl. lia.
  - rewrite Pos.iter_succ, Pos2Z.inj_succ, Z.pow_succ_r by lia.
    change (Zpos (xO (Pos.iter xO p d))) with (2 * Zpos (Pos.iter xO p d)).
    rewrite IHd. ring.
Qed.

Lemma size_le_53 p : Zpos p < 2 ^ 53 -> Zpos (Pos.size p) <= 53.
Proof.
  intros Hp. pose proof (size_spec p) as [H1 _].
  destruct (Z.le_gt_cases (Zpos (Pos.size p)) 53); auto.
  assert (2 ^ 53 <= 2 ^ (Zpos (Pos.size p) - 1)) by (apply Z.pow_le_mono_r; lia). lia.
Qed.

(** [float(n)] of a positive int below 2^53: the exact value, with the
    mantissa shifted to 53 digits. *)
Lemma of_Z_pos p : Zpos p < 2 ^ 53 ->
  PyFloat.of_Z (Zpos p) =
  S754_finite false (Z.to_pos (Zpos p * 2 ^ (53 - Zpos (Pos.size p))))
              (Zpos (Pos.size p) - 53).
Proof.
  intros Hp. pose proof (size_le_53 p Hp) as Hs.
  unfold PyFloat.of_Z, binary_normalize, binary_round.
  rewrite digits2_pos_size. rewrite Z.add_0_r, fexp_normal by lia.
  unfold shl_align. destruct (Zpos (Pos.size p) - 53 - 0) eqn:E.
  - replace (53 - Zpos (Pos.size p)) with 0 by lia. rewrite Z.mul_1_r. simpl Z.to_pos.
    replace (Zpos (Pos.size p) - 53) with 0 by lia.
    apply round_aux_53; lia.
  - lia.
  - replace (Zpos (Pos.size p) - 53) with (Zneg p0) by lia.
    replace (53 - Zpos (Pos.size p)) with (Zpos p0) by lia.
    assert (Heq : Pos.iter xO p p0 = Z.to_pos (Zpos p * 2 ^ Zpos p0))
      by (rewrite <- iter_xO; reflexivity).
    rewrite Heq. apply round_aux_53; [rewrite size_shift; lia | lia].
Qed.

Lemma fmod_of_Z p d : 0 <= p < 2 ^ 53 -> 0 < d < 2 ^ 53 ->
  py_fmod_is_zero (PyFloat.of_Z p) (PyFloat.of_Z d) = Ok (Z.eqb (p mod d) 0).
Proof.
  intros Hp Hd. destruct d as [|d|d]; try lia.
  destruct p as [|p|p]; try lia.
  - rewrite of_Z_pos by lia. reflexivity.
  - rewrite !of_Z_pos by lia. unfold py_fmod_is_zero, PyFloat.signed_mant.
    pose proof (size_le_53 p ltac:(lia)). pose proof (size_le_53 d ltac:(lia)).
    set (sp := Zpos (Pos.size p)) in *. set (sd := Zpos (Pos.size d)) in *.
    assert (1 <= sp) by (unfold sp; lia). assert (1 <= sd) by (unfold sd; lia).
    rewrite !Z2Pos.id by (apply Z.mul_pos_pos; [lia | apply Z.pow_pos_nonneg; lia]).
    set (e := Z.min (sp - 53) (sd - 53)).
    rewrite <- !Z.mul_assoc, <- !Z.pow_add_r by (unfold e; lia).
    replace (53 - sp + (sp - 53 - e)) with (- e) by lia.
    replace (53 - sd + (sd - 53 - e)) with (- e) by lia.
    assert (0 < 2 ^ (- e)) by (apply Z.pow_pos_nonneg; unfold e; lia).
    rewrite Z.rem_mod_nonneg by nia.
    rewrite Z.mul_mod_distr_r by lia.
    f_equal. destruct (Z.eqb_spec (Zpos p mod Zpos d) 0) as [E|E].
    + rewrite E. reflexivity.
    + apply Z.eqb_neq. intro C. apply Z.mul_eq_0 in C. lia.
Qed.

(** Rounding a 54-digit even mantissa drops its last (zero) bit. *)
Lemma round_aux_54 s m e : Zpos (Pos.size m) = 53 -> -1074 <= e <= 970 ->
  binary_round_aux 53 1024 s (Zpos (xO m)) e loc_Exact = S754_finite s m (e + 1).
Proof.
  intros Hm He. unfold binary_round_aux, shr_fexp. unfold Zdigits2.
  rewrite digits2_pos_size. cbn [Pos.size]. rewrite Pos2Z.inj_succ, Hm.
  rewrite fexp_normal by lia.
  replace (Z.succ 53 + e - 53 - e) with 1 by lia. cbn [shr iter_pos shr_1 shr_record_of_loc shr_m loc_of_shr_record round_nearest_even orb].
  rewrite digits2_pos_size, Hm. rewrite fexp_normal by lia.
  replace (53 + (e + 1) - 53 - (e + 1)) with 0 by lia. cbn [shr shr_record_of_loc shr_m].
  replace (Z.leb (e + 1) (1024 - 53)) with true by (symmetry; apply Z.leb_le; lia). reflexivity.
Qed.

Lemma div_eucl_pair a b : Z.div_eucl a b = (a / b, a mod b).
Proof. unfold Z.div, Z.modulo. destruct (Z.div_eucl a b); reflexivity. Qed.

Lemma size_mul Q r :
  Zpos (Pos.size (Q * r)) = Zpos (Pos.size Q) + Zpos (Pos.size r) \/
  Zpos (Pos.size (Q * r)) = Zpos (Pos.size Q) + Zpos (Pos.size r) - 1.
Proof.
  pose proof (size_spec Q) as [Q1 Q2]. pose proof (size_spec r) as [R1 R2].
  pose proof (size_spec (Q * r)) as [L1 L2]. rewrite Pos2Z.inj_mul in *.
  set (sQ := Zpos (Pos.size Q)) in *. set (sr := Zpos (Pos.size r)) in *.
  set (sL := Zpos (Pos.size (Q * r))) in *.
  assert (1 <= sQ) by (unfold sQ; lia). assert (1 <= sr) by (unfold sr; lia).
  assert (1 <= sL) by (unfold sL; lia).
  destruct (Z.lt_total sL (sQ + sr - 1)) as [Hlt|[Heq|Hgt]]; [|right; exact Heq|].
  - exfalso. assert (2 ^ sL <= 2 ^ (sQ - 1 + (sr - 1))) by (apply Z.pow_le_mono_r; lia).
    rewrite Z.pow_add_r in H2 by lia. nia.
  - destruct (Z.lt_total (sQ + sr) sL) as [Hlt'|[Heq'|Hgt']]; [|left; lia|lia].
    exfalso. assert (2 ^ (sQ + sr) <= 2 ^ (sL - 1)) by (apply Z.pow_le_mono_r; lia).
    rewrite Z.pow_add_r in H2 by lia. nia.
Qed.

Lemma to_pos_double x k : 0 < x -> 0 <= k ->
  Z.to_pos (x * 2 ^ (k + 1)) = xO (Z.to_pos (x * 2 ^ k)).
Proof.
  intros Hx Hk. assert (0 < 2 ^ k) by (apply Z.pow_pos_nonneg; lia).
  apply Pos2Z.inj. change (Zpos (xO (Z.to_pos (x * 2 ^ k)))) with (2 * Zpos (Z.to_pos (x * 2 ^ k))).
  rewrite !Z2Pos.id by (try rewrite Z.pow_add_r; nia).
  rewrite Z.pow_add_r by lia. ring.
Qed.

(** [float(L) / float(r)] is exact when [r] divides [L] and [L < 2^53]. *)
Lemma div_of_Z Q r : 0 < Q -> 0 < r -> Q * r < 2 ^ 53 ->
  PyFloat.div (PyFloat.of_Z (Q * r)) (PyFloat.of_Z r) = PyFloat.of_Z Q.
Proof.
  intros HQ Hr HL. destruct Q as [|Q|Q]; try lia. destruct r as [|r|r]; try lia.
  change (Zpos Q * Zpos r) with (Zpos (Q * r)) in *.
  rewrite !of_Z_pos by lia.
  pose proof (size_le_53 _ HL) as HsL. pose proof (size_le_53 r ltac:(lia)) as Hsr.
  pose proof (size_le_53 Q ltac:(lia)) as HsQ.
  pose proof (size_mul Q r) as Hm.
  pose proof (size_spec Q). pose proof (size_spec r).
  set (sQ := Zpos (Pos.size Q)) in *. set (sr := Zpos (Pos.size r)) in *.
  set (sL := Zpos (Pos.size (Q * r))) in *.
  assert (1 <= sQ) by (unfold sQ; lia). assert (1 <= sr) by (unfold sr; lia).
  assert (1 <= sL) by (unfold sL; lia).
  unfold PyFloat.div, SFdiv, SFdiv_core_binary. unfold Zdigits2.
  rewrite !digits2_pos_size.
  rewrite !size_shift by lia. fold sL sr.
  replace (sL + (53 - sL)) with 53 by lia. replace (sr + (53 - sr)) with 53 by lia.
  rewrite fexp_normal by lia.
  replace (Z.min (53 + (sL - 53) - (53 + (sr - 53)) - 53) (sL - 53 - (sr - 53)))
    with (sL - sr - 53) by lia.
  replace (sL - 53 - (sr - 53) - (sL - sr - 53)) with 53 by lia.
  rewrite div_eucl_pair, Z.shiftl_mul_pow2 by lia.
  rewrite !Z2Pos.id by (apply Z.mul_pos_pos; [lia | apply Z.pow_pos_nonneg; lia]).
  set (j := 53 - sL + sr).
  assert (Hdiv : Zpos (Q * r) * 2 ^ (53 - sL) * 2 ^ 53 = (Zpos Q * 2 ^ j) * (Zpos r * 2 ^ (53 - sr))).
  { assert (Hp : 2 ^ (53 - sL) * 2 ^ 53 = 2 ^ j * 2 ^ (53 - sr)).
    { rewrite <- !Z.pow_add_r by (unfold j; lia). f_equal. unfold j. lia. }
    rewrite Pos2Z.inj_mul.
    transitivity (Zpos Q * Zpos r * (2 ^ (53 - sL) * 2 ^ 53)); [ring|].
    rewrite Hp. ring. }
  assert (0 < 2 ^ (53 - sr)) by (apply Z.pow_pos_nonneg; lia).
  rewrite Hdiv, Z.div_mul, Z.mod_mul by lia.
  cbv [new_location new_location_even new_location_odd]. destruct (Z.even _); cbn [Z.eqb xorb].
  all: set (M := Z.to_pos (Zpos Q * 2 ^ (53 - sQ))).
  all: assert (HM : Zpos M = Zpos Q * 2 ^ (53 - sQ))
         by (unfold M; rewrite Z2Pos.id; [reflexivity | apply Z.mul_pos_pos; [lia | apply Z.pow_pos_nonneg; lia]]).
  all: assert (HMs : Zpos (Pos.size M) = 53) by (unfold M; rewrite size_shift; lia).
  all: destruct Hm as [Hm|Hm].
  1,3: replace (sL - sr - 53) with (sQ - 53) by lia;
       replace j with (53 - sQ) by (unfold j; lia);
       rewrite <- HM; apply round_aux_53; lia.
  all: replace j with ((53 - sQ) + 1) by (unfold j; lia).
  all: rewrite <- (Z2Pos.id (Zpos Q * 2 ^ (53 - sQ + 1))) by (apply Z.mul_pos_pos; [lia | apply Z.pow_pos_nonneg; lia]).
  all: rewrite to_pos_double by lia; fold M.
  all: rewrite round_aux_54 by lia.
  all: f_equal; lia.
Qed.

(** ** The recording loop and its schedule *)

Section LoopFacts.
Context `{Collaborators}.

Lemma tick_time m m1 : tick m = Ok m1 -> current_time m1 = current_time m.
Proof.
  unfold tick, bind. destruct (process_nodes _ _); [|discriminate].
  destruct (draw _); [|discriminate]. intros [= <-]. reflexivity.
Qed.

Lemma record_step_inv inc fr sr w w' :
  record_step inc fr sr w = Ok w' ->
  exists m1 fa ff,
    tick (rs_movie w) = Ok m1 /\
    fires inc sr (rs_progress w) = Ok fa /\
    fires inc fr (rs_progress w) = Ok ff /\
    rs_pixels w' = (if ff then rs_pixels w ++ [color_buffer m1] else rs_pixels w) /\
    rs_progress w' = rs_progress w + 1 /\
    current_time (rs_movie w') =
      PyFloat.add (current_time (rs_movie w)) (PyFloat.div (PyFloat.of_Z 1) inc).
Proof.
  unfold record_step, bind.
  destruct (tick (rs_movie w)) as [m1|] eqn:Ht; [|discriminate].
  destruct (fires inc sr (rs_progress w)) as [fa|] eqn:Ha; [|discriminate].
  destruct (if fa then _ else _) as [[ad b]|]; [|discriminate].
  destruct (fires inc fr (rs_progress w)) as [ff|] eqn:Hf; [|discriminate].
  assert (Hpx : forall px, (if ff then _ <- get_buffer_manager ;; Ok (rs_pixels w ++ [color_buffer m1])
                            else Ok (rs_pixels w)) = Ok px ->
                px = if ff then rs_pixels w ++ [color_buffer m1] else rs_pixels w).
  { intros px. destruct ff; [destruct get_buffer_manager; cbn|]; congruence. }
  destruct (if ff then _ else _) as [px|]; [|discriminate].
  intros [= <-]. exists m1, fa, ff. repeat split; auto.
  cbn. rewrite (tick_time _ _ Ht). reflexivity.
Qed.

(** Observable summary of a finished or running loop. *)
Definition summary (na : Z) (o : loop_out) : option (Z * Z * Z) :=
  match o with
  | Finished w => Some (rs_progress w, na, Z.of_nat (List.length (rs_pixels w)))
  | Running _ => None
  end.

(** The loop's iteration count and saved frames follow the schedule. *)
Lemma record_loop_schedule fuel inc end_time fr sr w o :
  record_loop fuel inc end_time fr sr w = Ok o ->
  forall na, exists na',
    clock_run fuel inc end_time fr sr (current_time (rs_movie w)) (rs_progress w)
      na (Z.of_nat (List.length (rs_pixels w))) = Ok (summary na' o).
Proof.
  revert w. induction fuel as [|f IH]; intros w Hl na; simpl in Hl |- *.
  - destruct (PyFloat.leb _ _); injection Hl as <-; exists na; reflexivity.
  - destruct (PyFloat.leb _ _).
    + unfold bind in Hl.
      destruct (record_step inc fr sr w) as [w'|] eqn:Hs; [|discriminate].
      destruct (record_step_inv _ _ _ _ _ Hs)
        as (m1 & fa & ff & Ht & Ha & Hf & Hp & Hpr & Hc).
      rewrite Ha, Hf.
      destruct (IH w' Hl (if fa then na + 1 else na)) as [na' IH'].
      exists na'. rewrite Hp, Hpr, Hc in IH'. rewrite <- IH'.
      destruct ff; [rewrite length_app; simpl; f_equal; lia | reflexivity].
    + injection Hl as <-. exists na. reflexivity.
Qed.

End LoopFacts.

(** The probe timeline: each step leaves the node unchanged and an audio
    step appends one byte (sample [0.0] at 8 bits is [128]). *)
Lemma probe_tick t fb :
  @tick quiet_env (mkMovie [probe_node] t fb) = Ok (mkMovie [probe_node] t (mkFrame t [])).
Proof.
  unfold tick, process_nodes, is_active, bind. cbn - [PyFloat.leb PyFloat.ltb PyFloat.of_Z].
  destruct (PyFloat.leb _ t); [destruct (PyFloat.ltb t _)|]; reflexivity.
Qed.

Definition probe_buf (ad : audio_map) : bytes :=
  match am_find 0 ad with Some v => v | None => [] end.

Lemma probe_capture ad b :
  (ad = [] \/ exists buf, ad = [(0%nat, buf)]) ->
  capture_audio [probe_node] ad b = Ok ([(0%nat, probe_buf ad ++ [128])], Some [128]).
Proof.
  intros [-> | [buf ->]]; reflexivity.
Qed.

Definition probe_shaped (w : rec_state) : Prop :=
  m_nodes (rs_movie w) = [probe_node] /\
  (rs_audio w = [] \/ exists buf, rs_audio w = [(0%nat, buf)]).

Lemma probe_step inc fr sr t fb px ad b p :
  (ad = [] \/ exists buf, ad = [(0%nat, buf)]) ->
  @record_step quiet_env inc fr sr (mkRec (mkMovie [probe_node] t fb) px ad b p) =
  match fires inc sr p, fires inc fr p with
  | Ok fa, Ok ff =>
      Ok (mkRec (mkMovie [probe_node] (PyFloat.add t (PyFloat.div (PyFloat.of_Z 1) inc))
                         (mkFrame t []))
                (if ff then px ++ [mkFrame t []] else px)
                (if fa then [(0%nat, probe_buf ad ++ [128])] else ad)
                (if fa then Some [128] else b) (p + 1))
  | Err e, _ => Err e
  | Ok _, Err e => Err e
  end.
Proof.
  intros Had. unfold record_step. cbn [rs_movie rs_progress rs_audio rs_b rs_pixels].
  rewrite probe_tick. cbn [bind].
  destruct (fires inc sr p) as [[]|e]; [rewrite probe_capture by exact Had| |]; cbn [bind];
    destruct (fires inc fr p) as [[]|]; reflexivity.
Qed.

Lemma probe_loop fuel inc end_time fr sr w :
  probe_shaped w ->
  match @record_loop quiet_env fuel inc end_time fr sr w with
  | Ok o => Ok (summary (captured 0 (out_state o)) o)
  | Err e => Err e
  end =
  clock_run fuel inc end_time fr sr (current_time (rs_movie w)) (rs_progress w)
    (captured 0 w) (Z.of_nat (List.length (rs_pixels w))).
Proof.
  revert w. induction fuel as [|f IH]; intros [[ns t fb] px ad b p] [Hn Had];
    cbn in Hn, Had; subst ns.
  - cbn [record_loop clock_run rs_movie current_time].
    destruct (PyFloat.leb _ _); reflexivity.
  - cbn [record_loop clock_run rs_movie current_time rs_progress rs_pixels].
    destruct (PyFloat.leb t end_time); [|reflexivity].
    rewrite probe_step by exact Had.
    destruct (fires inc sr p) as [fa|e]; [|reflexivity].
    destruct (fires inc fr p) as [ff|e]; [|reflexivity].
    cbn [bind]. rewrite IH.
    + cbn [rs_movie current_time rs_progress rs_pixels]. f_equal.
      * destruct fa; unfold captured; cbn [rs_audio].
        -- unfold probe_buf. destruct Had as [-> | [buf ->]]; cbn;
             rewrite ?length_app; cbn; lia.
        -- reflexivity.
      * destruct ff; [rewrite length_app; cbn; lia | reflexivity].
    + split; [reflexivity|]. destruct fa; [right; eexists; reflexivity | exact Had].
Qed.

(** ** [gcd] and [lcm] on positive ints *)

Lemma gcd_aux_spec fuel a b : 0 <= a -> 0 <= b -> a < Z.of_nat fuel ->
  gcd_aux fuel a b = Z.gcd a b.
Proof.
  revert a b. induction fuel as [|f IH]; intros a b Ha Hb Hf; [lia|].
  cbn [gcd_aux]. destruct (Z.eqb_spec a 0) as [->|Hne].
  - rewrite Z.gcd_0_l. lia.
  - pose proof (Z.mod_pos_bound b a ltac:(lia)).
    rewrite IH by lia. apply Z.gcd_mod. lia.
Qed.

Lemma gcd_spec a b : 0 <= a -> 0 <= b -> gcd a b = Z.gcd a b.
Proof. intros. unfold gcd. apply gcd_aux_spec; lia. Qed.

Lemma lcm_exact_spec a b : 0 < a -> 0 < b -> lcm_exact a b = Z.lcm a b.
Proof.
  intros Ha Hb. unfold lcm_exact, Z.lcm. rewrite gcd_spec by lia.
  assert (Z.gcd a b <> 0) by (intro E; apply Z.gcd_eq_0 in E; lia).
  rewrite Z.divide_div_mul_exact by (auto; apply Z.gcd_divide_r).
  symmetry. apply Z.abs_eq. apply Z.mul_nonneg_nonneg; [lia|].
  apply Z.div_pos; [lia|]. pose proof (Z.gcd_nonneg a b). lia.
Qed.

Lemma lcm_exact_pos a b : 0 < a -> 0 < b -> 0 < lcm_exact a b.
Proof.
  intros. rewrite lcm_exact_spec by lia.
  pose proof (Z.lcm_nonneg a b).
  destruct (Z.eq_dec (Z.lcm a b) 0) as [E|]; [|lia].
  apply Z.lcm_eq_0 in E. lia.
Qed.

Lemma lcm_exact_divide_l a b : 0 < a -> 0 < b -> lcm_exact a b = (lcm_exact a b / a) * a.
Proof.
  intros. rewrite lcm_exact_spec by lia.
  destruct (Z.divide_lcm_l a b) as [k Hk]. rewrite Hk at 2. rewrite Z.div_mul by lia. exact Hk.
Qed.

Lemma lcm_exact_divide_r a b : 0 < a -> 0 < b -> lcm_exact a b = (lcm_exact a b / b) * b.
Proof.
  intros. rewrite lcm_exact_spec by lia.
  destruct (Z.divide_lcm_r a b) as [k Hk]. rewrite Hk at 2. rewrite Z.div_mul by lia. exact Hk.
Qed.

Lemma lcm_ok a b : 0 < a -> 0 < b -> lcm_exact a b < 2 ^ 53 ->
  lcm a b = Ok (PyFloat.of_Z (lcm_exact a b)).
Proof.
  intros Ha Hb HL. pose proof (lcm_exact_pos a b Ha Hb) as Hp.
  unfold lcm. rewrite gcd_spec by lia.
  destruct (Z.eqb_spec (Z.gcd a b) 0) as [E|_].
  { apply Z.gcd_eq_0 in E. lia. }
  destruct (lcm_exact a b) as [|l|l] eqn:E; try lia.
  rewrite of_Z_pos by lia. reflexivity.
Qed.

(** [float(increment) / rate] is the exact quotient [lcm / rate]. *)
Lemma increment_div a b r : 0 < a -> 0 < b -> lcm_exact a b < 2 ^ 53 ->
  (r = a \/ r = b) ->
  PyFloat.div (PyFloat.of_Z (lcm_exact a b)) (PyFloat.of_Z r) =
  PyFloat.of_Z (lcm_exact a b / r).
Proof.
  intros Ha Hb HL Hr. pose proof (lcm_exact_pos a b Ha Hb).
  assert (Hd : lcm_exact a b = (lcm_exact a b / r) * r)
    by (destruct Hr as [->| ->]; auto using lcm_exact_divide_l, lcm_exact_divide_r).
  assert (0 < r) by lia.
  set (q := lcm_exact a b / r) in *.
  assert (0 < q) by nia.
  rewrite Hd at 1. apply div_of_Z; [lia | lia | rewrite <- Hd; lia].
Qed.

(** ** Counting the capture steps *)

Lemma fires_int inc rate d p :
  PyFloat.div inc (PyFloat.of_Z rate) = PyFloat.of_Z d ->
  0 < d < 2 ^ 53 -> 0 <= p < 2 ^ 53 ->
  fires inc rate p = Ok (Z.eqb (p mod d) 0).
Proof. intros Hd Hb Hp. unfold fires. rewrite Hd. apply fmod_of_Z; lia. Qed.

Lemma clock_run_int_eq fuel inc end_time fr sr df ds t p na nf :
  PyFloat.div inc (PyFloat.of_Z sr) = PyFloat.of_Z ds ->
  PyFloat.div inc (PyFloat.of_Z fr) = PyFloat.of_Z df ->
  0 < ds < 2 ^ 53 -> 0 < df < 2 ^ 53 ->
  0 <= p -> p + Z.of_nat fuel < 2 ^ 53 ->
  clock_run fuel inc end_time fr sr t p na nf =
  Ok (clock_run_int fuel (PyFloat.div (PyFloat.of_Z 1) inc) end_time df ds t p na nf).
Proof.
  intros Hs Hf Hds Hdf. revert t p na nf.
  induction fuel as [|f IH]; intros t p na nf Hp Hb; cbn [clock_run clock_run_int].
  - destruct (PyFloat.leb t end_time); reflexivity.
  - destruct (PyFloat.leb t end_time); [|reflexivity].
    rewrite (fires_int _ _ ds p Hs), (fires_int _ _ df p Hf) by lia.
    apply IH; lia.
Qed.

Lemma ceil_div_step p d : 0 <= p -> 0 < d ->
  (p + 1 + d - 1) / d = (p + d - 1) / d + (if Z.eqb (p mod d) 0 then 1 else 0).
Proof.
  intros Hp Hd. pose proof (Z.div_mod p d ltac:(lia)).
  pose proof (Z.mod_pos_bound p d Hd).
  set (q := p / d) in *. set (r := p mod d) in *.
  assert (E1 : (p + 1 + d - 1) / d = q + 1)
    by (symmetry; apply (Z.div_unique _ _ _ r); lia).
  rewrite E1. destruct (Z.eqb_spec r 0) as [E|E].
  - assert (E2 : (p + d - 1) / d = q) by (symmetry; apply (Z.div_unique _ _ _ (d - 1)); lia).
    rewrite E2. lia.
  - assert (E2 : (p + d - 1) / d = q + 1) by (symmetry; apply (Z.div_unique _ _ _ (r - 1)); lia).
    rewrite E2. lia.
Qed.

(** Over the steps [p .. N-1], the number of multiples of [d] seen so far
    stays [ceil(progress / d)]. *)
Lemma clock_run_int_counts fuel step end_time df ds t p na nf N na' nf' :
  clock_run_int fuel step end_time df ds t p na nf = Some (N, na', nf') ->
  0 <= p -> 0 < ds -> 0 < df ->
  na = (p + ds - 1) / ds -> nf = (p + df - 1) / df ->
  na' = (N + ds - 1) / ds /\ nf' = (N + df - 1) / df /\ p <= N.
Proof.
  revert t p na nf. induction fuel as [|f IH]; intros t p na nf Hr Hp Hds Hdf Ha Hf;
    cbn [clock_run_int] in Hr.
  - destruct (PyFloat.leb t end_time); [discriminate|]. injection Hr as <- <- <-. lia.
  - destruct (PyFloat.leb t end_time).
    + apply IH in Hr; try lia.
      * rewrite ceil_div_step by lia. destruct (Z.eqb (p mod ds) 0); lia.
      * rewrite ceil_div_step by lia. destruct (Z.eqb (p mod df) 0); lia.
    + injection Hr as <- <- <-. lia.
Qed.

Lemma rate_quot_bounds a b r : 0 < a -> 0 < b -> lcm_exact a b < 2 ^ 53 ->
  (r = a \/ r = b) -> 0 < lcm_exact a b / r < 2 ^ 53.
Proof.
  intros Ha Hb HL Hr. pose proof (lcm_exact_pos a b Ha Hb).
  assert (Hd : lcm_exact a b = (lcm_exact a b / r) * r)
    by (destruct Hr as [->| ->]; auto using lcm_exact_divide_l, lcm_exact_divide_r).
  assert (0 < r) by lia. set (q := lcm_exact a b / r) in *. nia.
Qed.

Lemma record_frames_counts `{Collaborators} fuel m start_time end_time fr sr o :
  0 < fr -> 0 < sr -> lcm_exact fr sr < 2 ^ 53 -> Z.of_nat fuel < 2 ^ 53 ->
  record_frames fuel m start_time end_time fr sr = Ok o ->
  exists na',
    Ok (capture_counts fuel start_time end_time fr sr) =
    clock_run fuel (PyFloat.of_Z (lcm_exact fr sr)) end_time fr sr start_time 0 0 0 /\
    clock_run fuel (PyFloat.of_Z (lcm_exact fr sr)) end_time fr sr start_time 0 0 0 =
    Ok (summary na' o).
Proof.
  intros Hf Hs HL Hfu Hr. unfold record_frames in Hr.
  rewrite lcm_ok in Hr by lia. cbn [bind] in Hr.
  destruct (record_loop_schedule _ _ _ _ _ _ _ Hr 0) as [na' Hc].
  exists na'. cbn in Hc. split; [|exact Hc].
  unfold capture_counts. symmetry.
  pose proof (rate_quot_bounds fr sr fr Hf Hs HL (or_introl eq_refl)).
  pose proof (rate_quot_bounds fr sr sr Hf Hs HL (or_intror eq_refl)).
  apply clock_run_int_eq; try lia; apply increment_div; auto.
Qed.

Lemma ceil_zero d : 0 < d -> (0 + d - 1) / d = 0.
Proof. intros. apply Z.div_small. lia. Qed.

Lemma probe_record_frames fuel start_time end_time fr sr :
  0 < fr -> 0 < sr -> lcm_exact fr sr < 2 ^ 53 -> Z.of_nat fuel < 2 ^ 53 ->
  match @record_frames quiet_env fuel probe_movie start_time end_time fr sr with
  | Ok o => Ok (summary (captured 0 (out_state o)) o)
  | Err e => Err e
  end = Ok (capture_counts fuel start_time end_time fr sr).
Proof.
  intros Hf Hs HL Hfu. unfold record_frames.
  rewrite lcm_ok by lia. cbn [bind].
  rewrite probe_loop by (split; [reflexivity | left; reflexivity]).
  cbn [record_init set_time current_time rs_movie rs_progress rs_pixels
       captured am_find rs_audio List.length Z.of_nat].
  unfold capture_counts.
  pose proof (rate_quot_bounds fr sr fr Hf Hs HL (or_introl eq_refl)).
  pose proof (rate_quot_bounds fr sr sr Hf Hs HL (or_intror eq_refl)).
  apply clock_run_int_eq; try lia; apply increment_div; auto.
Qed.

Lemma probe_finished fuel start_time end_time fr sr N na nf :
  0 < fr -> 0 < sr -> lcm_exact fr sr < 2 ^ 53 -> Z.of_nat fuel < 2 ^ 53 ->
  capture_counts fuel start_time end_time fr sr = Some (N, na, nf) ->
  exists w,
    @record_frames quiet_env fuel probe_movie start_time end_time fr sr = Ok (Finished w) /\
    rs_progress w = N /\ captured 0 w = na /\ Z.of_nat (List.length (rs_pixels w)) = nf.
Proof.
  intros Hf Hs HL Hfu Hc.
  pose proof (probe_record_frames fuel start_time end_time fr sr Hf Hs HL Hfu) as E.
  rewrite Hc in E.
  destruct (@record_frames quiet_env fuel probe_movie start_time end_time fr sr)
    as [[w|w]|e]; cbn [summary out_state] in E; try discriminate.
  injection E as <- <- <-. exists w. auto.
Qed.

Lemma lcm_value a b f : lcm a b = Ok f -> f = PyFloat.of_Z (lcm_exact a b).
Proof.
  unfold lcm. destruct (Z.eqb (gcd a b) 0); [discriminate|].
  destruct (PyFloat.of_Z (lcm_exact a b)) eqn:E; intros Hf; try discriminate;
    injection Hf as <-; reflexivity.
Qed.

Lemma record_loop_clock `{Collaborators} fuel inc end_time fr sr w o :
  record_loop fuel inc end_time fr sr w = Ok o ->
  exists n,
    rs_progress (out_state o) = rs_progress w + Z.of_nat n /\
    current_time (rs_movie (out_state o)) =
      accumulate n (current_time (rs_movie w)) (PyFloat.div (PyFloat.of_Z 1) inc).
Proof.
  revert w. induction fuel as [|f IH]; intros w Hl; cbn [record_loop] in Hl.
  - destruct (PyFloat.leb _ _); injection Hl as <-; exists O; split;
      cbn; [lia | reflexivity | lia | reflexivity].
  - destruct (PyFloat.leb _ _).
    + unfold bind in Hl.
      destruct (record_step inc fr sr w) as [w'|] eqn:Hs; [|discriminate].
      destruct (record_step_inv _ _ _ _ _ Hs) as (m1 & fa & ff & _ & _ & _ & _ & Hp & Ht).
      destruct (IH _ Hl) as (n & Hn & Hc). exists (S n). split; [lia|].
      rewrite Hc, Ht. reflexivity.
    + injection Hl as <-. exists O. split; cbn; [lia | reflexivity].
Qed.

(** ** Scaling by a power of two and [int()] *)

Lemma iter_pos_nat {A} (f : A -> A) p x :
  iter_pos f p x = Nat.iter (Pos.to_nat p) f x.
Proof.
  revert x. induction p as [p IH|p IH|]; intros x; cbn [iter_pos].
  - rewrite !IH, <- Nat.iter_add, Pos2Nat.inj_xI, Nat.iter_succ_r. f_equal. lia.
  - rewrite !IH, <- Nat.iter_add, Pos2Nat.inj_xO. f_equal. lia.
  - reflexivity.
Qed.

Lemma shr_1_pow n M :
  Nat.iter n shr_1 {| shr_m := Zpos M * 2 ^ Z.of_nat n; shr_r := false; shr_s := false |} =
  {| shr_m := Zpos M; shr_r := false; shr_s := false |}.
Proof.
  revert M. induction n as [|n IH]; intros M.
  - cbn [Nat.iter Z.of_nat]. rewrite Z.pow_0_r, Z.mul_1_r. reflexivity.
  - replace (Zpos M * 2 ^ Z.of_nat (S n)) with (Zpos (xO M) * 2 ^ Z.of_nat n)
      by (rewrite Nat2Z.inj_succ, Z.pow_succ_r by lia; lia).
    rewrite Nat.iter_succ, IH. reflexivity.
Qed.

Lemma round_aux_shift s m e j : Zpos (Pos.size m) = 53 -> 0 < j ->
  -1074 <= e + j <= 971 ->
  binary_round_aux 53 1024 s (Zpos (Z.to_pos (Zpos m * 2 ^ j))) e loc_Exact =
  S754_finite s m (e + j).
Proof.
  intros Hm Hj He. unfold binary_round_aux, shr_fexp. unfold Zdigits2.
  rewrite digits2_pos_size, size_shift, Hm by lia. rewrite fexp_normal by lia.
  replace (53 + j + e - 53 - e) with j by lia.
  destruct j as [|p|p]; try lia.
  cbn [shr shr_record_of_loc]. rewrite iter_pos_nat.
  rewrite Z2Pos.id by (apply Z.mul_pos_pos; [lia | apply Z.pow_pos_nonneg; lia]).
  rewrite <- (positive_nat_Z p), shr_1_pow.
  cbn [shr_m loc_of_shr_record round_nearest_even shr_record_of_loc].
  unfold Zdigits2. rewrite digits2_pos_size, Hm, fexp_normal by lia.
  replace (53 + (e + Z.of_nat (Pos.to_nat p)) - 53 - (e + Z.of_nat (Pos.to_nat p)))
    with 0 by lia. cbn [shr shr_m].
  rewrite positive_nat_Z.
  replace (Z.leb (e + Zpos p) (1024 - 53)) with true by (symmetry; apply Z.leb_le; lia).
  reflexivity.
Qed.

Lemma of_Z_pow2 k : 0 <= k <= 52 ->
  PyFloat.of_Z (2 ^ k) = S754_finite false (Z.to_pos (2 ^ 52)) (k - 52).
Proof.
  intros Hk. assert (Hp : 0 < 2 ^ k) by (apply Z.pow_pos_nonneg; lia).
  assert (Hl : 2 ^ k < 2 ^ 53) by (apply Z.pow_lt_mono_r; lia).
  destruct (2 ^ k) as [|P|P] eqn:E; try lia.
  rewrite of_Z_pos by lia.
  assert (Hs : Zpos (Pos.size P) = k + 1).
  { apply size_unique. rewrite <- E. replace (k + 1 - 1) with k by lia.
    split; [lia | apply Z.pow_lt_mono_r; lia]. }
  rewrite Hs, <- E, <- Z.pow_add_r by lia.
  replace (k + (53 - (k + 1))) with 52 by lia. f_equal. lia.
Qed.

Lemma mul_pow2 s m e k : Zpos (Pos.size m) = 53 -> 0 <= k <= 52 ->
  -1074 <= e + k <= 971 ->
  PyFloat.mul (S754_finite s m e) (PyFloat.of_Z (2 ^ k)) = S754_finite s m (e + k).
Proof.
  intros Hm Hk He. rewrite of_Z_pow2 by lia.
  unfold PyFloat.mul, SFmul. rewrite xorb_false_r.
  replace (Pos.mul m (Z.to_pos (2 ^ 52))) with (Z.to_pos (Zpos m * 2 ^ 52)) by reflexivity.
  rewrite round_aux_shift by lia. f_equal. lia.
Qed.

Lemma py_int_finite s m e :
  py_int (S754_finite s m e) = Ok (int_part (PyFloat.signed_mant s m) e).
Proof.
  unfold py_int, int_part. destruct (Z.leb_spec 0 e).
  - rewrite Z.max_r, Z.max_l by lia. rewrite Z.pow_0_r, Z.quot_1_r. reflexivity.
  - rewrite Z.max_l, Z.max_r by lia. rewrite Z.pow_0_r, Z.mul_1_r.
    assert (0 < 2 ^ (- e)) by (apply Z.pow_pos_nonneg; lia).
    destruct s; cbn [PyFloat.signed_mant]; f_equal.
    + rewrite <- Pos2Z.opp_pos, Z.quot_opp_l, Z.quot_div_nonneg by lia. reflexivity.
    + rewrite Z.quot_div_nonneg by lia. reflexivity.
Qed.

(** ** Nodes built by [Audio.__init__] *)

Lemma process_nodes_audio_init `{Collaborators} t pre post id ss srate out :
  exists e,
    process_nodes t (pre ++ Audio_init id ss srate out :: post) = Err e /\
    (e = AttributeError "start_time" \/ process_nodes t pre = Err e).
Proof.
  induction pre as [|p pre IH].
  - exists (AttributeError "start_time"). split; [reflexivity | left; reflexivity].
  - destruct IH as (e & He & Hor). cbn [app process_nodes]. unfold bind.
    destruct (is_active p t) as [act|e1]; [|exists e1; split; [reflexivity | right; reflexivity]].
    destruct (if act then call_in_place p t else Ok p) as [p'|e2];
      [|exists e2; split; [reflexivity | right; reflexivity]].
    rewrite He. exists e. split; [reflexivity|].
    destruct Hor as [Ha | Hp]; [left; exact Ha | right; rewrite Hp; reflexivity].
Qed.

Lemma get_audio_output_nodes_missing pre post n l :
  node_cls n = CAudio -> assoc_find "output_audio" (node_attrs n) = None ->
  get_audio_output_nodes pre = Ok l ->
  get_audio_output_nodes (pre ++ n :: post) = Err (AttributeError "output_audio").
Proof.
  intros Hc Ho. revert l. induction pre as [|p pre IH]; intros l Hpre.
  - cbn [app get_audio_output_nodes]. unfold has_audio, getattr.
    rewrite Hc, Ho. reflexivity.
  - cbn [app get_audio_output_nodes] in Hpre |- *. unfold bind in Hpre |- *.
    destruct (has_audio p); [|discriminate].
    destruct (get_audio_output_nodes pre) as [l'|]; [|discriminate].
    rewrite (IH l' eq_refl). reflexivity.
Qed.

(** ** What [record] does to the disk *)

Lemma fs_put_other k k' v fs : k <> k' ->
  assoc_find k (fs_put k' v fs) = assoc_find k fs.
Proof.
  intros Hne. induction fs as [|[k0 v0] fs IH]; cbn [fs_put assoc_find].
  - destruct (String.eqb_spec k k'); [contradiction | reflexivity].
  - destruct (String.eqb_spec k' k0) as [<-|Hk0]; cbn [assoc_find].
    + destruct (String.eqb_spec k k'); [contradiction | reflexivity].
    + destruct (String.eqb k k0); [reflexivity | exact IH].
Qed.

Lemma fs_put_same k v fs : assoc_find k (fs_put k v fs) = Some v.
Proof.
  induction fs as [|[k0 v0] fs IH]; cbn [fs_put assoc_find].
  - rewrite String.eqb_refl. reflexivity.
  - destruct (String.eqb_spec k k0) as [<-|Hk0]; cbn [assoc_find].
    + rewrite String.eqb_refl. reflexivity.
    + rewrite (proj2 (String.eqb_neq k k0) Hk0). exact IH.
Qed.


Lemma fs_put_twice k v v' fs : fs_put k v (fs_put k v' fs) = fs_put k v fs.
Proof.
  induction fs as [|[k0 v0] fs IH]; cbn [fs_put].
  - rewrite String.eqb_refl. reflexivity.
  - destruct (String.eqb_spec k k0) as [<-|Hk0]; cbn [fs_put].
    + rewrite String.eqb_refl. reflexivity.
    + rewrite (proj2 (String.eqb_neq k k0) Hk0), IH. reflexivity.
Qed.

Lemma put_file_twice k v v' s : put_file k v (put_file k v' s) = put_file k v s.
Proof. unfold put_file, set_files. cbn [files dirs sink]. rewrite fs_put_twice. reflexivity. Qed.

Lemma as_int_lt v c k : as_int v = Ok c -> lt_int v k = Ok (Z.ltb c k).
Proof. destruct v; cbn; intros Hv; inversion Hv; reflexivity. Qed.

Lemma as_int_gt v c k : as_int v = Ok c -> gt_int v k = Ok (Z.ltb k c).
Proof. destruct v; cbn; intros Hv; inversion Hv; reflexivity. Qed.

(** [sample_size // 8] is never a bool. *)
Lemma floordiv8_as_int sz w k : floordiv8 sz = Ok w -> as_int w = Ok k -> w = PInt k.
Proof.
  destruct sz; cbn; intros Hw; inversion Hw; subst; cbn; intros Hk; inversion Hk; reflexivity.
Qed.

Lemma fits_L_true z : 0 <= z < 2 ^ 32 -> fits_L z = true.
Proof. intros Hz. unfold fits_L. apply andb_true_intro. split; [apply Z.leb_le|apply Z.ltb_lt]; lia. Qed.

Lemma fits_H_true z : 0 <= z < 2 ^ 16 -> fits_H z = true.
Proof. intros Hz. unfold fits_H. apply andb_true_intro. split; [apply Z.leb_le|apply Z.ltb_lt]; lia. Qed.

Lemma fits_L_range z : fits_L z = true -> 0 <= z < 2 ^ 32.
Proof. unfold fits_L. rewrite andb_true_iff, Z.leb_le, Z.ltb_lt. lia. Qed.

Lemma fits_H_range z : fits_H z = true -> 0 <= z < 2 ^ 16.
Proof. unfold fits_H. rewrite andb_true_iff, Z.leb_le, Z.ltb_lt. lia. Qed.

Lemma wav_header_ok ch w rate len c k dl :
  wav_header ch w rate len = Ok (c, k, dl) ->
  as_int ch = Ok c /\ as_int w = Ok k /\ dl = len / (c * k) * (c * k) /\
  0 <= 36 + dl < 2 ^ 32 /\ c < 2 ^ 16 /\ 0 <= rate < 2 ^ 32 /\
  0 <= c * rate * k < 2 ^ 32 /\ 0 <= c * k < 2 ^ 16.
Proof.
  unfold wav_header.
  destruct (as_int ch) as [c0|e]; [|destruct (_ || _)%bool; discriminate].
  destruct (as_int w) as [k0|e]; [|destruct (_ || _)%bool; discriminate].
  destruct (fits_L (36 + _)) eqn:F1; [|discriminate].
  destruct (fits_H c0) eqn:F2; [|discriminate].
  destruct (fits_L rate) eqn:F3; [|discriminate].
  destruct (fits_L (c0 * rate * k0)) eqn:F4; [|discriminate].
  destruct (fits_H (c0 * k0)) eqn:F5; [|discriminate].
  destruct (fits_H (k0 * 8)) eqn:F6; [|discriminate].
  destruct (fits_L (len / _ * _)) eqn:F7; [|discriminate].
  intros [= <- <- <-].
  apply fits_L_range in F1, F3, F4. apply fits_H_range in F2, F5.
  repeat split; try reflexivity; lia.
Qed.

Ltac io_split H :=
  cbn beta iota zeta in H;
  lazymatch type of H with
  | context [match ?x with Ok _ => _ | Err _ => _ end] => destruct x eqn:?
  | context [if ?b then _ else _] => destruct b eqn:?
  | context [match ?p with (_, _) => _ end] => destruct p
  end.

Lemma write_audio_data_ok `{Collaborators} n smp rate path s u s' :
  write_audio_data n smp rate path s = (Ok u, s') ->
  exists c k, wav_params n rate (Z.of_nat (List.length smp)) c k /\
    s' = put_file path (wav_bytes c rate k (Z.of_nat (List.length smp)) ++ smp) s.
Proof.
  intros Hw. unfold write_audio_data, open_wb, io_bind, lift, modify in Hw.
  repeat (io_split Hw); try discriminate Hw.
  pose proof (f_equal snd Hw) as Hs. cbn [snd] in Hs. subst s'.
  match goal with
  | Hh : wav_header ?ch ?w _ _ = Ok (?c, ?k, ?dl) |- _ =>
      destruct (wav_header_ok _ _ _ _ _ _ _ Hh) as (Hc & Hk & Hdl & B1 & B2 & B3 & B4 & B5);
      rename c into c0, k into k0, ch into ch0, w into w0
  end.
  match goal with Hf : floordiv8 ?sz = Ok w0 |- _ =>
    pose proof (floordiv8_as_int _ _ _ Hf Hk); subst w0; rename sz into sz0 end.
  match goal with
  | H1 : lt_int ch0 1 = Ok false, H2 : lt_int (PInt k0) 1 = Ok false,
    H3 : gt_int (PInt k0) 4 = Ok false, H4 : Z.leb rate 0 = false,
    H5 : (Z.eqb _ _ || fits_L _)%bool = true |- _ =>
      rewrite (as_int_lt _ _ _ Hc) in H1; cbn in H2, H3;
      injection H1 as H1; injection H2 as H2; injection H3 as H3;
      apply Z.ltb_ge in H1, H2, H3; apply Z.leb_gt in H4;
      apply orb_true_iff in H5
  end.
  exists c0, k0. split; [|apply put_file_twice].
  exists ch0, sz0. repeat split; auto; try lia.
  match goal with H5 : (_ = true \/ _ = true) |- _ => destruct H5 as [E|E] end;
    [apply Z.eqb_eq in E; lia | apply fits_L_range in E; lia].
Qed.

Lemma write_audio_data_params `{Collaborators} n smp rate path s c k :
  open_path path = Ok tt ->
  wav_params n rate (Z.of_nat (List.length smp)) c k ->
  write_audio_data n smp rate path s =
    (Ok tt, put_file path (wav_bytes c rate k (Z.of_nat (List.length smp)) ++ smp) s).
Proof.
  intros Ho (ch & sz & Hch & Hc & Hsz & Hk & B1 & B2 & B3 & B4 & B5 & B6).
  set (len := Z.of_nat (List.length smp)) in *.
  assert (Hdl : 0 <= len / (c * k) * (c * k) <= len).
  { split; [apply Z.mul_nonneg_nonneg; [apply Z.div_pos|]; lia|].
    rewrite Z.mul_comm. apply Z.mul_div_le. lia. }
  assert (P1 : 0 <= c * rate * k) by (apply Z.mul_nonneg_nonneg; [apply Z.mul_nonneg_nonneg|]; lia).
  assert (P2 : 0 <= c * k) by (apply Z.mul_nonneg_nonneg; lia).
  unfold write_audio_data, open_wb, io_bind, lift, modify. rewrite Ho.
  cbn beta iota zeta. rewrite Hch. cbn beta iota.
  rewrite (as_int_lt _ _ _ Hc), (proj2 (Z.ltb_ge c 1)) by lia. cbn beta iota.
  rewrite (proj2 (Z.leb_gt rate 0)) by lia. rewrite Hsz, Hk. cbn beta iota.
  cbn [lt_int gt_int]. rewrite (proj2 (Z.ltb_ge k 1)), (proj2 (Z.ltb_ge 4 k)) by lia.
  cbn beta iota. unfold wav_header. rewrite Hc. cbn [as_int].
  change (Z.of_nat (List.length smp)) with len. clearbody len.
  rewrite (fits_L_true (36 + _)), (fits_H_true c), (fits_L_true rate),
    (fits_L_true (c * rate * k)), (fits_H_true (c * k)), (fits_H_true (k * 8)),
    (fits_L_true (len / _ * _)) by lia.
  cbn [andb]. rewrite (fits_L_true (36 + len)), orb_true_r by lia.
  rewrite put_file_twice. reflexivity.
Qed.

Lemma wav_header_le ch w rate len c k dl :
  0 <= len -> lt_int ch 1 = Ok false -> lt_int w 1 = Ok false ->
  wav_header ch w rate len = Ok (c, k, dl) -> dl <= len.
Proof.
  intros Hl H1 H2 Hh. destruct (wav_header_ok _ _ _ _ _ _ _ Hh) as (Hc & Hk & -> & _).
  rewrite (as_int_lt _ _ _ Hc) in H1. rewrite (as_int_lt _ _ _ Hk) in H2.
  injection H1 as H1. injection H2 as H2. apply Z.ltb_ge in H1, H2.
  rewrite Z.mul_comm. apply Z.mul_div_le. lia.
Qed.

(** What a failing [_write_audio_data] leaves: nothing when [open] fails,
    else an empty file, the two [b'RIFF'] of a header that could not be
    packed, or a complete file whose header gives a data length rounded
    down to whole frames. *)
Lemma write_audio_data_err `{Collaborators} n smp rate path s e s' :
  write_audio_data n smp rate path s = (Err e, s') ->
  (open_path path = Err e /\ s' = s) \/ s' = put_file path [] s \/
  s' = put_file path (riff ++ riff) s \/
  exists c k dl, dl < Z.of_nat (List.length smp) /\
    s' = put_file path (wav_bytes c rate k dl ++ smp) s.
Proof.
  intros Hw. unfold write_audio_data, open_wb, io_bind, lift, modify in Hw.
  repeat (io_split Hw); try discriminate Hw;
    pose proof (f_equal snd Hw) as Hs; pose proof (f_equal fst Hw) as He;
    cbn [fst snd] in Hs, He; subst s';
    try (right; left; reflexivity).
  all: try (left; split; [congruence|reflexivity]).
  all: try (right; right; left; apply put_file_twice).
  right; right; right.
    match goal with
    | Hh : wav_header ?ch ?w _ _ = Ok (?c, ?k, ?dl) |- _ =>
        exists c, k, dl; split; [|apply put_file_twice];
        assert (Hle : dl <= Z.of_nat (List.length smp))
          by (eapply wav_header_le; [lia| | |exact Hh]; eassumption)
    end.
    match goal with E : (Z.eqb _ _ || fits_L _)%bool = false |- _ =>
      apply orb_false_iff in E; destruct E as [E _]; apply Z.eqb_neq in E end.
    lia.
Qed.

Lemma write_audio_data_put `{Collaborators} n smp rate path s r s' :
  write_audio_data n smp rate path s = (r, s') -> s' = s \/ exists v, s' = put_file path v s.
Proof.
  destruct r as [u|e]; intros Hw.
  - destruct (write_audio_data_ok _ _ _ _ _ _ _ Hw) as (c & k & _ & ->). right. eexists. reflexivity.
  - destruct (write_audio_data_err _ _ _ _ _ _ _ Hw) as [[_ ->]|[->|[->|(c & k & dl & _ & ->)]]];
      [left; reflexivity|right; eexists; reflexivity..].
Qed.

Lemma rmtree_keep tmp k s r s' : under tmp k = false -> rmtree tmp s = (r, s') ->
  assoc_find k (files s') = assoc_find k (files s).
Proof.
  intros Hp Hr. unfold rmtree in Hr.
  destruct (existsb _ _); injection Hr as _ <-; [|reflexivity].
  destruct s as [fs ds sk]. cbn [files].
  induction fs as [|[k0 v0] fs IH]; cbn [filter assoc_find fst]; [reflexivity|].
  destruct (String.eqb_spec k k0) as [<-|Hk0].
  - rewrite Hp. cbn [negb assoc_find]. rewrite String.eqb_refl. reflexivity.
  - destruct (under tmp k0); cbn [negb assoc_find];
      [exact IH | rewrite (proj2 (String.eqb_neq k k0) Hk0); exact IH].
Qed.

Lemma rmtree_removes tmp s r s' : rmtree tmp s = (r, s') -> ~ In tmp (dirs s').
Proof.
  unfold rmtree. destruct (existsb (String.eqb tmp) (dirs s)) eqn:Hex;
    intros Hr; injection Hr as _ <-.
  - cbn [dirs]. rewrite filter_In. intros [_ Hd].
    rewrite String.eqb_refl in Hd. discriminate.
  - intros Hin. apply Bool.not_true_iff_false in Hex. apply Hex, existsb_exists.
    exists tmp. split; [exact Hin | apply String.eqb_refl].
Qed.

Lemma rmtree_sink tmp s r s' : rmtree tmp s = (r, s') -> sink s' = sink s.
Proof. unfold rmtree. destruct (existsb _ _); intros Hr; injection Hr as _ <-; reflexivity. Qed.

(** The file [k], the caller's file object and the directories are left
    alone by a step from [s] to [s']. *)
Definition keeps (k : string) (s s' : sys) : Prop :=
  assoc_find k (files s') = assoc_find k (files s) /\ sink s' = sink s /\
  dirs s' = dirs s.

Lemma keeps_refl k s : keeps k s s.
Proof. repeat split; reflexivity. Qed.

Lemma keeps_trans k s1 s2 s3 : keeps k s1 s2 -> keeps k s2 s3 -> keeps k s1 s3.
Proof. intros (A & B & C) (D & E & F). repeat split; congruence. Qed.

Lemma keeps_put k k' v s : k <> k' -> keeps k s (put_file k' v s).
Proof. intros Hne. repeat split; [apply fs_put_other; exact Hne]. Qed.


Lemma write_audio_data_keeps `{Collaborators} k n smp rate path s r s' :
  k <> path -> write_audio_data n smp rate path s = (r, s') -> keeps k s s'.
Proof.
  intros Hne Hw. destruct (write_audio_data_put _ _ _ _ _ _ _ Hw) as [->|[v ->]];
    [apply keeps_refl | apply keeps_put; exact Hne].
Qed.

Lemma audio_inputs_keeps `{Collaborators} k ns ad rate tmp audio_id cmd s r s' :
  (forall i, (audio_id <= i)%nat -> k <> audio_clip_path tmp i) ->
  audio_inputs ns ad rate tmp audio_id cmd s = (r, s') -> keeps k s s'.
Proof.
  revert audio_id cmd s.
  induction ad as [|[id smp] ad IH]; intros audio_id cmd s Hk Ha; cbn [audio_inputs] in Ha.
  - injection Ha as _ <-. apply keeps_refl.
  - destruct (node_by_id id ns) as [n|]; [|injection Ha as _ <-; apply keeps_refl].
    unfold io_bind in Ha.
    destruct (write_audio_data n smp rate (audio_clip_path tmp audio_id) s)
      as [[u|e] s1] eqn:Hw;
      pose proof (write_audio_data_keeps k _ _ _ _ _ _ _ (Hk audio_id (le_n _)) Hw) as K1;
      [|injection Ha as _ <-; exact K1].
    unfold lift in Ha. destruct (getattr n "start_time") as [st|e];
      [|injection Ha as _ <-; exact K1].
    apply (keeps_trans _ _ s1); [exact K1 | eapply IH; [|exact Ha]].
    intros i Hi. apply Hk. lia.
Qed.

Lemma prepare_record_command_keeps `{Collaborators} k ns ad fr rate fmt opts tmp s r s' :
  (forall i, k <> audio_clip_path tmp i) ->
  prepare_record_command ns ad fr rate fmt opts tmp s = (r, s') -> keeps k s s'.
Proof.
  intros Hk Hp. unfold prepare_record_command, io_bind in Hp.
  destruct (audio_inputs ns ad rate tmp 0 _ s) as [[c|e] s1] eqn:Ha;
    pose proof (audio_inputs_keeps _ _ _ _ _ _ _ _ _ _ (fun i _ => Hk i) Ha) as K1;
    [unfold ret in Hp|]; injection Hp as _ <-; exact K1.
Qed.


Lemma write_audio_data_dirs `{Collaborators} n smp rate path s r s' :
  write_audio_data n smp rate path s = (r, s') -> dirs s' = dirs s.
Proof.
  intros Hw. destruct (write_audio_data_put _ _ _ _ _ _ _ Hw) as [->|[v ->]]; reflexivity.
Qed.

Lemma prepare_record_command_dirs `{Collaborators} ns ad fr rate fmt opts tmp s r s' :
  prepare_record_command ns ad fr rate fmt opts tmp s = (r, s') -> dirs s' = dirs s.
Proof.
  assert (Hai : forall audio_id cmd s0 r0 s0',
            audio_inputs ns ad rate tmp audio_id cmd s0 = (r0, s0') -> dirs s0' = dirs s0).
  { induction ad as [|[id smp] ad IH]; intros audio_id cmd s0 r0 s0' Ha;
      cbn [audio_inputs] in Ha.
    - injection Ha as _ <-. reflexivity.
    - destruct (node_by_id id ns) as [n|]; [|injection Ha as _ <-; reflexivity].
      unfold io_bind in Ha.
      destruct (write_audio_data n smp rate (audio_clip_path tmp audio_id) s0)
        as [[u|e] s1] eqn:Hw; pose proof (write_audio_data_dirs _ _ _ _ _ _ _ Hw) as D1;
        [|injection Ha as _ <-; exact D1].
      unfold lift in Ha. destruct (getattr n "start_time") as [st|e];
        [|injection Ha as _ <-; exact D1].
      rewrite <- D1. eapply IH. exact Ha. }
  intros Hp. unfold prepare_record_command, io_bind in Hp.
  destruct (audio_inputs ns ad rate tmp 0 _ s) as [[c|e] s1] eqn:Ha;
    pose proof (Hai _ _ _ _ _ Ha) as D1; [unfold ret in Hp|];
    injection Hp as _ <-; exact D1.
Qed.

Lemma str_app_cancel_l a x y : (a ++ x = a ++ y)%string -> x = y.
Proof. induction a as [|c a IH]; cbn; intros Heq; [exact Heq|injection Heq; exact IH]. Qed.

Lemma str_length_app a b : String.length (a ++ b) = (String.length a + String.length b)%nat.
Proof. induction a as [|c a IH]; cbn; [reflexivity|rewrite IH; reflexivity]. Qed.

Lemma str_app_cancel_r x y c : (x ++ c = y ++ c)%string -> x = y.
Proof.
  intros Heq. assert (Hl : String.length x = String.length y).
  { apply (f_equal String.length) in Heq. rewrite !str_length_app in Heq. lia. }
  revert y Heq Hl. induction x as [|a x IH]; intros [|b y] Heq Hl; cbn in *;
    try discriminate; [reflexivity|].
  injection Heq as -> Heq. f_equal. apply IH; [exact Heq|lia].
Qed.

Lemma str_app_nil_r a : (a ++ "")%string = a.
Proof. induction a as [|c a IH]; cbn; [reflexivity|rewrite IH; reflexivity]. Qed.

Lemma str_app_assoc a b c : (a ++ (b ++ c))%string = ((a ++ b) ++ c)%string.
Proof. induction a as [|x a IH]; cbn; [reflexivity|rewrite IH; reflexivity]. Qed.

Lemma str_nat_inj i j : str_nat i = str_nat j -> i = j.
Proof.
  unfold str_nat. intros Heq.
  apply (f_equal DecimalString.NilEmpty.uint_of_string) in Heq.
  rewrite !DecimalString.NilEmpty.usu in Heq. injection Heq as Heq.
  rewrite <- (DecimalNat.Unsigned.of_to i), <- (DecimalNat.Unsigned.of_to j), Heq.
  reflexivity.
Qed.

(** The scratch audio files of distinct inputs have distinct paths. *)
Lemma audio_clip_path_inj tmp i j :
  audio_clip_path tmp i = audio_clip_path tmp j -> i = j.
Proof.
  unfold audio_clip_path, path_join. intros Heq.
  assert (Hb : ("audio_" ++ str_nat i ++ ".wav")%string
               = ("audio_" ++ str_nat j ++ ".wav")%string).
  { destruct (String.eqb tmp ""); [exact Heq|].
    destruct (String.eqb _ "/"); apply str_app_cancel_l in Heq;
      [exact Heq|apply str_app_cancel_l in Heq; exact Heq]. }
  apply str_app_cancel_l, str_app_cancel_r, str_nat_inj in Hb. exact Hb.
Qed.


Lemma audio_inputs_spec `{Collaborators} ns ad rate tmp audio_id cmd0 s cmd s' :
  audio_inputs ns ad rate tmp audio_id cmd0 s = (Ok cmd, s') ->
  exists sts,
    cmd = (cmd0 ++ input_args tmp audio_id sts)%string /\
    List.length sts = List.length ad /\
    forall i k smp, nth_error ad i = Some (k, smp) ->
      exists n st ch wd,
        node_by_id k ns = Some n /\ getattr n "start_time" = Ok st /\
        nth_error sts i = Some st /\
        assoc_find (audio_clip_path tmp (audio_id + i)) (files s') =
          Some (wav_bytes ch rate wd (Z.of_nat (List.length smp)) ++ smp).
Proof.
  revert audio_id cmd0 s.
  induction ad as [|[k0 smp0] ad IH]; intros audio_id cmd0 s Ha; cbn [audio_inputs] in Ha.
  - injection Ha as <- <-. exists []. split; [symmetry; apply str_app_nil_r|].
    split; [reflexivity|]. intros [|i] k smp Hn; discriminate.
  - destruct (node_by_id k0 ns) as [n|] eqn:Hn; [|discriminate].
    unfold io_bind in Ha.
    destruct (write_audio_data n smp0 rate (audio_clip_path tmp audio_id) s)
      as [[u|e] s1] eqn:Hw; [|discriminate].
    unfold lift in Ha. destruct (getattr n "start_time") as [st|e] eqn:Hst; [|discriminate].
    destruct (IH _ _ _ Ha) as (sts & Hc & Hlen & Hall).
    exists (st :: sts). split; [|split].
    + rewrite Hc. cbn [input_args]. rewrite <- !str_app_assoc. reflexivity.
    + cbn. rewrite Hlen. reflexivity.
    + intros [|i] k smp Hi; cbn in Hi.
      * injection Hi as <- <-.
        destruct (write_audio_data_ok _ _ _ _ _ _ _ Hw) as (ch & wd & _ & Hs1).
        exists n, st, ch, wd. split; [exact Hn|]. split; [exact Hst|]. split; [reflexivity|].
        rewrite Nat.add_0_r.
        assert (K : keeps (audio_clip_path tmp audio_id) s1 s').
        { eapply audio_inputs_keeps; [|exact Ha].
          intros j Hj Heq. apply audio_clip_path_inj in Heq. lia. }
        destruct K as [K _]. rewrite K, Hs1. apply fs_put_same.
      * destruct (Hall _ _ _ Hi) as (n' & st' & ch & wd & H1 & H2 & H3 & H4).
        exists n', st', ch, wd. split; [exact H1|]. split; [exact H2|]. split; [exact H3|].
        rewrite Nat.add_succ_r, <- Nat.add_succ_l. exact H4.
Qed.

(** The steps of [encode_and_write] and the state each one leaves. *)
Lemma encode_and_write_cases `{Collaborators} w filename fr sr fo opts tmp s r s' :
  encode_and_write w filename fr sr fo opts tmp s = (r, s') ->
  match prepare_record_command (m_nodes (rs_movie w)) (rs_audio w) fr sr
          (extension filename) opts tmp s with
  | (Err e, s3) => r = Err e /\ s' = s3
  | (Ok cmd, s3) =>
      let run := run_ffmpeg cmd (rs_pixels w) (files s3) (dirs s3) in
      match rmtree tmp (mkSys (run_files run) (run_dirs run) (sink s3)) with
      | (Err e, s5) => r = Err e /\ s' = s5
      | (Ok _, s5) =>
          match run_stderr run with
          | _ :: _ => r = Err (EncoderError cmd (run_stderr run)) /\ s' = s5
          | [] => r = Ok tt /\
                  s' = if fo then mkSys (files s5) (dirs s5) (sink s5 ++ run_stdout run)
                       else write_dest filename (run_stdout run) s5
          end
      end
  end.
Proof.
  unfold encode_and_write, io_bind, run_encoder.
  destruct (prepare_record_command _ _ _ _ _ _ _ s) as [[cmd|e] s3];
    [|intros [= <- <-]; split; reflexivity].
  destruct (rmtree tmp _) as [[u|e] s5]; [|intros [= <- <-]; split; reflexivity].
  destruct (run_stderr _) as [|x l]; [|intros [= <- <-]; split; reflexivity].
  destruct fo; unfold modify; intros [= <- <-]; split; reflexivity.
Qed.

(** The outcomes of [record_setup]. *)
Lemma record_setup_cases `{Collaborators} filename fo s r s2 :
  record_setup filename fo s = (r, s2) ->
  let s1 := if fo then s else put_file filename [] s in
  match r with
  | Err e => (fo = false /\ open_path filename = Err e /\ s2 = s) \/
             (mkdtemp = Err e /\ (fo = true \/ open_path filename = Ok tt) /\ s2 = s1)
  | Ok tmp => mkdtemp = Ok tmp /\ (fo = true \/ open_path filename = Ok tt) /\
              s2 = mkSys (files s1) (tmp :: dirs s1) (sink s1)
  end.
Proof.
  unfold record_setup, open_wb, io_bind, lift, modify, ret.
  destruct fo.
  - destruct mkdtemp as [tmp|e] eqn:Hm; intros [= <- <-]; cbn.
    + auto.
    + right. auto.
  - destruct (open_path filename) as [[]|e] eqn:Ho.
    + destruct mkdtemp as [tmp|e] eqn:Hm; intros [= <- <-]; cbn.
      * auto.
      * right. auto.
    + intros [= <- <-]. left. auto.
Qed.

(** ** What an audio step captures *)

Lemma write_samples_app n ss buf b :
  write_samples n ss buf b =
  match write_samples n ss [] b with
  | Ok (enc, b') => Ok (buf ++ enc, b')
  | Err e => Err e
  end.
Proof.
  revert buf b. induction ss as [|x ss IH]; intros buf b; cbn [write_samples].
  - rewrite app_nil_r. reflexivity.
  - unfold bind. destruct (getattr n "sample_size") as [size|e]; [|reflexivity].
    destruct (encode_sample size x b) as [[bs|]|e]; try reflexivity.
    rewrite (IH (buf ++ bs)), (IH ([] ++ bs)).
    destruct (write_samples n ss [] (Some bs)) as [[enc b']|e]; [|reflexivity].
    rewrite app_assoc. reflexivity.
Qed.

Lemma am_find_set_same k v ad :
  am_find k (am_set k v ad) = match am_find k ad with Some _ => Some v | None => None end.
Proof.
  induction ad as [|[k' v'] ad IH]; cbn [am_set am_find]; [reflexivity|].
  destruct (Nat.eqb k k') eqn:E; cbn [am_find]; rewrite E; [reflexivity|exact IH].
Qed.

Lemma am_find_set_other k k' v ad : k <> k' -> am_find k (am_set k' v ad) = am_find k ad.
Proof.
  intros Hne. induction ad as [|[k0 v0] ad IH]; cbn [am_set am_find]; [reflexivity|].
  destruct (Nat.eqb_spec k' k0) as [<-|Hk0]; cbn [am_find].
  - rewrite (proj2 (Nat.eqb_neq k k') Hne). reflexivity.
  - destruct (Nat.eqb k k0); [reflexivity|exact IH].
Qed.

Lemma am_find_app k ad ad' :
  am_find k (ad ++ ad') = match am_find k ad with Some v => Some v | None => am_find k ad' end.
Proof.
  induction ad as [|[k0 v0] ad IH]; cbn [app am_find]; [reflexivity|].
  destruct (Nat.eqb k k0); [reflexivity|exact IH].
Qed.

Lemma am_find_ensure_other k k' ad : k <> k' -> am_find k (am_ensure k' ad) = am_find k ad.
Proof.
  intros Hne. unfold am_ensure. destruct (am_find k' ad); [reflexivity|].
  rewrite am_find_app. destruct (am_find k ad); [reflexivity|]. cbn [am_find].
  rewrite (proj2 (Nat.eqb_neq k k') Hne). reflexivity.
Qed.

Lemma am_find_ensure_same k ad :
  am_find k (am_ensure k ad) = Some (match am_find k ad with Some v => v | None => [] end).
Proof.
  unfold am_ensure. destruct (am_find k ad) eqn:E; [exact E|].
  rewrite am_find_app, E. cbn [am_find]. rewrite Nat.eqb_refl. reflexivity.
Qed.

(** The loop [for node in self._get_audio_output_nodes()] over nodes of
    distinct identities appends to each node's buffer the bytes its samples
    encode to, and leaves the other buffers alone. *)
Lemma capture_nodes_each outs ad b ad' b' :
  capture_nodes outs ad b = Ok (ad', b') -> NoDup (map node_id outs) ->
  (forall k, ~ In k (map node_id outs) -> am_find k ad' = am_find k ad) /\
  forall n, In n outs ->
    exists sv samples b0 enc b1,
      getattr n "samples" = Ok sv /\ iter_floats sv = Ok samples /\
      write_samples n samples [] b0 = Ok (enc, b1) /\
      am_find (node_id n) ad' =
        Some (match am_find (node_id n) ad with Some v => v | None => [] end ++ enc).
Proof.
  revert ad b. induction outs as [|n outs IH]; intros ad b Hc Hd; cbn [capture_nodes] in Hc.
  - injection Hc as <- <-. split; [reflexivity|]. intros n [].
  - inversion Hd as [|? ? Hn Hd']; subst.
    unfold bind in Hc.
    destruct (getattr n "samples") as [sv|e] eqn:Hsv; [|discriminate].
    destruct (iter_floats sv) as [samples|e] eqn:Hit; [|discriminate].
    rewrite am_find_ensure_same, write_samples_app in Hc.
    destruct (write_samples n samples [] b) as [[enc b1]|e] eqn:Hw; [|discriminate].
    destruct (IH _ _ Hc Hd') as [Hk Hall]. split.
    + intros k Hnk. rewrite Hk by (intros Hin; apply Hnk; right; exact Hin).
      rewrite am_find_set_other, am_find_ensure_other; [reflexivity| |];
        intros Heq; apply Hnk; left; symmetry; exact Heq.
    + intros n' [<-|Hin].
      * exists sv, samples, b, enc, b1. split; [exact Hsv|]. split; [exact Hit|].
        split; [exact Hw|]. rewrite (Hk _ Hn), am_find_set_same, am_find_ensure_same.
        reflexivity.
      * destruct (Hall n' Hin) as (sv' & s' & b0 & enc' & b1' & H1 & H2 & H3 & H4).
        exists sv', s', b0, enc', b1'. split; [exact H1|]. split; [exact H2|].
        split; [exact H3|]. rewrite H4.
        assert (Hne : node_id n' <> node_id n).
        { intros Heq. apply Hn. rewrite <- Heq. apply in_map. exact Hin. }
        rewrite am_find_set_other, am_find_ensure_other by exact Hne. reflexivity.
Qed.

(** [_get_audio_output_nodes] keeps, in order, the nodes for which
    [has_audio] holds. *)
Lemma get_audio_output_nodes_sub ns outs :
  get_audio_output_nodes ns = Ok outs ->
  (forall n, In n outs -> In n ns) /\
  (forall n, In n ns -> has_audio n = Ok true -> In n outs) /\
  (NoDup (map node_id ns) -> NoDup (map node_id outs)).
Proof.
  revert outs. induction ns as [|n ns IH]; intros outs Hg; cbn [get_audio_output_nodes] in Hg.
  - injection Hg as <-. split; [|split]; [intros n []|intros n []|intros _; constructor].
  - unfold bind in Hg. destruct (has_audio n) as [keep|e] eqn:Hk; [|discriminate].
    destruct (get_audio_output_nodes ns) as [rest|e]; [|discriminate].
    injection Hg as <-. destruct (IH rest eq_refl) as (I1 & I2 & I3).
    split; [|split].
    + intros n' Hin. destruct keep; [destruct Hin as [<-|Hin]; [left; reflexivity|]|];
        right; exact (I1 n' Hin).
    + intros n' [<-|Hin] Ha.
      * rewrite Hk in Ha. injection Ha as ->. left. reflexivity.
      * destruct keep; [right|]; exact (I2 n' Hin Ha).
    + intros Hd. inversion Hd as [|? ? Hn Hd']; subst. destruct keep; [|exact (I3 Hd')].
      constructor; [|exact (I3 Hd')].
      intros Hin. apply Hn. apply in_map_iff in Hin. destruct Hin as (x & Hx & Hxin).
      rewrite <- Hx. apply in_map. exact (I1 x Hxin).
Qed.

(** A step of [_record_frames] on which the audio test fires appends to
    the buffer of every audio output node of the ticked movie (nodes of
    distinct identities) the bytes its samples encode to; on the other
    steps [audio_data] is unchanged. *)
Lemma record_step_captures `{Collaborators} inc fr sr w w1 m1 :
  record_step inc fr sr w = Ok w1 ->
  tick (rs_movie w) = Ok m1 ->
  (fires inc sr (rs_progress w) = Ok false -> rs_audio w1 = rs_audio w) /\
  (fires inc sr (rs_progress w) = Ok true -> NoDup (map node_id (m_nodes m1)) ->
   forall n, In n (m_nodes m1) -> has_audio n = Ok true ->
     exists sv samples b0 enc b1,
       getattr n "samples" = Ok sv /\ iter_floats sv = Ok samples /\
       write_samples n samples [] b0 = Ok (enc, b1) /\
       am_find (node_id n) (rs_audio w1) =
         Some (match am_find (node_id n) (rs_audio w) with Some v => v | None => [] end
               ++ enc)).
Proof.
  intros Hs Ht. unfold record_step in Hs. rewrite Ht in Hs. cbn [bind] in Hs.
  split; intros Hf; rewrite Hf in Hs; cbn [bind] in Hs.
  - destruct (fires inc fr (rs_progress w)) as [ff|e]; [|discriminate]. cbn [bind] in Hs.
    destruct (if ff then _ else _) as [px|e]; [|discriminate]. cbn [bind] in Hs.
    injection Hs as <-. reflexivity.
  - intros Hd n Hin Ha. unfold capture_audio, bind in Hs.
    destruct (get_audio_output_nodes (m_nodes m1)) as [outs|e] eqn:Hg; [|discriminate].
    destruct (get_audio_output_nodes_sub _ _ Hg) as (_ & I2 & I3).
    destruct (capture_nodes outs (rs_audio w) (rs_b w)) as [[ad b]|e] eqn:Hc; [|discriminate].
    destruct (fires inc fr (rs_progress w)) as [ff|e]; [|discriminate].
    destruct (if ff then _ else _) as [px|e]; [|discriminate].
    injection Hs as <-. cbn [rs_audio].
    exact (proj2 (capture_nodes_each _ _ _ _ _ Hc (I3 Hd)) n (I2 n Hin Ha)).
Qed.

Lemma write_dest_dirs path data s : dirs (write_dest path data s) = dirs s.
Proof. unfold write_dest. destruct (assoc_find path (files s)); reflexivity. Qed.

(** ** Full-scale samples *)

Lemma round_aux_shift_gen s m e j : Zpos (Pos.size m) = 53 -> 0 < j -> -1074 <= e + j ->
  binary_round_aux 53 1024 s (Zpos (Z.to_pos (Zpos m * 2 ^ j))) e loc_Exact =
  if Z.leb (e + j) 971 then S754_finite s m (e + j) else S754_infinity s.
Proof.
  intros Hm Hj He. unfold binary_round_aux, shr_fexp. unfold Zdigits2.
  rewrite digits2_pos_size, size_shift, Hm by lia. rewrite fexp_normal by lia.
  replace (53 + j + e - 53 - e) with j by lia.
  destruct j as [|p|p]; try lia.
  cbn [shr shr_record_of_loc]. rewrite iter_pos_nat.
  rewrite Z2Pos.id by (apply Z.mul_pos_pos; [lia | apply Z.pow_pos_nonneg; lia]).
  rewrite <- (positive_nat_Z p), shr_1_pow.
  cbn [shr_m loc_of_shr_record round_nearest_even shr_record_of_loc].
  unfold Zdigits2. rewrite digits2_pos_size, Hm, fexp_normal by lia.
  replace (53 + (e + Z.of_nat (Pos.to_nat p)) - 53 - (e + Z.of_nat (Pos.to_nat p)))
    with 0 by lia. cbn [shr shr_m].
  rewrite positive_nat_Z. reflexivity.
Qed.

Lemma mul_pow2_gen s m e k : Zpos (Pos.size m) = 53 -> 0 <= k <= 52 -> -1074 <= e + k ->
  PyFloat.mul (S754_finite s m e) (PyFloat.of_Z (2 ^ k)) =
  if Z.leb (e + k) 971 then S754_finite s m (e + k) else S754_infinity s.
Proof.
  intros Hm Hk He. rewrite of_Z_pow2 by lia.
  unfold PyFloat.mul, SFmul. rewrite xorb_false_r.
  replace (Pos.mul m (Z.to_pos (2 ^ 52))) with (Z.to_pos (Zpos m * 2 ^ 52)) by reflexivity.
  rewrite round_aux_shift_gen by lia.
  replace (e + (k - 52) + 52) with (e + k) by lia. reflexivity.
Qed.

(** A valid float [s >= 1.0] is infinite or normal with exponent at least
    [-52]. *)
Lemma valid_ge_one s :
  valid_binary 53 1024 s = true -> PyFloat.leb (PyFloat.of_Z 1) s = true ->
  s = S754_infinity false \/
  exists m e, s = S754_finite false m e /\ Zpos (Pos.size m) = 53 /\ -52 <= e <= 971.
Proof.
  intros Hv Hl. destruct s as [sg|sg| |sg m e].
  - destruct sg; discriminate Hl.
  - destruct sg; [discriminate Hl|left; reflexivity].
  - discriminate Hl.
  - right. exists m, e. destruct sg; [discriminate Hl|].
    assert (He : -52 <= e).
    { change (PyFloat.of_Z 1) with (S754_finite false 4503599627370496 (-52)) in Hl.
      unfold PyFloat.leb, SFleb, SFcompare in Hl.
      destruct (Z.compare_spec (-52) e); [lia|lia|discriminate Hl]. }
    cbn [valid_binary] in Hv. unfold bounded, canonical_mantissa in Hv.
    apply andb_true_iff in Hv. destruct Hv as [Hc Hb].
    apply Z.eqb_eq in Hc. apply Z.leb_le in Hb.
    rewrite digits2_pos_size in Hc. unfold fexp, emin in Hc.
    split; [reflexivity|]. split; [|lia]. lia.
Qed.

Lemma int_part_ge m e k : 2 ^ 52 <= Zpos m -> -52 <= e -> 0 <= k <= 52 ->
  2 ^ k <= int_part (Zpos m) (e + k).
Proof.
  intros Hm He Hk. unfold int_part.
  assert (P : 0 < 2 ^ k) by (apply Z.pow_pos_nonneg; lia).
  destruct (Z.le_gt_cases 0 (e + k)) as [Hp|Hn].
  - rewrite Z.max_r, Z.max_l by lia. rewrite Z.pow_0_r, Z.quot_1_r.
    assert (2 ^ k <= 2 ^ 52) by (apply Z.pow_le_mono_r; lia).
    assert (1 <= 2 ^ (e + k)) by (apply (Z.pow_le_mono_r 2 0); lia).
    nia.
  - rewrite Z.max_l, Z.max_r by lia. rewrite Z.pow_0_r, Z.mul_1_r.
    assert (Q : 0 < 2 ^ (- (e + k))) by (apply Z.pow_pos_nonneg; lia).
    rewrite Z.quot_div_nonneg by lia. apply Z.div_le_lower_bound; [exact Q|].
    rewrite <- Z.pow_add_r by lia.
    assert (2 ^ (- (e + k) + k) <= 2 ^ 52) by (apply Z.pow_le_mono_r; lia). lia.
Qed.

(** * Claims *)

(** C1 (amended). For positive integer rates whose [lcm] is below 2^53,
    [_record_frames] runs one step per value of the accumulated float clock
    [start_time], [start_time + 1/increment], ... that is [<= end_time];
    with [N] such steps, a frame is saved on [ceil(N / (increment /
    frame_rate))] of them and the audio test fires on [ceil(N / (increment
    / sample_rate))] of them, for any collaborators and any movie. On each
    step where the audio test fires, every audio output node of the ticked
    movie (each node listed once) gets the bytes of its samples appended to
    its buffer; on the other steps [audio_data] is unchanged. [N] comes
    from float rounding, not from [floor(D * increment) + 1]. *)
Theorem record_frames_capture_counts `{Collaborators} fuel m start_time end_time
    fr sr w :
  0 < fr -> 0 < sr -> lcm_exact fr sr < 2 ^ 53 -> Z.of_nat fuel < 2 ^ 53 ->
  record_frames fuel m start_time end_time fr sr = Ok (Finished w) ->
  exists na,
    capture_counts fuel start_time end_time fr sr =
      Some (rs_progress w, na, Z.of_nat (List.length (rs_pixels w))) /\
    Z.of_nat (List.length (rs_pixels w)) =
      (rs_progress w + lcm_exact fr sr / fr - 1) / (lcm_exact fr sr / fr) /\
    na = (rs_progress w + lcm_exact fr sr / sr - 1) / (lcm_exact fr sr / sr) /\
    (forall inc w0 w1 m1,
       lcm fr sr = Ok inc -> record_step inc fr sr w0 = Ok w1 ->
       tick (rs_movie w0) = Ok m1 ->
       (fires inc sr (rs_progress w0) = Ok false -> rs_audio w1 = rs_audio w0) /\
       (fires inc sr (rs_progress w0) = Ok true -> NoDup (map node_id (m_nodes m1)) ->
        forall n, In n (m_nodes m1) -> has_audio n = Ok true ->
          exists sv samples b0 enc b1,
            getattr n "samples" = Ok sv /\ iter_floats sv = Ok samples /\
            write_samples n samples [] b0 = Ok (enc, b1) /\
            am_find (node_id n) (rs_audio w1) =
              Some (match am_find (node_id n) (rs_audio w0) with Some v => v | None => [] end
                    ++ enc))).
Proof.
  intros Hf Hs HL Hfu Hr.
  destruct (record_frames_counts fuel m start_time end_time fr sr _ Hf Hs HL Hfu Hr)
    as (na & E1 & E2).
  rewrite E2 in E1. cbn [summary] in E1. injection E1 as Ec.
  exists na. split; [exact Ec|].
  pose proof (rate_quot_bounds fr sr fr Hf Hs HL (or_introl eq_refl)).
  pose proof (rate_quot_bounds fr sr sr Hf Hs HL (or_intror eq_refl)).
  unfold capture_counts in Ec.
  assert (Z0a : 0 = (0 + lcm_exact fr sr / sr - 1) / (lcm_exact fr sr / sr))
    by (symmetry; apply ceil_zero; lia).
  assert (Z0f : 0 = (0 + lcm_exact fr sr / fr - 1) / (lcm_exact fr sr / fr))
    by (symmetry; apply ceil_zero; lia).
  assert (P0 : 0 <= 0) by lia.
  destruct (clock_run_int_counts _ _ _ _ _ _ _ _ _ _ _ _ Ec P0
              ltac:(lia) ltac:(lia) Z0a Z0f) as (A & B & _).
  split; [exact B|]. split; [exact A|].
  intros inc w0 w1 m1 _ Hst Ht. exact (record_step_captures inc fr sr w0 w1 m1 Hst Ht).
Qed.

(** C1: at 24 frames/s and 48000 samples/s over [0.0, 10.0], an active audio
    output node gets 480000 samples and 240 frames are saved, not 480001 and
    241: the accumulated clock passes [10.0] one step early. *)
Lemma record_frames_24_48000_counterexample :
  exists w,
    @record_frames quiet_env (Z.to_nat 500000) probe_movie PyFloat.zero
      (PyFloat.of_Z 10) 24 48000 = Ok (Finished w) /\
    rs_progress w = 480000 /\ captured 0 w = 480000 /\
    Z.of_nat (List.length (rs_pixels w)) = 240.
Proof.
  apply probe_finished; try lia; vm_compute; reflexivity.
Qed.

(** At 25 frames/s and 44100 samples/s over [0.0, 10.0] the loop runs
    441001 steps, saves 251 frames and captures 441001 samples. *)
Lemma record_frames_capture_counts_witness :
  exists w,
    @record_frames quiet_env (Z.to_nat 500000) probe_movie PyFloat.zero
      (PyFloat.of_Z 10) 25 44100 = Ok (Finished w) /\
    rs_progress w = 441001 /\ captured 0 w = 441001 /\
    Z.of_nat (List.length (rs_pixels w)) = 251 /\
    exists na,
      capture_counts (Z.to_nat 500000) PyFloat.zero (PyFloat.of_Z 10) 25 44100 =
        Some (rs_progress w, na, Z.of_nat (List.length (rs_pixels w))) /\
      Z.of_nat (List.length (rs_pixels w)) =
        (rs_progress w + lcm_exact 25 44100 / 25 - 1) / (lcm_exact 25 44100 / 25) /\
      na = (rs_progress w + lcm_exact 25 44100 / 44100 - 1) / (lcm_exact 25 44100 / 44100).
Proof.
  assert (Hc : capture_counts (Z.to_nat 500000) PyFloat.zero (PyFloat.of_Z 10) 25 44100
               = Some (441001, 441001, 251)) by (vm_compute; reflexivity).
  assert (HL : lcm_exact 25 44100 < 2 ^ 53) by (vm_compute; reflexivity).
  assert (Hfu : Z.of_nat (Z.to_nat 500000) < 2 ^ 53) by (vm_compute; reflexivity).
  destruct (probe_finished (Z.to_nat 500000) PyFloat.zero (PyFloat.of_Z 10) 25 44100
              441001 441001 251 ltac:(lia) ltac:(lia) HL Hfu Hc)
    as (w & Hr & Hp & Ha & Hn).
  exists w. split; [exact Hr|]. split; [exact Hp|]. split; [exact Ha|].
  split; [exact Hn|].
  destruct (@record_frames_capture_counts quiet_env (Z.to_nat 500000) probe_movie
              PyFloat.zero (PyFloat.of_Z 10) 25 44100 w ltac:(lia) ltac:(lia) HL Hfu Hr)
    as (na & Ec & Ef & Ea & _).
  exists na. split; [exact Ec|]. split; [exact Ef|exact Ea].
Defined.

(** C2 (amended). [_record_frames] does not recompute the clock from
    [progress]: each step adds [1.0 / increment] to [current_time], so
    after [progress] steps the clock is the [progress]-fold float sum of
    [1.0 / increment] onto [start_time], whether the loop has exited or
    is still running. *)
Theorem record_frames_clock_accumulates `{Collaborators} fuel m start_time
    end_time fr sr o :
  record_frames fuel m start_time end_time fr sr = Ok o ->
  0 <= rs_progress (out_state o) /\
  current_time (rs_movie (out_state o)) =
    accumulate (Z.to_nat (rs_progress (out_state o))) start_time
      (PyFloat.div (PyFloat.of_Z 1) (PyFloat.of_Z (lcm_exact fr sr))).
Proof.
  unfold record_frames, bind.
  destruct (lcm fr sr) as [inc|] eqn:El; [|discriminate].
  apply lcm_value in El. subst inc. intros Hr.
  destruct (record_loop_clock _ _ _ _ _ _ _ Hr) as (n & Hn & Hc).
  cbn [record_init rs_progress rs_movie set_time current_time] in Hn, Hc.
  rewrite Hn. split; [lia|]. rewrite Z.add_0_l, Nat2Z.id. exact Hc.
Qed.

(** C2: at 10 frames and 10 samples per second from [0.0], after three
    steps the clock is [0.1 + 0.1 + 0.1 = 0.30000000000000004], not
    [0.0 + 3/10 = 0.3]. *)
Lemma record_frames_clock_counterexample :
  exists w,
    @record_frames quiet_env 3 probe_movie PyFloat.zero (PyFloat.of_Z 1) 10 10 =
      Ok (Running w) /\
    rs_progress w = 3 /\
    current_time (rs_movie w) <>
      PyFloat.add PyFloat.zero (PyFloat.div (PyFloat.of_Z 3) (PyFloat.of_Z 10)).
Proof.
  destruct (@record_frames quiet_env 3 probe_movie PyFloat.zero (PyFloat.of_Z 1) 10 10)
    as [[w|w]|e] eqn:E; vm_compute in E; try discriminate.
  injection E as Ew. exists w. split; [reflexivity|]. subst w.
  split; [reflexivity|]. vm_compute. congruence.
Qed.

Lemma record_frames_clock_accumulates_witness :
  exists o,
    @record_frames quiet_env 3 probe_movie PyFloat.zero (PyFloat.of_Z 1) 10 10 = Ok o /\
    0 <= rs_progress (out_state o) /\
    current_time (rs_movie (out_state o)) =
      accumulate (Z.to_nat (rs_progress (out_state o))) PyFloat.zero
        (PyFloat.div (PyFloat.of_Z 1) (PyFloat.of_Z (lcm_exact 10 10))).
Proof.
  destruct (@record_frames quiet_env 3 probe_movie PyFloat.zero (PyFloat.of_Z 1) 10 10)
    as [o|e] eqn:E; [|vm_compute in E; discriminate].
  exists o. split; [reflexivity|].
  exact (@record_frames_clock_accumulates quiet_env 3 probe_movie PyFloat.zero
           (PyFloat.of_Z 1) 10 10 o E).
Defined.

(** C3 (code bug). The encoder truncates with [int()] and never clamps. So
    a full-scale sample raises instead of reaching the top of the range that
    the comment "[-1, 1] spans 2 units" scales for. Every valid float sample
    [s >= 1.0], +inf included, raises [struct.error] or [OverflowError] at
    16 and 32 bits, and 1.0 raises [struct.error] at 8 bits. -1.0 and 0.0
    encode to 0 and 128 (8 bits) and to -32768 and 0 (16 bits).
    [3 * 2^-17], scaled to 0.75, gives 0 and not [round(0.75) = 1]. *)
Theorem encode_sample_full_scale_raises s b :
  valid_binary 53 1024 s = true -> PyFloat.leb (PyFloat.of_Z 1) s = true ->
  (encode_sample (PInt 16) s b = Err StructError \/
   encode_sample (PInt 16) s b = Err OverflowError) /\
  (encode_sample (PInt 32) s b = Err StructError \/
   encode_sample (PInt 32) s b = Err OverflowError) /\
  encode_sample (PInt 8) (PyFloat.of_Z 1) b = Err StructError /\
  encode_sample (PInt 8) (PyFloat.of_Z (-1)) b = Ok (Some [0]) /\
  encode_sample (PInt 8) PyFloat.zero b = Ok (Some [128]) /\
  encode_sample (PInt 16) (PyFloat.of_Z (-1)) b = Ok (Some (le_bytes 2 (-32768))) /\
  encode_sample (PInt 16) PyFloat.zero b = Ok (Some [0; 0]) /\
  encode_sample (PInt 16) (S754_finite false (Z.to_pos (3 * 2 ^ 51)) (-68)) b =
    Ok (Some [0; 0]).
Proof.
  intros Hv Hl.
  split; [|split; [|repeat split; vm_compute; reflexivity]].
  all: destruct (valid_ge_one s Hv Hl) as [->|(m & e & -> & Hm & He)];
    [right; vm_compute; reflexivity|].
  all: pose proof (size_spec m) as Hs; rewrite Hm in Hs.
  - unfold encode_sample. rewrite (mul_pow2_gen false m e 15) by lia.
    cbn [eq_int Z.eqb Pos.eqb]. destruct (Z.leb (e + 15) 971).
    + left. rewrite py_int_finite. unfold bind, pack_h, PyFloat.signed_mant.
      pose proof (int_part_ge m e 15 ltac:(lia) ltac:(lia) ltac:(lia)).
      replace (Z.leb _ 32767) with false by (symmetry; apply Z.leb_gt; lia).
      rewrite andb_false_r. reflexivity.
    + right. reflexivity.
  - unfold encode_sample. rewrite (mul_pow2_gen false m e 31) by lia.
    cbn [eq_int Z.eqb Pos.eqb]. destruct (Z.leb (e + 31) 971).
    + left. rewrite py_int_finite. unfold bind, pack_i, PyFloat.signed_mant.
      pose proof (int_part_ge m e 31 ltac:(lia) ltac:(lia) ltac:(lia)).
      replace (Z.leb _ 2147483647) with false by (symmetry; apply Z.leb_gt; lia).
      rewrite andb_false_r. reflexivity.
    + right. reflexivity.
Qed.

Lemma encode_sample_full_scale_raises_witness :
  encode_sample (PInt 16) (PyFloat.of_Z 1) None = Err StructError.
Proof.
  destruct (encode_sample_full_scale_raises (PyFloat.of_Z 1) None
              ltac:(vm_compute; reflexivity) ltac:(vm_compute; reflexivity))
    as [[H|H] _]; [exact H|].
  vm_compute in H. discriminate H.
Defined.

(** C4 (code bug). A node with [sample_size == 24] makes the encoder raise
    [NotImplementedError] on its first sample. For an integer
    [sample_size] outside {8, 16, 24, 32} there is no [else] branch: nothing
    is raised for the size and [b] is not assigned. Each sample writes the
    [b] left by the last sample encoded before, possibly by another node,
    or raises [UnboundLocalError] when no sample has been encoded yet in
    this [_record_frames] call. With [sample_size = 5] after a size-8 node,
    the size-5 node gets the other node's byte; alone, it raises
    [UnboundLocalError]. *)
Theorem write_samples_sizes n samples buf b :
  (getattr n "sample_size" = Ok (PInt 24) -> samples <> [] ->
   write_samples n samples buf b = Err NotImplementedError) /\
  (forall z, getattr n "sample_size" = Ok (PInt z) ->
   z <> 8 -> z <> 16 -> z <> 24 -> z <> 32 ->
   write_samples n samples buf b =
     match samples, b with
     | [], _ => Ok (buf, b)
     | _ :: _, None => Err UnboundLocalError
     | _, Some bs => Ok (buf ++ List.concat (List.repeat bs (List.length samples)), b)
     end) /\
  capture_audio
    [audio_out_node 0 PyFloat.zero 1 8 [PyFloat.zero];
     audio_out_node 1 PyFloat.zero 1 5 [PyFloat.zero; PyFloat.zero]] [] None =
    Ok ([(0%nat, [128]); (1%nat, [128; 128])], Some [128]) /\
  capture_audio [audio_out_node 1 PyFloat.zero 1 5 [PyFloat.zero]] [] None =
    Err UnboundLocalError.
Proof.
  split; [|split; [|split; vm_compute; reflexivity]].
  - intros Hs Hne. destruct samples as [|s ss]; [contradiction|].
    cbn [write_samples]. rewrite Hs. reflexivity.
  - intros z Hs H8 H16 H24 H32.
    assert (Henc : forall s b0, encode_sample (PInt z) s b0 = Ok b0).
    { intros s b0. unfold encode_sample. cbn [eq_int].
      rewrite (proj2 (Z.eqb_neq z 8) H8), (proj2 (Z.eqb_neq z 16) H16),
              (proj2 (Z.eqb_neq z 24) H24), (proj2 (Z.eqb_neq z 32) H32).
      reflexivity. }
    revert buf. induction samples as [|s ss IH]; intros buf; [reflexivity|].
    cbn [write_samples]. rewrite Hs. cbn [bind]. rewrite Henc. cbn [bind].
    destruct b as [bs|]; [|reflexivity].
    rewrite IH. destruct ss as [|s' ss'].
    + cbn. rewrite app_nil_r. reflexivity.
    + cbn [List.length List.repeat List.concat]. rewrite <- !app_assoc. reflexivity.
Qed.

Lemma write_samples_sizes_witness :
  write_samples (audio_out_node 1 PyFloat.zero 1 24 [PyFloat.zero]) [PyFloat.zero] [] None
    = Err NotImplementedError /\
  write_samples (audio_out_node 1 PyFloat.zero 1 5 [PyFloat.zero]) [PyFloat.zero; PyFloat.zero]
    [] (Some [7]) = Ok ([7; 7], Some [7]).
Proof.
  split.
  - apply (proj1 (write_samples_sizes (audio_out_node 1 PyFloat.zero 1 24 [PyFloat.zero])
                    [PyFloat.zero] [] None)); [reflexivity | discriminate].
  - rewrite (proj1 (proj2 (write_samples_sizes (audio_out_node 1 PyFloat.zero 1 5 [PyFloat.zero])
                      [PyFloat.zero; PyFloat.zero] [] (Some [7]))) 5);
      [reflexivity | reflexivity | lia | lia | lia | lia].
Defined.

(** C5. [gcd] is Euclid's algorithm ([gcd_spec]) and [lcm] below 2^53 is
    the float of the least common multiple ([lcm_ok], [lcm_exact_spec]).
    But [lcm] divides with [/], which gives a float: for [2^27 + 1] and
    [2^27 - 1] the least common multiple [2^54 - 1] is rounded to [2^54],
    which neither rate divides. *)
Theorem lcm_float_rounds :
  Z.lcm (2 ^ 27 + 1) (2 ^ 27 - 1) = 2 ^ 54 - 1 /\
  lcm_exact (2 ^ 27 + 1) (2 ^ 27 - 1) = Z.lcm (2 ^ 27 + 1) (2 ^ 27 - 1) /\
  lcm (2 ^ 27 + 1) (2 ^ 27 - 1) = Ok (PyFloat.of_Z (2 ^ 54)) /\
  py_fmod_is_zero (PyFloat.of_Z (2 ^ 54)) (PyFloat.of_Z (2 ^ 27 + 1)) = Ok false /\
  py_fmod_is_zero (PyFloat.of_Z (2 ^ 54)) (PyFloat.of_Z (2 ^ 27 - 1)) = Ok false.
Proof.
  repeat split; vm_compute; reflexivity.
Qed.

(** C6. A node built by [Audio.__init__] has [output] but neither
    [output_audio] nor [channels]. The audio filter
    [_get_audio_output_nodes] raises [AttributeError: output_audio] on such
    a node, even with any attributes the base class might add, unless they
    include [output_audio]. In a recording whose window is not empty, the
    first step (progress 0, where the audio test always fires) fails before
    any sample is captured. Its [tick] already reads the [start_time] that
    such a node lacks, so the error is [AttributeError: start_time], or the
    error of a node evaluated before it. *)
Theorem audio_init_recording_fails `{Collaborators} fuel m start_time end_time
    fr sr inc pre post id ss srate out :
  m_nodes m = pre ++ Audio_init id ss srate out :: post ->
  lcm fr sr = Ok inc ->
  PyFloat.leb start_time end_time = true ->
  assoc_find "output_audio" (node_attrs (Audio_init id ss srate out)) = None /\
  assoc_find "channels" (node_attrs (Audio_init id ss srate out)) = None /\
  (forall extra l,
     assoc_find "output_audio" extra = None ->
     get_audio_output_nodes pre = Ok l ->
     get_audio_output_nodes
       (pre ++ mkNode id CAudio (node_attrs (Audio_init id ss srate out) ++ extra) :: post)
     = Err (AttributeError "output_audio")) /\
  exists e,
    record_frames (S fuel) m start_time end_time fr sr = Err e /\
    (e = AttributeError "start_time" \/ process_nodes start_time pre = Err e).
Proof.
  intros Hm Hl Ht. split; [reflexivity|]. split; [reflexivity|]. split.
  - intros extra l Hx Hpre. apply (get_audio_output_nodes_missing _ _ _ l);
      [reflexivity | exact Hx | exact Hpre].
  - destruct (process_nodes_audio_init start_time pre post id ss srate out)
      as (e & He & Hor).
    exists e. split; [|exact Hor].
    destruct m as [ns t0 fb]. cbn [m_nodes] in Hm. subst ns.
    unfold record_frames. rewrite Hl. cbn [bind record_loop record_init set_time
      rs_movie current_time m_nodes color_buffer]. rewrite Ht.
    unfold bind, record_step, tick.
    cbn [record_init set_time rs_movie m_nodes current_time color_buffer].
    rewrite He. reflexivity.
Qed.

Lemma audio_init_recording_fails_witness :
  exists e,
    @record_frames quiet_env 1 (mkMovie [Audio_init 0 16 8000 true] PyFloat.zero blank)
      PyFloat.zero (PyFloat.of_Z 1) 10 10 = Err e /\
    (e = AttributeError "start_time" \/ @process_nodes quiet_env PyFloat.zero [] = Err e).
Proof.
  destruct (@audio_init_recording_fails quiet_env 0
              (mkMovie [Audio_init 0 16 8000 true] PyFloat.zero blank)
              PyFloat.zero (PyFloat.of_Z 1) 10 10 (PyFloat.of_Z 10) [] [] 0 16 8000 true
              eq_refl ltac:(vm_compute; reflexivity) ltac:(vm_compute; reflexivity))
    as (_ & _ & _ & H).
  exact H.
Defined.

(** C7 (amended). Without a file object, [record] opens the destination
    with ['wb'] as soon as [end_time] is known, before any frame is
    recorded. So every later failure leaves it empty: a failure creating
    the scratch directory, a node failure, a failure writing the audio
    files, a failure removing the scratch directory, or an encoder error.
    The disk is untouched only when [end_time] is missing and [duration]
    fails, or when the destination cannot be opened. On success the
    destination holds exactly the encoder's output, written after the
    encoder reported no error. With a file object, the object is written
    only on success, with the encoder's output. This holds for a
    destination outside the scratch directory that the encoder itself
    leaves alone. *)
Theorem record_destination `{Collaborators} fuel m filename fr sr start_time
    end_time opts s r s' :
  (forall cmd px fs ds,
     assoc_find filename (run_files (run_ffmpeg cmd px fs ds)) = assoc_find filename fs) ->
  (forall tmp, mkdtemp = Ok tmp ->
     (forall i, filename <> audio_clip_path tmp i) /\ under tmp filename = false) ->
  (record fuel m filename fr sr start_time end_time false opts s = Some (r, s') ->
   match r with
   | Err _ =>
       assoc_find filename (files s') = Some [] \/
       (s' = s /\
        ((end_time = None /\ exists e, duration m = Err e) \/
         exists e, open_path filename = Err e))
   | Ok _ =>
       exists end_t tmp s2 w cmd s3,
         (match end_time with Some e => Ok e | None => duration m end) = Ok end_t /\
         record_setup filename false s = (Ok tmp, s2) /\
         record_frames fuel m start_time end_t fr sr = Ok (Finished w) /\
         prepare_record_command (m_nodes (rs_movie w)) (rs_audio w) fr sr
           (extension filename) opts tmp s2 = (Ok cmd, s3) /\
         run_stderr (run_ffmpeg cmd (rs_pixels w) (files s3) (dirs s3)) = [] /\
         assoc_find filename (files s') =
           Some (run_stdout (run_ffmpeg cmd (rs_pixels w) (files s3) (dirs s3)))
   end) /\
  (record fuel m filename fr sr start_time end_time true opts s = Some (r, s') ->
   match r with
   | Err _ => sink s' = sink s
   | Ok _ =>
       exists end_t tmp s2 w cmd s3,
         (match end_time with Some e => Ok e | None => duration m end) = Ok end_t /\
         record_setup filename true s = (Ok tmp, s2) /\
         record_frames fuel m start_time end_t fr sr = Ok (Finished w) /\
         prepare_record_command (m_nodes (rs_movie w)) (rs_audio w) fr sr
           (extension filename) opts tmp s2 = (Ok cmd, s3) /\
         run_stderr (run_ffmpeg cmd (rs_pixels w) (files s3) (dirs s3)) = [] /\
         sink s' = sink s ++ run_stdout (run_ffmpeg cmd (rs_pixels w) (files s3) (dirs s3))
   end).
Proof.
  intros Hdest Htmp.
  split; intros Hr; unfold record in Hr;
    destruct (match end_time with Some e => Ok e | None => duration m end)
      as [end_t|e] eqn:Hd;
    try (injection Hr as <- <-;
         first [ right; split; [reflexivity|left];
                 destruct end_time; [discriminate Hd|split; [reflexivity|exists e; exact Hd]]
               | reflexivity ]).
  - destruct (record_setup filename false s) as [[tmp|e] s2] eqn:Hs;
      pose proof (record_setup_cases _ _ _ _ _ Hs) as Hc; cbv zeta in Hc.
    2: { injection Hr as <- <-.
         destruct Hc as [(_ & Ho & ->)|(_ & _ & ->)].
         - right. split; [reflexivity|right; exists e; exact Ho].
         - left. apply fs_put_same. }
    destruct Hc as (Hm & _ & Hs2).
    assert (F2 : assoc_find filename (files s2) = Some []) by (rewrite Hs2; apply fs_put_same).
    destruct (Htmp tmp Hm) as [Hclip Hund].
    destruct (record_frames fuel m start_time end_t fr sr) as [[w|w]|e] eqn:Hf;
      [|discriminate|injection Hr as <- <-; left; exact F2].
    injection Hr as Hr. apply encode_and_write_cases in Hr.
    destruct (prepare_record_command _ _ _ _ _ _ _ s2) as [[cmd|e] s3] eqn:Hp;
      pose proof (prepare_record_command_keeps _ _ _ _ _ _ _ _ _ _ _ Hclip Hp) as [K _].
    2: { destruct Hr as [-> ->]. left. rewrite K. exact F2. }
    cbv zeta in Hr.
    destruct (rmtree tmp _) as [u s5] eqn:Hrm.
    pose proof (rmtree_keep _ _ _ _ _ Hund Hrm) as K5. cbn [files] in K5.
    rewrite Hdest, K, F2 in K5.
    destruct u as [u|e].
    2: { destruct Hr as [-> ->]. left. exact K5. }
    destruct (run_stderr _) as [|c err] eqn:He.
    2: { destruct Hr as [-> ->]. left. exact K5. }
    destruct Hr as [-> ->].
    exists end_t, tmp, s2, w, cmd, s3.
    repeat (split; [reflexivity || assumption|]).
    unfold write_dest. rewrite K5. unfold put_file, set_files. cbn [files].
    rewrite fs_put_same, skipn_nil, app_nil_r. reflexivity.
  - destruct (record_setup filename true s) as [[tmp|e] s2] eqn:Hs;
      pose proof (record_setup_cases _ _ _ _ _ Hs) as Hc; cbv zeta in Hc.
    2: { injection Hr as <- <-.
         destruct Hc as [(Hf & _)|(_ & _ & ->)]; [discriminate Hf|reflexivity]. }
    destruct Hc as (Hm & _ & Hs2).
    assert (F2 : sink s2 = sink s) by (rewrite Hs2; reflexivity).
    destruct (Htmp tmp Hm) as [Hclip Hund].
    destruct (record_frames fuel m start_time end_t fr sr) as [[w|w]|e] eqn:Hf;
      [|discriminate|injection Hr as <- <-; exact F2].
    injection Hr as Hr. apply encode_and_write_cases in Hr.
    destruct (prepare_record_command _ _ _ _ _ _ _ s2) as [[cmd|e] s3] eqn:Hp;
      pose proof (prepare_record_command_keeps _ _ _ _ _ _ _ _ _ _ _ Hclip Hp) as [_ [K _]].
    2: { destruct Hr as [-> ->]. rewrite K. exact F2. }
    cbv zeta in Hr.
    destruct (rmtree tmp _) as [u s5] eqn:Hrm.
    pose proof (rmtree_sink _ _ _ _ Hrm) as K5. cbn [sink] in K5.
    rewrite K, F2 in K5.
    destruct u as [u|e].
    2: { destruct Hr as [-> ->]. exact K5. }
    destruct (run_stderr _) as [|c err] eqn:He.
    2: { destruct Hr as [-> ->]. exact K5. }
    destruct Hr as [-> ->].
    exists end_t, tmp, s2, w, cmd, s3.
    repeat (split; [reflexivity || assumption|]).
    cbn [sink]. rewrite K5. reflexivity.
Qed.

(** C7: a destination holding [1; 2; 3] is emptied although the recording
    then fails, on a node failure and on an encoder error. *)
Lemma record_truncates_counterexample :
  @record failing_env 20 probe_movie "out.mp4" 10 10 PyFloat.zero
    (Some (PyFloat.of_Z 1)) false [] (mkSys [("out.mp4", [1; 2; 3])] [] []) =
    Some (Err (NodeFailure 0), mkSys [("out.mp4", [])] ["/tmp/ved-x1"] []) /\
  match @record broken_ffmpeg_env 20 probe_movie "out.mp4" 10 10 PyFloat.zero
          (Some (PyFloat.of_Z 1)) false [] (mkSys [("out.mp4", [1; 2; 3])] [] [])
  with
  | Some (Err (EncoderError _ err), s') =>
      err = [101] /\ assoc_find "out.mp4" (files s') = Some []
  | _ => False
  end.
Proof. split; vm_compute; [reflexivity | split; reflexivity]. Qed.

Lemma record_destination_witness :
  exists s',
    @record quiet_env 20 probe_movie "out.mp4" 10 10 PyFloat.zero
      (Some (PyFloat.of_Z 1)) false [] (mkSys [("out.mp4", [1; 2; 3])] [] []) =
      Some (Ok tt, s') /\
    assoc_find "out.mp4" (files s') = Some [7].
Proof.
  assert (Hdest : forall cmd px fs ds,
             assoc_find "out.mp4" (run_files (@run_ffmpeg quiet_env cmd px fs ds)) =
             assoc_find "out.mp4" fs) by reflexivity.
  assert (Htmp : forall tmp, @mkdtemp quiet_env = Ok tmp ->
             (forall i, "out.mp4" <> audio_clip_path tmp i) /\ under tmp "out.mp4" = false).
  { intros tmp Hm. injection Hm as <-. split; [|vm_compute; reflexivity].
    intros i Heq. apply (f_equal (String.get 0)) in Heq. vm_compute in Heq.
    discriminate Heq. }
  destruct (@record quiet_env 20 probe_movie "out.mp4" 10 10 PyFloat.zero
              (Some (PyFloat.of_Z 1)) false [] (mkSys [("out.mp4", [1; 2; 3])] [] []))
    as [[r s']|] eqn:E.
  2: { exfalso. vm_compute in E. discriminate E. }
  pose proof (proj1 (@record_destination quiet_env 20 probe_movie "out.mp4" 10 10
                       PyFloat.zero (Some (PyFloat.of_Z 1)) [] _ r s' Hdest Htmp) E) as C.
  assert (Hr : r = Ok tt)
    by (vm_compute in E; injection E as Hr _; symmetry; exact Hr).
  subst r. exists s'. split; [reflexivity|].
  destruct C as (end_t & tmp & s2 & w & cmd & s3 & _ & _ & _ & _ & _ & C).
  exact C.
Defined.

(** C8 (amended). When [end_time] is known and the destination could be
    opened, [record] creates the scratch directory before recording. It
    removes it only after the external encoder has run, whether the
    encoder succeeded or failed. A failure before the encoder runs leaves
    the directory on disk: a node-evaluation failure while recording, or
    an error while writing the audio files into it. When [duration], the
    opening of the destination or [mkdtemp] fails, no directory is
    created. *)
Theorem record_scratch_dir `{Collaborators} fuel m filename fr sr start_time
    end_time file_obj opts s r s' :
  record fuel m filename fr sr start_time end_time file_obj opts s = Some (r, s') ->
  match (match end_time with Some e => Ok e | None => duration m end) with
  | Err e => r = Err e /\ s' = s
  | Ok end_t =>
      match record_setup filename file_obj s with
      | (Err e, s2) => r = Err e /\ s' = s2 /\ dirs s' = dirs s
      | (Ok tmp, s2) =>
          In tmp (dirs s2) /\
          match record_frames fuel m start_time end_t fr sr with
          | Err e => r = Err e /\ s' = s2 /\ In tmp (dirs s')
          | Ok (Running _) => False
          | Ok (Finished w) =>
              match prepare_record_command (m_nodes (rs_movie w)) (rs_audio w) fr sr
                      (extension filename) opts tmp s2 with
              | (Err e, s3) => r = Err e /\ s' = s3 /\ In tmp (dirs s')
              | (Ok _, _) => ~ In tmp (dirs s')
              end
          end
      end
  end.
Proof.
  intros Hr. unfold record in Hr.
  destruct (match end_time with Some e => Ok e | None => duration m end)
    as [end_t|e]; [|injection Hr as <- <-; split; reflexivity].
  destruct (record_setup filename file_obj s) as [[tmp|e] s2] eqn:Hs;
    pose proof (record_setup_cases _ _ _ _ _ Hs) as Hc; cbv zeta in Hc.
  2: { injection Hr as <- <-. split; [reflexivity|]. split; [reflexivity|].
       destruct Hc as [(_ & _ & ->)|(_ & _ & ->)]; [reflexivity|].
       destruct file_obj; reflexivity. }
  destruct Hc as (_ & _ & Hs2).
  assert (Hin : In tmp (dirs s2)) by (rewrite Hs2; left; reflexivity).
  split; [exact Hin|].
  destruct (record_frames fuel m start_time end_t fr sr) as [[w|w]|e];
    [|discriminate|injection Hr as <- <-; repeat split; exact Hin].
  injection Hr as Hr. apply encode_and_write_cases in Hr.
  destruct (prepare_record_command _ _ _ _ _ _ _ s2) as [[cmd|e] s3] eqn:Hp.
  - cbv zeta in Hr. destruct (rmtree tmp _) as [u s5] eqn:Hrm.
    apply rmtree_removes in Hrm.
    destruct u as [u|e]; [|destruct Hr as [_ ->]; exact Hrm].
    destruct (run_stderr _); destruct Hr as [_ ->]; [|exact Hrm].
    destruct file_obj; [exact Hrm|]. rewrite write_dest_dirs. exact Hrm.
  - destruct Hr as [-> ->]. repeat split.
    rewrite (prepare_record_command_dirs _ _ _ _ _ _ _ _ _ _ Hp). exact Hin.
Qed.

(** C8: a node-evaluation failure aborts the recording and leaves the
    scratch directory on disk. *)
Lemma record_scratch_dir_counterexample :
  exists s',
    @record failing_env 20 probe_movie "out.mp4" 10 10 PyFloat.zero
      (Some (PyFloat.of_Z 1)) false [] (mkSys [] [] []) =
      Some (Err (NodeFailure 0), s') /\
    In "/tmp/ved-x1" (dirs s').
Proof.
  eexists. split; [vm_compute; reflexivity|]. left. reflexivity.
Qed.

Lemma record_scratch_dir_witness :
  exists r s',
    @record quiet_env 20 probe_movie "out.mp4" 10 10 PyFloat.zero
      (Some (PyFloat.of_Z 1)) false [] (mkSys [] [] []) = Some (r, s') /\
    ~ In "/tmp/ved-x1" (dirs s').
Proof.
  destruct (@record quiet_env 20 probe_movie "out.mp4" 10 10 PyFloat.zero
              (Some (PyFloat.of_Z 1)) false [] (mkSys [] [] []))
    as [[r s']|] eqn:E.
  2: { exfalso. vm_compute in E. discriminate E. }
  pose proof (@record_scratch_dir quiet_env 20 probe_movie "out.mp4" 10 10
                PyFloat.zero (Some (PyFloat.of_Z 1)) false [] _ r s' E) as C.
  exists r, s'. split; [reflexivity|].
  vm_compute in C. vm_compute. exact (proj2 C).
Defined.

(** C9 (code bug). [_record_frames] captures samples for every audio
    output node at every audio step from the start of the recording, with
    no test of the node's [start_time]: on a firing step each node gets the
    bytes of its current samples. [_prepare_record_command] then writes
    the [i]-th entry of [audio_data] to the scratch file [audio_<i>.wav]
    (pairwise distinct paths) and declares it as an input [-i], immediately
    preceded by [-itsoffset] and the [start_time] of the entry's node,
    after the image pipe and in the order of [audio_data]. So the time
    before [start_time] is filled with samples generated by the recording,
    and these are delayed once more by [-itsoffset]. A node starting at
    2.0, recorded from 0.0 to 5.0 at one sample per second, gets six
    zero-valued two-channel 16-bit frames (two of them for [[0, 2.0)]),
    and its file is declared with [-itsoffset 2.0], which places the
    captured audio on [[2.0, 8.0)]. *)
Theorem record_itsoffset_double_delay `{Collaborators} :
  (forall inc fr sr w w1 m1,
     record_step inc fr sr w = Ok w1 -> tick (rs_movie w) = Ok m1 ->
     fires inc sr (rs_progress w) = Ok true -> NoDup (map node_id (m_nodes m1)) ->
     forall n, In n (m_nodes m1) -> has_audio n = Ok true ->
       exists sv samples b0 enc b1,
         getattr n "samples" = Ok sv /\ iter_floats sv = Ok samples /\
         write_samples n samples [] b0 = Ok (enc, b1) /\
         am_find (node_id n) (rs_audio w1) =
           Some (match am_find (node_id n) (rs_audio w) with Some v => v | None => [] end
                 ++ enc)) /\
  (forall ns ad fr sr fmt opts tmp s cmd s',
     prepare_record_command ns ad fr sr fmt opts tmp s = (Ok cmd, s') ->
     (forall i j, audio_clip_path tmp i = audio_clip_path tmp j -> i = j) /\
     exists sts rest,
       cmd = ("ffmpeg -r " ++ str_Z fr ++ " -f png_pipe -i pipe: "
              ++ input_args tmp 0 sts ++ "-y -r " ++ rest)%string /\
       List.length sts = List.length ad /\
       forall i k smp, nth_error ad i = Some (k, smp) ->
         exists n st ch wd,
           node_by_id k ns = Some n /\ getattr n "start_time" = Ok st /\
           nth_error sts i = Some st /\
           assoc_find (audio_clip_path tmp i) (files s') =
             Some (wav_bytes ch sr wd (Z.of_nat (List.length smp)) ++ smp)) /\
  exists w,
    @record_frames quiet_env 10
      (mkMovie [audio_out_node 0 (PyFloat.of_Z 2) 2 16 [PyFloat.zero; PyFloat.zero]]
         PyFloat.zero blank)
      PyFloat.zero (PyFloat.of_Z 5) 1 1 = Ok (Finished w) /\
    rs_audio w = [(0%nat, repeat 0 24)] /\
    exists s',
      @prepare_record_command quiet_env (m_nodes (rs_movie w)) (rs_audio w) 1 1 "mp4" []
        "/tmp/ved-x1" (mkSys [] [] []) =
        (Ok "ffmpeg -r 1 -f png_pipe -i pipe: -itsoffset 2.0 -i /tmp/ved-x1/audio_0.wav -y -r 1 -ar 1 -f mp4 pipe: -v error", s') /\
      assoc_find "/tmp/ved-x1/audio_0.wav" (files s') =
        Some (wav_bytes 2 1 2 24 ++ repeat 0 24).
Proof.
  split; [|split].
  - intros inc fr sr w w1 m1 Hst Ht Hfa.
    exact (proj2 (record_step_captures inc fr sr w w1 m1 Hst Ht) Hfa).
  - intros ns ad fr sr fmt opts tmp s cmd s' Hp.
    split; [exact (audio_clip_path_inj tmp)|].
    unfold prepare_record_command, io_bind in Hp.
    destruct (audio_inputs ns ad sr tmp 0 _ s) as [[c|e] s1] eqn:Ha; [|discriminate].
    unfold ret in Hp. injection Hp as <- <-.
    destruct (audio_inputs_spec _ _ _ _ _ _ _ _ _ Ha) as (sts & Hc & Hlen & Hall).
    exists sts, (str_Z fr ++ " -ar " ++ str_Z sr ++ " -f " ++ fmt ++ " "
            ++ match opts with [] => "" | _ => join_space opts ++ " " end
            ++ "pipe: -v error")%string.
    split; [|split; [exact Hlen|exact Hall]].
    rewrite Hc. destruct opts;
      repeat progress (rewrite <- ?str_app_assoc; cbn [String.append]); reflexivity.
  - eexists. split; [vm_compute; reflexivity|].
    split; [vm_compute; reflexivity|].
    eexists. split; vm_compute; reflexivity.
Qed.

Lemma record_itsoffset_double_delay_witness :
  exists cmd s',
    @prepare_record_command quiet_env
      [audio_out_node 0 (PyFloat.of_Z 2) 2 16 [PyFloat.zero; PyFloat.zero]]
      [(0%nat, [0; 0])] 1 1 "mp4" [] "/tmp/ved-x1" (mkSys [] [] []) = (Ok cmd, s') /\
    exists sts rest,
      cmd = ("ffmpeg -r 1 -f png_pipe -i pipe: "
             ++ @input_args quiet_env "/tmp/ved-x1" 0 sts ++ "-y -r " ++ rest)%string /\
      List.length sts = 1%nat.
Proof.
  destruct (@prepare_record_command quiet_env
              [audio_out_node 0 (PyFloat.of_Z 2) 2 16 [PyFloat.zero; PyFloat.zero]]
              [(0%nat, [0; 0])] 1 1 "mp4" [] "/tmp/ved-x1" (mkSys [] [] []))
    as [[cmd|e] s'] eqn:E.
  2: { exfalso. vm_compute in E. discriminate E. }
  exists cmd, s'. split; [reflexivity|].
  destruct (proj1 (proj2 (@record_itsoffset_double_delay quiet_env)) _ _ 1 1 "mp4" []
              "/tmp/ved-x1" (mkSys [] [] []) cmd s' E) as [_ (sts & rest & Hc & Hl & _)].
  exists sts, rest. split; [exact Hc|exact Hl].
Defined.

(** C10. [screenshot] never reads its [time] argument: it ticks once at
    the movie's current clock, which it leaves unchanged, and writes the
    frame composited at that clock, whatever [time] is requested. *)
Theorem screenshot_ignores_time `{Collaborators} t t' m m1 f :
  screenshot t m = Ok (m1, f) ->
  screenshot t' m = Ok (m1, f) /\
  current_time m1 = current_time m /\
  frame_time f = current_time m.
Proof.
  unfold screenshot, bind. intros Hs. split; [exact Hs|].
  destruct (tick m) as [m2|e] eqn:Ht; [|discriminate].
  destruct get_buffer_manager; [|discriminate].
  injection Hs as <- <-. split; [exact (tick_time _ _ Ht)|].
  unfold tick, bind in Ht. destruct (process_nodes _ _); [|discriminate].
  unfold draw, bind in Ht. destruct (draw_nodes _ _); [|discriminate].
  injection Ht as <-. reflexivity.
Qed.

Lemma screenshot_ignores_time_witness :
  let m := mkMovie
             [mkNode 0 CVideo
                [("start_time", PFloat (PyFloat.of_Z 5));
                 ("end_time", PFloat (PyFloat.of_Z 10));
                 ("window", PNone); ("x", PInt 0); ("y", PInt 0); ("height", PInt 0)]]
             PyFloat.zero blank in
  exists m1 f,
    @screenshot quiet_env (PyFloat.of_Z 5) m = Ok (m1, f) /\
    @screenshot quiet_env PyFloat.zero m = Ok (m1, f) /\
    frame_time f = PyFloat.zero /\ frame_layers f = [] /\
    exists m2 f2,
      @screenshot quiet_env (PyFloat.of_Z 5) (set_time m (PyFloat.of_Z 5)) = Ok (m2, f2) /\
      frame_layers f2 = [0%nat].
Proof.
  intros m.
  destruct (@screenshot quiet_env (PyFloat.of_Z 5) m) as [[m1 f]|e] eqn:E.
  2: { exfalso. vm_compute in E. discriminate E. }
  destruct (@screenshot_ignores_time quiet_env (PyFloat.of_Z 5) PyFloat.zero m m1 f E)
    as (E2 & _ & Ht).
  assert (Hl : frame_layers f = []) by (vm_compute in E; injection E as _ <-; reflexivity).
  exists m1, f. split; [reflexivity|]. split; [exact E2|].
  split; [rewrite Ht; reflexivity|]. split; [exact Hl|].
  eexists; eexists. split; vm_compute; reflexivity.
Defined.

(** * Further properties of the code *)

(** ** Lemmas used below *)

Lemma play_loop_clock `{Collaborators} fuel end_time rate m m' :
  play_loop fuel end_time rate m = Ok (Some m') ->
  exists n,
    current_time m' = accumulate n (current_time m) (PyFloat.div (PyFloat.of_Z 1) rate) /\
    PyFloat.leb (current_time m') end_time = false /\
    forall k, (k < n)%nat ->
      PyFloat.leb (accumulate k (current_time m) (PyFloat.div (PyFloat.of_Z 1) rate))
        end_time = true.
Proof.
  revert m. induction fuel as [|f IH]; intros m Hp; cbn [play_loop] in Hp.
  - destruct (PyFloat.leb (current_time m) end_time) eqn:Hl; [discriminate|].
    injection Hp as <-. exists O. split; [reflexivity|]. split; [exact Hl|]. lia.
  - destruct (PyFloat.leb (current_time m) end_time) eqn:Hl.
    + unfold bind in Hp. destruct (tick m) as [m1|e] eqn:Ht; [|discriminate].
      unfold py_truediv in Hp.
      destruct rate as [sg|sg| |sg mr er]; try discriminate;
        destruct (IH _ Hp) as (n & Hc & Hend & Hall);
        cbn [set_time current_time] in Hc, Hall; rewrite (tick_time _ _ Ht) in Hc, Hall;
        exists (S n); (split; [exact Hc|]); (split; [exact Hend|]);
        intros [|k] Hk; [exact Hl| apply Hall; lia|exact Hl| apply Hall; lia
                        |exact Hl| apply Hall; lia].
    + injection Hp as <-. exists O. split; [reflexivity|]. split; [exact Hl|]. lia.
Qed.

Lemma play_loop_stall `{Collaborators} fuel end_time rate m m' :
  PyFloat.leb (current_time m) end_time = true ->
  PyFloat.add (current_time m) (PyFloat.div (PyFloat.of_Z 1) rate) = current_time m ->
  play_loop fuel end_time rate m <> Ok (Some m').
Proof.
  revert m. induction fuel as [|f IH]; intros m Hl Hs; cbn [play_loop]; rewrite Hl;
    [discriminate|].
  unfold bind. destruct (tick m) as [m1|e] eqn:Ht; [|discriminate].
  pose proof (tick_time _ _ Ht) as Hc.
  unfold py_truediv. destruct rate as [sg|sg| |sg mr er]; try discriminate;
    apply IH; cbn [set_time current_time]; rewrite Hc, ?Hs; first [assumption|reflexivity].
Qed.

Lemma record_loop_stall `{Collaborators} fuel inc end_time fr sr w w' :
  PyFloat.leb (current_time (rs_movie w)) end_time = true ->
  PyFloat.add (current_time (rs_movie w)) (PyFloat.div (PyFloat.of_Z 1) inc)
    = current_time (rs_movie w) ->
  record_loop fuel inc end_time fr sr w <> Ok (Finished w').
Proof.
  revert w. induction fuel as [|f IH]; intros w Hl Hs; cbn [record_loop]; rewrite Hl;
    [discriminate|].
  unfold bind. destruct (record_step inc fr sr w) as [w1|e] eqn:Hst; [|discriminate].
  destruct (record_step_inv _ _ _ _ _ Hst) as (m1 & fa & ff & _ & _ & _ & _ & _ & Hc).
  apply IH; rewrite Hc, Hs; assumption.
Qed.






(** ** [play] *)

(** X1: when [play] returns, it has ticked [n] times, at the clock values
    [start_time] plus [k] float additions of [1.0 / rate] for [k < n], all
    of them at most [end_time]; the clock it leaves is the next such value,
    which is not at most [end_time]. *)
Theorem play_clock `{Collaborators} fuel m start_time end_time rate m' :
  play fuel m start_time end_time rate = Ok (Some m') ->
  exists n,
    current_time m' = accumulate n start_time (PyFloat.div (PyFloat.of_Z 1) rate) /\
    PyFloat.leb (current_time m') end_time = false /\
    forall k, (k < n)%nat ->
      PyFloat.leb (accumulate k start_time (PyFloat.div (PyFloat.of_Z 1) rate)) end_time
      = true.
Proof. intros Hp. exact (play_loop_clock _ _ _ _ _ Hp). Qed.

Lemma play_clock_witness :
  exists m',
    @play quiet_env 10 (mkMovie [] PyFloat.zero blank) PyFloat.zero (PyFloat.of_Z 1)
      (PyFloat.of_Z 2) = Ok (Some m') /\
    exists n,
      current_time m' = accumulate n PyFloat.zero (PyFloat.div (PyFloat.of_Z 1) (PyFloat.of_Z 2)) /\
      PyFloat.leb (current_time m') (PyFloat.of_Z 1) = false.
Proof.
  destruct (@play quiet_env 10 (mkMovie [] PyFloat.zero blank) PyFloat.zero (PyFloat.of_Z 1)
              (PyFloat.of_Z 2)) as [[m'|]|e] eqn:E;
    [|exfalso; vm_compute in E; discriminate E|exfalso; vm_compute in E; discriminate E].
  destruct (@play_clock quiet_env 10 _ _ _ _ m' E) as (n & Hc & Hl & _).
  exists m'. split; [reflexivity|]. exists n. split; [exact Hc|exact Hl].
Defined.

(** X2: [play] with [start_time > end_time] never ticks and only sets the
    clock; with a zero [rate] and [start_time <= end_time] it ticks once
    and, when that tick returns (it raises, for instance, when
    [get_buffer_manager] does), then raises [ZeroDivisionError]. *)
Theorem play_edges `{Collaborators} fuel m start_time end_time rate :
  (PyFloat.leb start_time end_time = false ->
   play fuel m start_time end_time rate = Ok (Some (set_time m start_time))) /\
  (forall sg m1, rate = S754_zero sg -> PyFloat.leb start_time end_time = true ->
   tick (set_time m start_time) = Ok m1 ->
   play (S fuel) m start_time end_time rate = Err ZeroDivisionError).
Proof.
  split.
  - intros Hl. unfold play. destruct fuel; cbn [play_loop set_time current_time];
      rewrite Hl; reflexivity.
  - intros sg m1 -> Hl Ht. unfold play. cbn [play_loop].
    change (current_time (set_time m start_time)) with start_time. rewrite Hl.
    unfold bind. rewrite Ht. reflexivity.
Qed.

Lemma play_edges_witness :
  @play quiet_env 5 (mkMovie [] PyFloat.zero blank) (PyFloat.of_Z 2) PyFloat.zero
    (PyFloat.of_Z 1) = Ok (Some (mkMovie [] (PyFloat.of_Z 2) blank)) /\
  @play quiet_env 5 (mkMovie [] PyFloat.zero blank) PyFloat.zero (PyFloat.of_Z 1)
    PyFloat.zero = Err ZeroDivisionError.
Proof.
  destruct (@play_edges quiet_env 4 (mkMovie [] PyFloat.zero blank) PyFloat.zero
              (PyFloat.of_Z 1) PyFloat.zero) as [_ H2].
  destruct (@play_edges quiet_env 5 (mkMovie [] PyFloat.zero blank) (PyFloat.of_Z 2)
              PyFloat.zero (PyFloat.of_Z 1)) as [H1 _].
  split.
  - apply H1. vm_compute. reflexivity.
  - apply (H2 false (mkMovie [] PyFloat.zero (mkFrame PyFloat.zero []))); reflexivity.
Defined.

(** X3: if adding [1.0 / rate] to [start_time] leaves it unchanged in
    floating point (and [start_time <= end_time]), [play] never returns
    normally: the clock stays at [start_time] and the loop ticks until a
    tick raises, or forever. *)
Theorem play_stalls `{Collaborators} fuel m start_time end_time rate m' :
  PyFloat.leb start_time end_time = true ->
  PyFloat.add start_time (PyFloat.div (PyFloat.of_Z 1) rate) = start_time ->
  play fuel m start_time end_time rate <> Ok (Some m').
Proof. intros Hl Hs. apply play_loop_stall; assumption. Qed.

Lemma play_stalls_witness :
  PyFloat.add (PyFloat.of_Z (2 ^ 53)) (PyFloat.div (PyFloat.of_Z 1) (PyFloat.of_Z 1))
    = PyFloat.of_Z (2 ^ 53) /\
  forall m',
    @play quiet_env 20 (mkMovie [] PyFloat.zero blank) (PyFloat.of_Z (2 ^ 53))
      (PyFloat.of_Z (2 ^ 54)) (PyFloat.of_Z 1) <> Ok (Some m').
Proof.
  split; [vm_compute; reflexivity|]. intros m'.
  apply play_stalls; vm_compute; reflexivity.
Defined.

(** ** The recording loop's edges *)

(** X4: if adding [1.0 / increment] to [start_time] leaves it unchanged in
    floating point, [_record_frames] never returns a recording: it ticks
    and captures at [start_time] until a step raises, or forever. *)
Theorem record_frames_stalls `{Collaborators} fuel m start_time end_time fr sr inc w :
  lcm fr sr = Ok inc ->
  PyFloat.leb start_time end_time = true ->
  PyFloat.add start_time (PyFloat.div (PyFloat.of_Z 1) inc) = start_time ->
  record_frames fuel m start_time end_time fr sr <> Ok (Finished w).
Proof.
  intros Hi Hl Hs. unfold record_frames. rewrite Hi. cbn [bind].
  apply record_loop_stall; assumption.
Qed.

Lemma record_frames_stalls_witness :
  lcm 1 1 = Ok (PyFloat.of_Z 1) /\
  forall w,
    @record_frames quiet_env 20 probe_movie (PyFloat.of_Z (2 ^ 53)) (PyFloat.of_Z (2 ^ 54))
      1 1 <> Ok (Finished w).
Proof.
  split; [vm_compute; reflexivity|]. intros w.
  apply (record_frames_stalls _ _ _ _ _ _ (PyFloat.of_Z 1)); vm_compute; reflexivity.
Defined.



(** ** [gcd] and [lcm] on ints of any sign *)


(** ** Ordering of floats *)

Ltac sf_solve :=
  repeat match goal with
         | x : spec_float |- _ => destruct x as [?|?| |? ? ?]
         | x : PyFloat.t |- _ => destruct x as [?|?| |? ? ?]
         end;
  repeat match goal with b : bool |- _ => destruct b end;
  unfold PyFloat.ltb, PyFloat.leb, SFltb, SFleb, SFcompare;
  repeat match goal with
         | |- context [Z.compare ?a ?b] => destruct (Z.compare_spec a b)
         | |- context [Pos.compare_cont Eq ?a ?b] =>
             change (Pos.compare_cont Eq a b) with (Pos.compare a b);
             destruct (Pos.compare_spec a b)
         end;
  cbn; intros; subst; try reflexivity; try discriminate; try congruence; try lia.

Lemma sf_le_lt_trans x y z :
  PyFloat.leb x y = true -> PyFloat.ltb y z = true -> PyFloat.ltb x z = true.
Proof. sf_solve. Qed.

Lemma sf_lt_le_trans x y z :
  PyFloat.ltb x y = true -> PyFloat.leb y z = true -> PyFloat.ltb x z = true.
Proof. sf_solve. Qed.

Lemma sf_le_not_lt x y : PyFloat.leb x y = true -> PyFloat.ltb y x = false.
Proof. sf_solve. Qed.

Lemma sf_lt_le x y : PyFloat.ltb x y = true -> PyFloat.leb x y = true.
Proof. sf_solve. Qed.

Lemma sf_le_refl x : x <> S754_nan -> PyFloat.leb x x = true.
Proof. sf_solve. Qed.

Lemma sf_lt_not_nan x y : PyFloat.ltb x y = true -> y <> S754_nan.
Proof. sf_solve. Qed.

Lemma duration_from_spec d ns r :
  d <> S754_nan -> duration_from d ns = Ok r ->
  PyFloat.leb d r = true /\
  (r = d \/ exists n e, In n ns /\ getattr n "end_time" = Ok e /\ num_as_float e = Ok r) /\
  (forall n e ef, In n ns -> getattr n "end_time" = Ok e -> num_as_float e = Ok ef ->
     PyFloat.ltb r ef = false).
Proof.
  revert d. induction ns as [|n ns IH]; intros d Hd Hr; cbn [duration_from] in Hr.
  - injection Hr as <-. split; [apply sf_le_refl; exact Hd|].
    split; [left; reflexivity|]. intros n e ef [].
  - unfold bind in Hr.
    destruct (getattr n "end_time") as [e|x] eqn:He; [|discriminate].
    destruct (num_as_float e) as [ef|x] eqn:Hf; [|discriminate].
    destruct (PyFloat.ltb d ef) eqn:Hlt.
    + destruct (IH ef (sf_lt_not_nan _ _ Hlt) Hr) as (Hle & Hor & Hall).
      split; [exact (sf_lt_le _ _ (sf_lt_le_trans _ _ _ Hlt Hle))|].
      split.
      * right. destruct Hor as [->|(n' & e' & Hin & He' & Hf')].
        -- exists n, e. split; [left; reflexivity|]. split; assumption.
        -- exists n', e'. split; [right; exact Hin|]. split; assumption.
      * intros n' e' ef' [<-|Hin] He' Hf'.
        -- rewrite He in He'. injection He' as <-. rewrite Hf in Hf'. injection Hf' as <-.
           apply sf_le_not_lt. exact Hle.
        -- exact (Hall _ _ _ Hin He' Hf').
    + destruct (IH d Hd Hr) as (Hle & Hor & Hall).
      split; [exact Hle|]. split.
      * destruct Hor as [->|(n' & e' & Hin & He' & Hf')]; [left; reflexivity|].
        right. exists n', e'. split; [right; exact Hin|]. split; assumption.
      * intros n' e' ef' [<-|Hin] He' Hf'.
        -- rewrite He in He'. injection He' as <-. rewrite Hf in Hf'. injection Hf' as <-.
           destruct (PyFloat.ltb r ef) eqn:Hr'; [|reflexivity].
           rewrite (sf_le_lt_trans _ _ _ Hle Hr') in Hlt. discriminate.
        -- exact (Hall _ _ _ Hin He' Hf').
Qed.

(** ** [duration] *)

(** X7: [duration] is the largest [end_time] of the nodes, and [0.0] when
    there is none larger: it is at least [0.0], it is [0.0] or some node's
    [end_time], and no node's [end_time] is greater. *)
Theorem duration_max m d :
  duration m = Ok d ->
  PyFloat.leb PyFloat.zero d = true /\
  (d = PyFloat.zero \/
   exists n e, In n (m_nodes m) /\ getattr n "end_time" = Ok e /\ num_as_float e = Ok d) /\
  (forall n e ef, In n (m_nodes m) -> getattr n "end_time" = Ok e -> num_as_float e = Ok ef ->
     PyFloat.ltb d ef = false).
Proof. intros Hd. apply duration_from_spec; [discriminate|exact Hd]. Qed.

Lemma duration_max_witness :
  duration (mkMovie [audio_out_node 0 PyFloat.zero 1 8 [];
                                audio_out_node 1 PyFloat.zero 1 8 []] PyFloat.zero blank)
    = Ok (PyFloat.of_Z 100) /\
  PyFloat.leb PyFloat.zero (PyFloat.of_Z 100) = true.
Proof.
  split; [vm_compute; reflexivity|].
  exact (proj1 (duration_max
    (mkMovie [audio_out_node 0 PyFloat.zero 1 8 []; audio_out_node 1 PyFloat.zero 1 8 []]
       PyFloat.zero blank) (PyFloat.of_Z 100) ltac:(vm_compute; reflexivity))).
Defined.

(** ** [tick], [_process_nodes] and [_draw] *)

Lemma draw_nodes_spec `{Collaborators} t ns l :
  draw_nodes t ns = Ok l -> l = map node_id (filter (active_at t) ns).
Proof.
  revert l. induction ns as [|n ns IH]; intros l Hd; cbn [draw_nodes] in Hd.
  - injection Hd as <-. reflexivity.
  - unfold bind in Hd. cbn [filter]. unfold active_at at 1.
    destruct (is_active n t) as [[]|e]; [| |discriminate].
    + destruct (getattr n "window"); [|discriminate].
      destruct get_buffer_manager; [|discriminate].
      destruct (getattr n "x"); [|discriminate].
      destruct (getattr n "y"); [|discriminate].
      destruct (getattr n "height"); [|discriminate].
      destruct (draw_nodes t ns) as [l'|e] eqn:E; [|discriminate].
      injection Hd as <-. rewrite (IH l' eq_refl). reflexivity.
    + destruct (draw_nodes t ns) as [l'|e] eqn:E; [|discriminate].
      injection Hd as <-. exact (IH l' eq_refl).
Qed.

Lemma process_nodes_spec `{Collaborators} t ns ns' :
  process_nodes t ns = Ok ns' ->
  Forall2 (fun n n' =>
             (is_active n t = Ok false /\ n' = n) \/
             (is_active n t = Ok true /\
              exists n'', call_node n t = Ok n'' /\
                          n' = mkNode (node_id n) (node_cls n) (node_attrs n'')))
          ns ns'.
Proof.
  revert ns'. induction ns as [|n ns IH]; intros ns' Hp; cbn [process_nodes] in Hp.
  - injection Hp as <-. constructor.
  - unfold bind in Hp.
    destruct (is_active n t) as [[]|e] eqn:Ha; [| |discriminate].
    + unfold call_in_place, bind in Hp.
      destruct (call_node n t) as [n''|e] eqn:Hc; [|discriminate].
      destruct (process_nodes t ns) as [l|e]; [|discriminate].
      injection Hp as <-. constructor; [|exact (IH l eq_refl)].
      right. split; [exact Ha|]. exists n''. split; [exact Hc|reflexivity].
    + destruct (process_nodes t ns) as [l|e]; [|discriminate].
      injection Hp as <-. constructor; [|exact (IH l eq_refl)].
      left. split; [exact Ha|reflexivity].
Qed.

(** X8: a successful [tick] keeps the clock; it calls, in list order, every
    node active at the clock, exactly once each, and leaves the inactive
    nodes as they are, keeping the node list's length, order and
    identities; the frame it composites carries the clock and shows the
    video nodes that are active after those calls, in list order. *)
Theorem tick_spec `{Collaborators} m m1 :
  tick m = Ok m1 ->
  current_time m1 = current_time m /\
  Forall2 (fun n n' =>
             (is_active n (current_time m) = Ok false /\ n' = n) \/
             (is_active n (current_time m) = Ok true /\
              exists n'', call_node n (current_time m) = Ok n'' /\
                          n' = mkNode (node_id n) (node_cls n) (node_attrs n'')))
          (m_nodes m) (m_nodes m1) /\
  frame_time (color_buffer m1) = current_time m /\
  frame_layers (color_buffer m1) =
    map node_id (filter (active_at (current_time m)) (filter is_video (m_nodes m1))).
Proof.
  unfold tick, bind. intros Ht.
  destruct (process_nodes (current_time m) (m_nodes m)) as [ns|e] eqn:Hp; [|discriminate].
  unfold draw, bind in Ht. cbn [current_time m_nodes] in Ht.
  destruct (draw_nodes (current_time m) (filter is_video ns)) as [l|e] eqn:Hd; [|discriminate].
  injection Ht as <-. cbn [current_time m_nodes color_buffer frame_time frame_layers].
  split; [reflexivity|]. split; [exact (process_nodes_spec _ _ _ Hp)|].
  split; [reflexivity|]. exact (draw_nodes_spec _ _ _ Hd).
Qed.

Lemma tick_spec_witness :
  exists m1,
    @tick quiet_env (mkMovie [probe_node] PyFloat.zero blank) = Ok m1 /\
    current_time m1 = PyFloat.zero /\ frame_layers (color_buffer m1) = [].
Proof.
  exists (mkMovie [probe_node] PyFloat.zero (mkFrame PyFloat.zero [])).
  split; [apply probe_tick|].
  destruct (@tick_spec quiet_env (mkMovie [probe_node] PyFloat.zero blank)
              (mkMovie [probe_node] PyFloat.zero (mkFrame PyFloat.zero []))
              (probe_tick PyFloat.zero blank)) as (Hc & _ & _ & Hl).
  split; [exact Hc|]. rewrite Hl. reflexivity.
Defined.

(** ** [_write_audio_data] *)

(** X9: [_write_audio_data] succeeds exactly when [clip_path] can be
    opened and the node's parameters fit the WAV header: a channel count
    in [1, 65535], a sample rate in (0, 2^32), [sample_size // 8] between 1
    and 4, and block align, byte rate and [36 + len(data)] within their
    header fields. It then leaves at [clip_path] the 44-byte header with
    those parameters followed by the samples, and changes nothing else.
    Otherwise it raises: with the disk untouched when the path cannot be
    opened, else leaving at [clip_path] an empty file, the bytes
    [RIFFRIFF] when the header cannot be packed, or a header whose data
    length is rounded down to whole frames followed by the samples. *)
Theorem write_audio_data_outcome `{Collaborators} n smp rate path s :
  (forall nch w, open_path path = Ok tt ->
     wav_params n rate (Z.of_nat (List.length smp)) nch w ->
     write_audio_data n smp rate path s =
       (Ok tt, put_file path (wav_bytes nch rate w (Z.of_nat (List.length smp)) ++ smp) s)) /\
  (forall u s', write_audio_data n smp rate path s = (Ok u, s') ->
     open_path path = Ok tt /\
     exists nch w, wav_params n rate (Z.of_nat (List.length smp)) nch w /\
       s' = put_file path (wav_bytes nch rate w (Z.of_nat (List.length smp)) ++ smp) s) /\
  (forall e s', write_audio_data n smp rate path s = (Err e, s') ->
     (open_path path = Err e /\ s' = s) \/ s' = put_file path [] s \/
     s' = put_file path (riff ++ riff) s \/
     exists c k dl, dl < Z.of_nat (List.length smp) /\
       s' = put_file path (wav_bytes c rate k dl ++ smp) s).
Proof.
  split; [|split].
  - intros nch w Ho Hp. exact (write_audio_data_params n smp rate path s nch w Ho Hp).
  - intros u s' Hw. split.
    + destruct (open_path path) as [[]|e] eqn:Ho; [reflexivity|].
      unfold write_audio_data, open_wb, io_bind, lift in Hw. rewrite Ho in Hw.
      discriminate Hw.
    + exact (write_audio_data_ok n smp rate path s u s' Hw).
  - intros e s' Hw. exact (write_audio_data_err n smp rate path s e s' Hw).
Qed.

Lemma write_audio_data_outcome_witness :
  wav_params (audio_out_node 0 PyFloat.zero 2 16 []) 48000 2 2 2 /\
  @write_audio_data quiet_env (audio_out_node 0 PyFloat.zero 2 16 []) [1; 2] 48000 "a.wav"
    (mkSys [] [] []) =
    (Ok tt, put_file "a.wav" (wav_bytes 2 48000 2 2 ++ [1; 2]) (mkSys [] [] [])) /\
  exists e, @write_audio_data quiet_env (audio_out_node 0 PyFloat.zero 2 16 []) [1; 2] 0
    "a.wav" (mkSys [] [] []) = (Err e, put_file "a.wav" [] (mkSys [] [] [])).
Proof.
  assert (Hp : wav_params (audio_out_node 0 PyFloat.zero 2 16 []) 48000 2 2 2).
  { exists (PInt 2), (PInt 16). vm_compute. repeat split; discriminate || reflexivity. }
  split; [exact Hp|]. split.
  - exact (proj1 (@write_audio_data_outcome quiet_env (audio_out_node 0 PyFloat.zero 2 16 [])
                    [1; 2] 48000 "a.wav" (mkSys [] [] [])) 2 2 eq_refl Hp).
  - destruct (@write_audio_data quiet_env (audio_out_node 0 PyFloat.zero 2 16 []) [1; 2] 0
                "a.wav" (mkSys [] [] [])) as [[u|e] s'] eqn:E.
    + exfalso. vm_compute in E. discriminate E.
    + exists e. destruct (proj2 (proj2 (@write_audio_data_outcome quiet_env
                   (audio_out_node 0 PyFloat.zero 2 16 []) [1; 2] 0 "a.wav"
                   (mkSys [] [] []))) e s' E) as [[Ho _]|[->|[->|(c & k & dl & Hdl & ->)]]].
      * discriminate Ho.
      * reflexivity.
      * vm_compute in E. discriminate E.
      * vm_compute in E. discriminate E.
Defined.

(** ** [struct.pack] *)

Lemma mod_256_mul i m : 0 < m ->
  i mod (256 * m) = i mod 256 + 256 * ((i / 256) mod m).
Proof.
  intros Hm. symmetry. apply Z.mod_unique with (q := (i / 256) / m).
  - left. pose proof (Z.mod_pos_bound i 256 ltac:(lia)).
    pose proof (Z.mod_pos_bound (i / 256) m Hm). nia.
  - pose proof (Z.div_mod i 256 ltac:(lia)).
    pose proof (Z.div_mod (i / 256) m ltac:(lia)). nia.
Qed.

Lemma le_bytes_spec n i :
  List.length (le_bytes n i) = n /\
  Forall (fun b => 0 <= b < 256) (le_bytes n i) /\
  le_unsigned (le_bytes n i) = i mod 2 ^ (8 * Z.of_nat n).
Proof.
  revert i. induction n as [|n IH]; intros i; cbn [le_bytes List.length le_unsigned].
  - split; [reflexivity|]. split; [constructor|]. rewrite Z.mul_0_r, Z.pow_0_r.
    symmetry. apply Z.mod_1_r.
  - destruct (IH (i / 256)) as (Hl & Hf & Hu). split; [rewrite Hl; reflexivity|].
    split; [constructor; [apply Z.mod_pos_bound; lia|exact Hf]|].
    rewrite Hu. replace (8 * Z.of_nat (S n)) with (8 + 8 * Z.of_nat n) by lia.
    rewrite Z.pow_add_r by lia. change (2 ^ 8) with 256.
    rewrite mod_256_mul by (apply Z.pow_pos_nonneg; lia). reflexivity.
Qed.

Lemma unpack_le_bytes n i :
  (0 < n)%nat -> - 2 ^ (8 * Z.of_nat n - 1) <= i < 2 ^ (8 * Z.of_nat n - 1) ->
  unpack_le (le_bytes n i) = i.
Proof.
  intros Hn Hi. destruct (le_bytes_spec n i) as (Hl & _ & Hu).
  unfold unpack_le. rewrite Hl, Hu.
  set (k := 8 * Z.of_nat n - 1) in *.
  replace (8 * Z.of_nat n) with (k + 1) by lia.
  rewrite Z.pow_add_r, Z.pow_1_r by lia.
  assert (Hk : 0 < 2 ^ k) by (apply Z.pow_pos_nonneg; lia).
  rewrite Z.div_mul by lia.
  destruct (Z.leb_spec 0 i).
  - rewrite Z.mod_small by lia. rewrite (proj2 (Z.ltb_lt _ _)) by lia. reflexivity.
  - replace (i mod (2 ^ k * 2)) with (i + 2 ^ k * 2).
    + rewrite (proj2 (Z.ltb_ge _ _)) by lia. lia.
    + apply Z.mod_unique with (q := -1); lia.
Qed.

(** X10: [struct.pack('<h', i)] and [struct.pack('<i', i)], when they
    succeed, give 2 and 4 bytes in [0, 255] that read back, as
    little-endian two's complement, as [i]. *)
Theorem pack_roundtrip i :
  (forall bs, pack_h i = Ok bs ->
     List.length bs = 2%nat /\ Forall (fun b => 0 <= b < 256) bs /\ unpack_le bs = i) /\
  (forall bs, pack_i i = Ok bs ->
     List.length bs = 4%nat /\ Forall (fun b => 0 <= b < 256) bs /\ unpack_le bs = i).
Proof.
  split; intros bs; [unfold pack_h|unfold pack_i];
    destruct (Z.leb _ i) eqn:H1; destruct (Z.leb i _) eqn:H2; cbn [andb]; intros H;
    try discriminate; injection H as <-; apply Z.leb_le in H1; apply Z.leb_le in H2.
  - destruct (le_bytes_spec 2 i) as (Hl & Hf & _). split; [exact Hl|]. split; [exact Hf|].
    apply (unpack_le_bytes 2 i); cbn; lia.
  - destruct (le_bytes_spec 4 i) as (Hl & Hf & _). split; [exact Hl|]. split; [exact Hf|].
    apply (unpack_le_bytes 4 i); cbn; lia.
Qed.

Lemma pack_roundtrip_witness :
  pack_h (-2) = Ok [254; 255] /\ unpack_le [254; 255] = -2 /\
  pack_i 70000 = Ok [112; 17; 1; 0] /\ unpack_le [112; 17; 1; 0] = 70000.
Proof.
  split; [reflexivity|]. split; [exact (proj2 (proj2 (proj1 (pack_roundtrip (-2)) _ eq_refl)))|].
  split; [reflexivity|]. exact (proj2 (proj2 (proj2 (pack_roundtrip 70000) _ eq_refl))).
Defined.

(** ** Files [record] leaves alone *)

(** X11: [record] changes no file on disk other than the destination (when
    no file object is given), the audio clips [audio_<i>.wav] of the
    scratch directory and what lies under that directory, whatever the
    outcome, when the encoder itself leaves that file alone. *)
Theorem record_other_files `{Collaborators} fuel m filename fr sr start_time end_time
    file_obj opts s r s' k :
  (file_obj = false -> k <> filename) ->
  (forall cmd px fs ds, assoc_find k (run_files (run_ffmpeg cmd px fs ds)) = assoc_find k fs) ->
  (forall tmp, mkdtemp = Ok tmp ->
     (forall i, k <> audio_clip_path tmp i) /\ under tmp k = false) ->
  record fuel m filename fr sr start_time end_time file_obj opts s = Some (r, s') ->
  assoc_find k (files s') = assoc_find k (files s).
Proof.
  intros Hf Henc Htmp Hr. unfold record in Hr.
  destruct (match end_time with Some e => Ok e | None => duration m end) as [end_t|e];
    [|injection Hr as _ <-; reflexivity].
  assert (F1 : assoc_find k (files (if file_obj then s else put_file filename [] s)) =
               assoc_find k (files s)).
  { destruct file_obj; [reflexivity|]. apply fs_put_other, Hf. reflexivity. }
  destruct (record_setup filename file_obj s) as [[tmp|e] s2] eqn:Hs;
    pose proof (record_setup_cases _ _ _ _ _ Hs) as Hc; cbv zeta in Hc.
  2: { injection Hr as _ <-. destruct Hc as [(_ & _ & ->)|(_ & _ & ->)];
       [reflexivity|exact F1]. }
  destruct Hc as (Hm & _ & Hs2).
  assert (F2 : assoc_find k (files s2) = assoc_find k (files s)) by (rewrite Hs2; exact F1).
  destruct (Htmp tmp Hm) as [Hclip Hund].
  destruct (record_frames fuel m start_time end_t fr sr) as [[w|w]|e];
    [|discriminate|injection Hr as _ <-; exact F2].
  injection Hr as Hr. apply encode_and_write_cases in Hr.
  destruct (prepare_record_command _ _ _ _ _ _ _ s2) as [[cmd|e] s3] eqn:Hp;
    pose proof (prepare_record_command_keeps _ _ _ _ _ _ _ _ _ _ _ Hclip Hp) as [K _].
  2: { destruct Hr as [_ ->]. rewrite K. exact F2. }
  cbv zeta in Hr.
  destruct (rmtree tmp _) as [u s5] eqn:Hrm.
  pose proof (rmtree_keep _ _ _ _ _ Hund Hrm) as K5. cbn [files] in K5.
  rewrite Henc, K, F2 in K5.
  destruct u as [u|e]; [|destruct Hr as [_ ->]; exact K5].
  destruct (run_stderr _); destruct Hr as [_ ->]; [|exact K5].
  destruct file_obj; [exact K5|].
  unfold write_dest. destruct (assoc_find filename (files s5)); [|exact K5].
  unfold put_file, set_files. cbn [files].
  rewrite fs_put_other by (apply Hf; reflexivity). exact K5.
Qed.

Lemma record_other_files_witness :
  exists s',
    @record quiet_env 20 probe_movie "out.mp4" 10 10 PyFloat.zero
      (Some (PyFloat.of_Z 1)) false [] (mkSys [("notes.txt", [7])] [] []) =
      Some (Ok tt, s') /\
    assoc_find "notes.txt" (files s') = Some [7].
Proof.
  destruct (@record quiet_env 20 probe_movie "out.mp4" 10 10 PyFloat.zero
              (Some (PyFloat.of_Z 1)) false [] (mkSys [("notes.txt", [7])] [] []))
    as [[r s']|] eqn:E.
  2: { exfalso. vm_compute in E. discriminate E. }
  assert (Hr : r = Ok tt)
    by (vm_compute in E; injection E as Hr _; symmetry; exact Hr).
  subst r. exists s'. split; [reflexivity|].
  apply (@record_other_files quiet_env 20 probe_movie "out.mp4" 10 10 PyFloat.zero
           (Some (PyFloat.of_Z 1)) false [] (mkSys [("notes.txt", [7])] [] [])
           (Ok tt) s' "notes.txt").
  - intros _ Heq. discriminate Heq.
  - reflexivity.
  - intros tmp Hm. injection Hm as <-. split; [|vm_compute; reflexivity].
    intros i Heq. apply (f_equal (String.get 0)) in Heq. vm_compute in Heq. discriminate Heq.
  - exact E.
Defined.

(** ** The output format: [filename[filename.rfind('.') + 1:]] *)

Lemma rfind_dot_from_none i s acc :
  ~ In "."%char (list_ascii_of_string s) -> rfind_dot_from i s acc = acc.
Proof.
  revert i acc. induction s as [|c s IH]; intros i acc Hs; cbn [rfind_dot_from]; [reflexivity|].
  cbn [list_ascii_of_string In] in Hs.
  destruct (Ascii.eqb_spec c "."%char) as [->|Hc]; [exfalso; apply Hs; left; reflexivity|].
  apply IH. intros Hin. apply Hs. right. exact Hin.
Qed.

Lemma rfind_dot_from_last i pre post acc :
  ~ In "."%char (list_ascii_of_string post) ->
  rfind_dot_from i (pre ++ String "." post) acc = Z.of_nat (i + String.length pre).
Proof.
  revert i acc. induction pre as [|c pre IH]; intros i acc Hpost.
  - cbn [String.append rfind_dot_from]. rewrite Ascii.eqb_refl.
    rewrite rfind_dot_from_none by exact Hpost. f_equal. cbn [String.length]. lia.
  - cbn [String.append rfind_dot_from String.length]. rewrite IH by exact Hpost. f_equal. lia.
Qed.

Lemma substring_app_skip pre s n m :
  substring (String.length pre + n) m (pre ++ s) = substring n m s.
Proof. induction pre as [|c pre IH]; [reflexivity|]. cbn [String.length String.append]. exact IH. Qed.

Lemma substring_full s : substring 0 (String.length s) s = s.
Proof. induction s as [|c s IH]; [reflexivity|]. cbn. rewrite IH. reflexivity. Qed.

(** X12: the format passed to the encoder is the part of [filename] after
    its last dot, and the whole of [filename] when it has no dot. *)
Theorem extension_after_last_dot filename :
  (~ In "."%char (list_ascii_of_string filename) -> extension filename = filename) /\
  (forall pre post, ~ In "."%char (list_ascii_of_string post) ->
     filename = (pre ++ String "." post)%string -> extension filename = post).
Proof.
  split.
  - intros Hf. unfold extension. rewrite rfind_dot_from_none by exact Hf.
    cbn [Z.add Z.to_nat]. rewrite Nat.sub_0_r. apply substring_full.
  - intros pre post Hpost ->. unfold extension.
    rewrite rfind_dot_from_last by exact Hpost.
    replace (Z.to_nat (Z.of_nat (0 + String.length pre) + 1))
      with (String.length pre + 1)%nat by lia.
    rewrite str_length_app. cbn [String.length].
    replace (String.length pre + S (String.length post) - (String.length pre + 1))%nat
      with (String.length post) by lia.
    rewrite substring_app_skip. cbn [substring]. apply substring_full.
Qed.

Lemma extension_after_last_dot_witness :
  extension "clip.tar.gz" = "gz" /\ extension "clip" = "clip".
Proof.
  split.
  - apply (proj2 (extension_after_last_dot "clip.tar.gz") "clip.tar" "gz").
    + cbn. intros [H|[H|[]]]; discriminate H.
    + reflexivity.
  - apply (proj1 (extension_after_last_dot "clip")).
    cbn. intros [H|[H|[H|[H|[]]]]]; discriminate H.
Defined.

(** ** What [_record_frames] saves *)

Lemma tick_frame_time `{Collaborators} m m1 :
  tick m = Ok m1 -> frame_time (color_buffer m1) = current_time m.
Proof.
  unfold tick, bind. destruct (process_nodes _ _) as [ns|e]; [|discriminate].
  unfold draw, bind. cbn [current_time m_nodes].
  destruct (draw_nodes _ _); [|discriminate]. intros [= <-]. reflexivity.
Qed.


Lemma filter_map_S (f : nat -> bool) l :
  filter f (map S l) = map S (filter (fun j => f (S j)) l).
Proof.
  induction l as [|a l IH]; cbn; [reflexivity|].
  destruct (f (S a)); cbn [map]; rewrite IH; reflexivity.
Qed.

Lemma record_loop_frames `{Collaborators} fuel inc end_time fr sr w o :
  record_loop fuel inc end_time fr sr w = Ok o ->
  exists n,
    rs_progress (out_state o) = rs_progress w + Z.of_nat n /\
    map frame_time (rs_pixels (out_state o)) =
      map frame_time (rs_pixels w) ++
      map (fun j => accumulate j (current_time (rs_movie w)) (PyFloat.div (PyFloat.of_Z 1) inc))
          (filter (fun j => fired (fires inc fr (rs_progress w + Z.of_nat j))) (seq 0 n)).
Proof.
  revert w. induction fuel as [|f IH]; intros w Hl; cbn [record_loop] in Hl.
  - destruct (PyFloat.leb _ _); injection Hl as <-; exists O;
      cbn [out_state seq filter map]; rewrite app_nil_r; split; lia || reflexivity.
  - destruct (PyFloat.leb _ _).
    + unfold bind in Hl.
      destruct (record_step inc fr sr w) as [w'|] eqn:Hs; [|discriminate].
      destruct (record_step_inv _ _ _ _ _ Hs) as (m1 & fa & ff & Ht & _ & Hf & Hp & Hpr & Hc).
      destruct (IH _ Hl) as (n & Hn & Hm). exists (S n). split; [lia|].
      rewrite Hm, Hp, Hpr, Hc.
      assert (E : filter (fun j => fired (fires inc fr (rs_progress w + 1 + Z.of_nat j))) (seq 0 n) =
                  filter (fun j => fired (fires inc fr (rs_progress w + Z.of_nat (S j)))) (seq 0 n)).
      { apply filter_ext. intros j.
        replace (rs_progress w + Z.of_nat (S j)) with (rs_progress w + 1 + Z.of_nat j) by lia.
        reflexivity. }
      rewrite E. cbn [seq filter].
      change (Z.of_nat 0) with 0. rewrite Z.add_0_r, Hf. cbn [fired].
      rewrite <- seq_shift, filter_map_S.
      destruct ff; cbn [map]; rewrite map_map, ?map_app, <- ?app_assoc; cbn [map app accumulate];
        [rewrite (tick_frame_time _ _ Ht)|]; reflexivity.
    + injection Hl as <-. exists O.
      cbn [out_state seq filter map]; rewrite app_nil_r; split; lia || reflexivity.
Qed.

(** X13: the frames [_record_frames] saves are taken at exactly the steps
    [j] whose frame test [j % (increment / frame_rate) == 0] holds, in
    order, and each is stamped with the clock of its step: [start_time]
    plus [j] additions of [1 / increment]. *)
Theorem record_frames_frame_times `{Collaborators} fuel m start_time end_time fr sr o :
  record_frames fuel m start_time end_time fr sr = Ok o ->
  exists inc n,
    lcm fr sr = Ok inc /\ rs_progress (out_state o) = Z.of_nat n /\
    map frame_time (rs_pixels (out_state o)) =
      map (fun j => accumulate j start_time (PyFloat.div (PyFloat.of_Z 1) inc))
          (filter (fun j => fired (fires inc fr (Z.of_nat j))) (seq 0 n)).
Proof.
  unfold record_frames, bind. destruct (lcm fr sr) as [inc|e]; [|discriminate].
  intros Hl. destruct (record_loop_frames _ _ _ _ _ _ _ Hl) as (n & Hn & Hm).
  exists inc, n. split; [reflexivity|]. split; [exact Hn|]. exact Hm.
Qed.

Lemma record_frames_frame_times_witness :
  exists o,
    @record_frames quiet_env 3 probe_movie PyFloat.zero (PyFloat.of_Z 1) 1 2 = Ok o /\
    map frame_time (rs_pixels (out_state o)) = [PyFloat.zero; PyFloat.of_Z 1].
Proof.
  destruct (@record_frames quiet_env 3 probe_movie PyFloat.zero (PyFloat.of_Z 1) 1 2)
    as [o|e] eqn:E.
  2: { exfalso. vm_compute in E. discriminate E. }
  exists o. split; [reflexivity|].
  destruct (@record_frames_frame_times quiet_env 3 probe_movie PyFloat.zero (PyFloat.of_Z 1)
              1 2 o E) as (inc & n & Hinc & Hn & Hm).
  rewrite Hm. vm_compute in Hinc. injection Hinc as <-.
  assert (Hn3 : n = 3%nat).
  { vm_compute in E. injection E as <-. cbn in Hn. lia. }
  subst n. vm_compute. reflexivity.
Defined.

(** ** The buffers of [audio_data] *)










